(** * PDF page counter: a model of [src/App.tsx] and its properties

    The application walks a directory of PDF files, reads the page count
    of each one, files it under WIDE, A3 or A4 by a marker in its name,
    and shows the totals and a searchable, sortable, paginated table.

    The model follows the component function by function.  The browser
    and the two libraries are the environment: every file handle carries
    what [getFile], [arrayBuffer] and [pdfjsLib.getDocument] will answer
    for it, the directory pickers answer from a queue, and the calls made
    are written to a trace.  JavaScript numbers are integers ([N] for
    page counts, [Z] elsewhere).

    A string is the sequence of its code units.  The code units below
    128 are the characters of ASCII; a character outside ASCII is one or
    several code units of 128 and above, as in the UTF-8 form of a
    well-formed string, in which one string occurs in another exactly when
    it does so character by character.  What the case mappings make of
    the characters outside ASCII is left to the environment. *)

From Stdlib Require Import List String Ascii ZArith NArith Bool Lia.
From Stdlib Require Import Permutation Sorted DecimalString.
Import ListNotations.

Local Open Scope Z_scope.

(* ================================================================== *)
(** ** JavaScript strings *)

Module JsString.

Definition isLower (c : ascii) : bool :=
  ((97 <=? N_of_ascii c) && (N_of_ascii c <=? 122))%N.

Definition isUpper (c : ascii) : bool :=
  ((65 <=? N_of_ascii c) && (N_of_ascii c <=? 90))%N.

Definition upperChar (c : ascii) : ascii :=
  if isLower c then ascii_of_N (N_of_ascii c - 32) else c.

Definition lowerChar (c : ascii) : ascii :=
  if isUpper c then ascii_of_N (N_of_ascii c + 32) else c.

(** The code units of ASCII. *)
Definition isAscii (c : ascii) : bool := (N_of_ascii c <? 128)%N.

Fixpoint allAscii (s : string) : bool :=
  match s with
  | EmptyString => true
  | String c s' => isAscii c && allAscii s'
  end.

(** The letters a-z made capitals, one by one: what
    [String.prototype.toUpperCase] does to a string of ASCII. *)
Fixpoint asciiToUpperCase (s : string) : string :=
  match s with
  | EmptyString => EmptyString
  | String c s' => String (upperChar c) (asciiToUpperCase s')
  end.

(** The letters A-Z made small, one by one: what
    [String.prototype.toLowerCase] does to a string of ASCII. *)
Fixpoint asciiToLowerCase (s : string) : string :=
  match s with
  | EmptyString => EmptyString
  | String c s' => String (lowerChar c) (asciiToLowerCase s')
  end.

(** The case mappings of [String.prototype.toUpperCase] and
    [String.prototype.toLowerCase] follow the Unicode case conversion.
    An ASCII character is mapped by itself wherever it stands: a letter
    to its capital or to its small letter ([asciiMap]), any other to
    itself.  What becomes of the characters outside ASCII is the
    environment's to say (a dotless i becomes I, a sharp s becomes SS, a
    capital sigma becomes one small sigma or the other by what stands
    around it): [other before run after] is what the maximal run [run]
    of such characters becomes where it stands between [before] and
    [after]. *)
Section CaseMapping.
Variable asciiMap : ascii -> ascii.
Variable other : string -> string -> string -> string.

Definition mapRun (before run after : string) : string :=
  match run with
  | EmptyString => EmptyString
  | String _ _ => other before run after
  end.

(** [run] holds the characters outside ASCII read since the last ASCII
    one, [before] what stands before them. *)
Fixpoint mapCase (before run s : string) : string :=
  match s with
  | EmptyString => mapRun before run EmptyString
  | String c s' =>
      if isAscii c then
        mapRun before run s
        ++ String (asciiMap c)
             (mapCase (before ++ run ++ String c EmptyString) EmptyString s')
      else mapCase before (run ++ String c EmptyString) s'
  end.
End CaseMapping.

(** [String.prototype.startsWith] *)
Definition startsWith (s p : string) : bool := String.prefix p s.

(** [String.prototype.includes]: [sub] starts at some position of [s]. *)
Fixpoint includes (s sub : string) : bool :=
  startsWith s sub ||
  match s with
  | EmptyString => false
  | String _ s' => includes s' sub
  end.

(** [String.prototype.endsWith]: some tail of [s] is [suffix]. *)
Fixpoint endsWith (s suffix : string) : bool :=
  String.eqb s suffix ||
  match s with
  | EmptyString => false
  | String _ s' => endsWith s' suffix
  end.

(** [s.replace(/\//g, '-')] *)
Fixpoint replaceSlashes (s : string) : string :=
  match s with
  | EmptyString => EmptyString
  | String c s' =>
      String (if Ascii.eqb c "/"%char then "-"%char else c) (replaceSlashes s')
  end.

(** [Number.prototype.toString] on a non-negative integer. *)
Definition numberToString (n : N) : string :=
  NilEmpty.string_of_uint (N.to_uint n).

End JsString.

Import JsString.

(* ================================================================== *)
(** ** JavaScript arrays *)

Module JsArray.
Section Ops.
Context {A : Type}.

(** The relative index of [Array.prototype.slice]: negative indices
    count from the end, and the result is clamped to [0, len]. *)
Definition relIndex (len k : Z) : Z :=
  if k <? 0 then Z.max (len + k) 0 else Z.min k len.

(** [Array.prototype.slice(start, end)] *)
Definition slice (l : list A) (start stop : Z) : list A :=
  let len := Z.of_nat (List.length l) in
  let k := relIndex len start in
  let final := relIndex len stop in
  firstn (Z.to_nat (final - k)) (skipn (Z.to_nat k) l).

(** One step of the sort: [x] goes in front of the first element it
    does not compare greater than. *)
Fixpoint insert (cmp : A -> A -> Z) (x : A) (l : list A) : list A :=
  match l with
  | [] => [x]
  | y :: l' => if cmp x y <=? 0 then x :: y :: l' else y :: insert cmp x l'
  end.

(** [Array.prototype.sort(cmp)].  ECMAScript fixes the result, not
    the algorithm: the sort is stable, and for a consistent comparator
    the result is the sorted arrangement in which elements comparing
    equal keep their order.  Insertion from the right computes it. *)
Fixpoint sort (cmp : A -> A -> Z) (l : list A) : list A :=
  match l with
  | [] => []
  | x :: l' => insert cmp x (sort cmp l')
  end.
End Ops.
End JsArray.

(** [Math.ceil(a / b)] on integers, [b] not zero. *)
Definition Math_ceil_div (a b : Z) : Z := - ((- a) / b).

(** [Math.floor(a / b)] on integers, [b] not zero. *)
Definition Math_floor_div (a b : Z) : Z := a / b.

(* ================================================================== *)
(** ** The data of the component *)

Module FileType.
(** ['WIDE' | 'A3' | 'A4'] *)
Inductive t : Set := WIDE | A3 | A4.

(** The string each member of the union type is. *)
Definition label (ty : t) : string :=
  match ty with
  | WIDE => "WIDE"
  | A3 => "A3"
  | A4 => "A4"
  end%string.

Definition eqb (a b : t) : bool :=
  match a, b with
  | WIDE, WIDE | A3, A3 | A4, A4 => true
  | _, _ => false
  end.
End FileType.

Module PageCounts.
Record t : Set := Build { WIDE : N; A3 : N; A4 : N }.

Definition zero : t := Build 0 0 0.

(** [counts.X += n] *)
Definition add (ty : FileType.t) (n : N) (c : t) : t :=
  match ty with
  | FileType.WIDE => Build (WIDE c + n) (A3 c) (A4 c)
  | FileType.A3 => Build (WIDE c) (A3 c + n) (A4 c)
  | FileType.A4 => Build (WIDE c) (A3 c) (A4 c + n)
  end.

(** [counts[X]] *)
Definition get (ty : FileType.t) (c : t) : N :=
  match ty with
  | FileType.WIDE => WIDE c
  | FileType.A3 => A3 c
  | FileType.A4 => A4 c
  end.

(** [Object.entries(counts)]: own string keys in creation order. *)
Definition entries (c : t) : list (string * N) :=
  [("WIDE"%string, WIDE c); ("A3"%string, A3 c); ("A4"%string, A4 c)].
End PageCounts.

(** [PDFDocumentProxy]: a parsed document.  [destroy] is what
    [pdf.destroy()] will answer ([None]: the promise rejects). *)
Module PDFDocumentProxy.
Record t : Set := Build { numPages : N; destroy : option unit }.
End PDFDocumentProxy.

(** What [pdfjsLib.getDocument] makes of a file's bytes. *)
Inductive ArrayBuffer : Set :=
| PdfData (pdf : PDFDocumentProxy.t)   (* the document they hold *)
| OtherData.               (* corrupt or not a PDF: the promise rejects *)

Module File.
Record t : Set := Build {
  lastModified : Z;
  (** [None]: [file.arrayBuffer()] rejects *)
  arrayBuffer : option ArrayBuffer
}.
End File.

Module HandleKind.
(** [handle.kind] *)
Inductive t : Set := file | directory.

Definition eqb (a b : t) : bool :=
  match a, b with
  | file, file | directory, directory => true
  | _, _ => false
  end.
End HandleKind.

Module FileSystemFileHandle.
Record t : Set := Build {
  kind : HandleKind.t;
  name : string;
  (** [None]: [getFile()] rejects (the file has gone, or the
      permission was withdrawn) *)
  getFile : option File.t
}.
End FileSystemFileHandle.

Module FileInfo.
Record t : Set := Build {
  name : string;
  pages : N;
  type : FileType.t;
  createdAt : string;
  fileHandle : FileSystemFileHandle.t
}.
End FileInfo.

Module ProgressInfo.
Record t : Set := Build {
  processed : Z;
  total : Z;
  currentBatch : Z;
  totalBatches : Z
}.
End ProgressInfo.

Module SortField.
Inductive t : Set := name | type | pages | createdAt.

Definition eqb (a b : t) : bool :=
  match a, b with
  | name, name | type, type | pages, pages | createdAt, createdAt => true
  | _, _ => false
  end.
End SortField.

Module SortDirection.
Inductive t : Set := asc | desc.
End SortDirection.

(** [config.ts] *)
Module AppConfig.
Record t : Set := Build {
  docsPath : string;
  backupPath : string;
  useDocsPath : bool;
  useBackupRepo : bool;
  canDelete : bool
}.
End AppConfig.

Definition config : AppConfig.t :=
  AppConfig.Build "\\devops\BulkScan\DocItIn" "\\devops\BulkScan\ScanBackupRepo"
    true true true.

(** The [useState] cells of [App] that the analysis and the table use. *)
Module AppState.
Record t : Set := Build {
  pageCounts : PageCounts.t;
  fileList : list FileInfo.t;
  loading : bool;
  progress : option ProgressInfo.t;
  currentPage : Z;
  sortField : SortField.t;
  sortDirection : SortDirection.t;
  searchQuery : string
}.

Definition initial : t :=
  Build PageCounts.zero
      [] false None 1 SortField.name SortDirection.asc EmptyString.

Definition setPageCounts (v : PageCounts.t) (s : t) : t :=
  Build v (fileList s) (loading s) (progress s) (currentPage s)
    (sortField s) (sortDirection s) (searchQuery s).
Definition setFileList (v : list FileInfo.t) (s : t) : t :=
  Build (pageCounts s) v (loading s) (progress s) (currentPage s)
    (sortField s) (sortDirection s) (searchQuery s).
Definition setLoading (v : bool) (s : t) : t :=
  Build (pageCounts s) (fileList s) v (progress s) (currentPage s)
    (sortField s) (sortDirection s) (searchQuery s).
Definition setProgress (v : option ProgressInfo.t) (s : t) : t :=
  Build (pageCounts s) (fileList s) (loading s) v (currentPage s)
    (sortField s) (sortDirection s) (searchQuery s).
Definition setCurrentPage (v : Z) (s : t) : t :=
  Build (pageCounts s) (fileList s) (loading s) (progress s) v
    (sortField s) (sortDirection s) (searchQuery s).
Definition setSortField (v : SortField.t) (s : t) : t :=
  Build (pageCounts s) (fileList s) (loading s) (progress s) (currentPage s)
    v (sortDirection s) (searchQuery s).
Definition setSortDirection (v : SortDirection.t) (s : t) : t :=
  Build (pageCounts s) (fileList s) (loading s) (progress s) (currentPage s)
    (sortField s) v (searchQuery s).
Definition setSearchQuery (v : string) (s : t) : t :=
  Build (pageCounts s) (fileList s) (loading s) (progress s) (currentPage s)
    (sortField s) (sortDirection s) v.
End AppState.

(* ================================================================== *)
(** ** Effects: state, exceptions and the environment *)

(** Values a rejected promise or a [throw] carries. *)
Inductive Exn : Set :=
| AbortError            (* [showDirectoryPicker] was dismissed *)
| NotFoundError         (* [getFile] rejects *)
| NotReadableError      (* [arrayBuffer] rejects *)
| InvalidPDFException   (* [getDocument] rejects *)
| DestroyFailed         (* [pdf.destroy()] rejects *)
| PathNotAccessible.    (* [new Error('Selected path is not accessible...')] *)

(** Calls into the environment, in the order they are made. *)
Inductive Effect : Set :=
| CallGetFile (f : string)
| CallArrayBuffer (f : string)
| CallGetDocument (f : string)
| CallDestroy (f : string)
| Delay (ms : Z)
| ConsoleError (e : Exn)
| Alert (e : Exn).

(** The objects one run of [analysePDFs] works on.  [counts] and
    [processedFiles] are the two objects the run allocates and hands by
    reference to [processPDFBatch] and [processPDFFile]; [ui] is the
    React state; [pickers] holds what the coming directory pickers will
    answer ([None]: dismissed). *)
Module World.
Record t : Set := Build {
  counts : PageCounts.t;
  processedFiles : list FileInfo.t;
  ui : AppState.t;
  trace : list Effect;
  pickers : list (option (list FileSystemFileHandle.t))
}.

Definition setCounts v (w : t) : t :=
  Build v (processedFiles w) (ui w) (trace w) (pickers w).
Definition setProcessedFiles v (w : t) : t :=
  Build (counts w) v (ui w) (trace w) (pickers w).
Definition setUi v (w : t) : t :=
  Build (counts w) (processedFiles w) v (trace w) (pickers w).
Definition setTrace v (w : t) : t :=
  Build (counts w) (processedFiles w) (ui w) v (pickers w).
Definition setPickers v (w : t) : t :=
  Build (counts w) (processedFiles w) (ui w) (trace w) v.
End World.

(** How a computation ends: with a value, with a thrown value, or not
    within the loop bound it was given. *)
Inductive Completion (A : Type) : Type :=
| Normal (a : A)
| Throw (e : Exn)
| OutOfFuel.

Arguments Normal {A} a.
Arguments Throw {A} e.
Arguments OutOfFuel {A}.

Definition M (A : Type) : Type := World.t -> Completion A * World.t.

Definition ret {A} (a : A) : M A := fun w => (Normal a, w).

Definition bind {A B} (m : M A) (k : A -> M B) : M B :=
  fun w =>
    match m w with
    | (Normal a, w') => k a w'
    | (Throw e, w') => (Throw e, w')
    | (OutOfFuel, w') => (OutOfFuel, w')
    end.

Definition throw {A} (e : Exn) : M A := fun w => (Throw e, w).

Definition outOfFuel {A} : M A := fun w => (OutOfFuel, w).

(** [try { body } catch (error) { handler }]: what [body] did to the
    state before it threw stays done. *)
Definition tryCatch {A} (body : M A) (handler : Exn -> M A) : M A :=
  fun w =>
    match body w with
    | (Throw e, w') => handler e w'
    | r => r
    end.

(** [try { body } finally { final }] *)
Definition tryFinally {A} (body : M A) (final : M unit) : M A :=
  fun w =>
    match body w with
    | (OutOfFuel, w') => (OutOfFuel, w')
    | (r, w') =>
        match final w' with
        | (Normal _, w'') => (r, w'')
        | (Throw e, w'') => (Throw e, w'')
        | (OutOfFuel, w'') => (OutOfFuel, w'')
        end
    end.

Definition get : M World.t := fun w => (Normal w, w).
Definition modify (f : World.t -> World.t) : M unit := fun w =>
    (Normal tt, f w).
Definition emit (e : Effect) : M unit :=
  modify (fun w => World.setTrace (World.trace w ++ [e]) w).
Definition setState (f : AppState.t -> AppState.t) : M unit :=
  modify (fun w => World.setUi (f (World.ui w)) w).

(** [await p]: the value of a resolved promise, or its rejection thrown. *)
Definition await {A} (p : option A) (rejection : Exn) : M A :=
  match p with
  | Some a => ret a
  | None => throw rejection
  end.

Declare Scope js_scope.
Delimit Scope js_scope with js.
Notation "x <- m ;; k" := (bind m (fun x => k))
  (at level 100, m at next level, right associativity) : js_scope.
Notation "m ;; k" := (bind m (fun _ => k))
  (at level 100, right associativity) : js_scope.
Local Open Scope js_scope.

Definition stateOf {A} (r : Completion A * World.t) : World.t := snd r.
Definition completionOf {A}
    (r : Completion A * World.t) : Completion A := fst r.

(** [pdfjsLib.getDocument({ data }).promise] *)
Definition getDocument (data : ArrayBuffer) : option PDFDocumentProxy.t :=
  match data with
  | PdfData pdf => Some pdf
  | OtherData => None
  end.

(** [delay(ms)] *)
Definition delay (ms : Z) : M unit := emit (Delay ms).

(** [window.showDirectoryPicker()]: the next answer of the queue; a
    picker nobody answers counts as dismissed. *)
Definition showDirectoryPicker : M (list FileSystemFileHandle.t) :=
  fun w =>
    match World.pickers w with
    | Some dir :: rest => (Normal dir, World.setPickers rest w)
    | None :: rest => (Throw AbortError, World.setPickers rest w)
    | [] => (Throw AbortError, w)
    end.

(** [checkPathExists] of [config.ts]: it opens a picker of its own. *)
Definition checkPathExists (path : string) : M bool :=
  tryCatch
    (handle <- showDirectoryPicker;;
     ret true)
    (fun error => emit (ConsoleError error);; ret false).

(* ================================================================== *)
(** ** Export *)

Inductive Cell : Set :=
| Str (s : string)
| Num (n : N).

(** A row object handed to [XLSX.utils.json_to_sheet]: column, value. *)
Definition Row : Set := list (string * Cell).

(** The workbook [downloadExcel] writes: sheet names with their rows. *)
Definition Workbook : Set := list (string * list Row).

Definition downloadExcel (st : AppState.t) : string * Workbook :=
  let pageCounterData :=
    map (fun '(type, count) =>
           [("Type"%string, Str type); ("Pages"%string, Num count)])
        (PageCounts.entries (AppState.pageCounts st)) in
  let completedFilesData :=
    map (fun file =>
           [("Name"%string, Str (FileInfo.name file));
            ("Type"%string, Str (FileType.label (FileInfo.type file)));
            ("Pages"%string, Num (FileInfo.pages file));
            ("Created"%string, Str (FileInfo.createdAt file))])
        (AppState.fileList st) in
  ("PDF_Data.xlsx"%string,
   [("Page Counter"%string, pageCounterData);
    ("Completed Files"%string, completedFilesData)]).

(** [disabled] of the Download Excel button. *)
Definition downloadDisabled (st : AppState.t) : bool :=
  (Z.of_nat (List.length (AppState.fileList st)) =? 0) || AppState.loading st.

(** The rows of the sheet called [sheet]. *)
Definition sheetRows (sheet : string) (wb : Workbook) : list Row :=
  match find (fun p => String.eqb (fst p) sheet) wb with
  | Some p => snd p
  | None => []
  end.

(* ================================================================== *)
(** ** The viewer *)

(** The cells of the modal viewer and the handlers that write them.
    A handler reads the cells as they were rendered when it was called
    (its [closure]); what it writes shows to the handler called next.
    Handlers are taken to run one after the other.  The effect hook of
    the component writes no cell; it is not among the handlers. *)
Module Viewer.

(** A URL made by [URL.createObjectURL]: each call makes a new one. *)
Record Url : Set := MkUrl { id : nat; blob : File.t }.

Record t : Set := Build {
  selectedFile : option FileInfo.t;
  pdfUrl : option Url;
  pdfDocument : option PDFDocumentProxy.t;
  currentPdfPage : Z;
  totalPdfPages : Z
}.

(** The [useState] initial values. *)
Definition initial : t := Build None None None 1 0.

Definition setSelectedFile v (s : t) : t :=
  Build v (pdfUrl s) (pdfDocument s) (currentPdfPage s) (totalPdfPages s).
Definition setPdfUrl v (s : t) : t :=
  Build (selectedFile s) v (pdfDocument s) (currentPdfPage s) (totalPdfPages s).
Definition setPdfDocument v (s : t) : t :=
  Build (selectedFile s) (pdfUrl s) v (currentPdfPage s) (totalPdfPages s).
Definition setCurrentPdfPage v (s : t) : t :=
  Build (selectedFile s) (pdfUrl s) (pdfDocument s) v (totalPdfPages s).
Definition setTotalPdfPages v (s : t) : t :=
  Build (selectedFile s) (pdfUrl s) (pdfDocument s) (currentPdfPage s) v.

(** Calls into the environment, in the order they are made. *)
Inductive Event : Set :=
| GetFile (f : string)
| CreateObjectURL (url : Url)
| GetDocument (url : Url)
| RevokeObjectURL (url : Url)
| Destroy (pdf : PDFDocumentProxy.t)
| GetPage (pdf : PDFDocumentProxy.t) (pageNumber : Z)
| ConsoleError (e : Exn)
| Alert.

Record World : Set := MkWorld {
  state : t;
  nextUrl : nat;
  trace : list Event
}.

(** A page on which no file has been viewed yet. *)
Definition start : World := MkWorld initial 0 [].

Definition V (A : Type) : Type := World -> Completion A * World.

Definition ret {A} (a : A) : V A := fun w => (Normal a, w).

Definition bind {A B} (m : V A) (k : A -> V B) : V B :=
  fun w =>
    match m w with
    | (Normal a, w') => k a w'
    | (Throw e, w') => (Throw e, w')
    | (OutOfFuel, w') => (OutOfFuel, w')
    end.

Definition throw {A} (e : Exn) : V A := fun w => (Throw e, w).

Definition tryCatch {A} (body : V A) (handler : Exn -> V A) : V A :=
  fun w =>
    match body w with
    | (Throw e, w') => handler e w'
    | r => r
    end.

Definition getState : V t := fun w => (Normal (state w), w).
Definition emit (e : Event) : V unit :=
  fun w => (Normal tt, MkWorld (state w) (nextUrl w) (trace w ++ [e])).
Definition setState (f : t -> t) : V unit :=
  fun w => (Normal tt, MkWorld (f (state w)) (nextUrl w) (trace w)).

Definition await {A} (p : option A) (rejection : Exn) : V A :=
  match p with
  | Some a => ret a
  | None => throw rejection
  end.

Declare Scope viewer_scope.
Delimit Scope viewer_scope with viewer.
Notation "x <- m ;; k" := (bind m (fun x => k))
  (at level 100, m at next level, right associativity) : viewer_scope.
Notation "m ;; k" := (bind m (fun _ => k))
  (at level 100, right associativity) : viewer_scope.
Local Open Scope viewer_scope.

(** [URL.createObjectURL(fileData)] *)
Definition createObjectURL (fileData : File.t) : V Url :=
  fun w =>
    let url := MkUrl (nextUrl w) fileData in
    (Normal url,
     MkWorld (state w) (S (nextUrl w)) (trace w ++ [CreateObjectURL url])).

(** [pdfjsLib.getDocument(url).promise]: the bytes behind the URL are
    fetched and parsed. *)
Definition getDocumentAt (url : Url) : V PDFDocumentProxy.t :=
  emit (GetDocument url);;
  data <- await (File.arrayBuffer (blob url)) NotReadableError;;
  await (getDocument data) InvalidPDFException.

(** [renderPdfPage], of the rendering whose cells are [closure].  The
    call of [getPage] is recorded; what comes after it (the drawing on
    the canvas, or the [console.error] of the [catch] when the call or
    the drawing fails) writes no cell and throws nothing. *)
Definition renderPdfPage (closure : t) (pageNumber : Z) : V unit :=
  match pdfDocument closure with
  | None => ret tt
  | Some pdf => emit (GetPage pdf pageNumber)
  end.

Definition openPdfViewer (file : FileInfo.t) : V unit :=
  closure <- getState;;
  tryCatch
    (setState (setSelectedFile (Some file));;
     emit (GetFile (FileSystemFileHandle.name (FileInfo.fileHandle file)));;
     fileData <- await (FileSystemFileHandle.getFile
                          (FileInfo.fileHandle file)) NotFoundError;;
     url <- createObjectURL fileData;;
     setState (setPdfUrl (Some url));;
     pdf <- getDocumentAt url;;
     setState (setPdfDocument (Some pdf));;
     setState (setTotalPdfPages (Z.of_N (PDFDocumentProxy.numPages pdf)));;
     setState (setCurrentPdfPage 1);;
     renderPdfPage closure 1)
    (fun error =>
       emit (ConsoleError error);;
       emit Alert).

(** [pdfDocument.destroy()] is called and not awaited: what its promise
    answers reaches no handler. *)
Definition closeModal : V unit :=
  closure <- getState;;
  match pdfUrl closure with
  | Some url => emit (RevokeObjectURL url)
  | None => ret tt
  end;;
  match pdfDocument closure with
  | Some pdf => emit (Destroy pdf)
  | None => ret tt
  end;;
  setState (setSelectedFile None);;
  setState (setPdfUrl None);;
  setState (setPdfDocument None);;
  setState (setCurrentPdfPage 1);;
  setState (setTotalPdfPages 0).

Definition changePage (newPage : Z) : V unit :=
  closure <- getState;;
  if (1 <=? newPage) && (newPage <=? totalPdfPages closure) then
    setState (setCurrentPdfPage newPage);;
    renderPdfPage closure newPage
  else ret tt.

(** [selectedFile && pdfUrl]: the modal is rendered. *)
Definition modalShown (s : t) : bool :=
  match selectedFile s, pdfUrl s with
  | Some _, Some _ => true
  | _, _ => false
  end.

(** [disabled] of the Previous and Next buttons of the modal. *)
Definition previousDisabled (s : t) : bool := currentPdfPage s <=? 1.
Definition nextDisabled (s : t) : bool := totalPdfPages s <=? currentPdfPage s.

(** The clicks on Previous and Next. *)
Definition clickPreviousPage : V unit :=
  closure <- getState;;
  if modalShown closure && negb (previousDisabled closure) then
    changePage (currentPdfPage closure - 1)
  else ret tt.

Definition clickNextPage : V unit :=
  closure <- getState;;
  if modalShown closure && negb (nextDisabled closure) then
    changePage (currentPdfPage closure + 1)
  else ret tt.

(** What can be asked of the viewer, and a session of such calls. *)
Inductive Action : Set :=
| OpenPdfViewer (file : FileInfo.t)
| CloseModal
| ChangePage (newPage : Z)
| ClickPreviousPage
| ClickNextPage.

Definition handle (a : Action) : V unit :=
  match a with
  | OpenPdfViewer file => openPdfViewer file
  | CloseModal => closeModal
  | ChangePage newPage => changePage newPage
  | ClickPreviousPage => clickPreviousPage
  | ClickNextPage => clickNextPage
  end.

Fixpoint session (actions : list Action) : V unit :=
  match actions with
  | [] => ret tt
  | a :: rest => handle a;; session rest
  end.

(** The cells agree with each other: a document held goes with its
    page count, a file and a URL; without one the counter reads page 1
    of 0; the page is 1 or lies within the document; a URL held goes
    with a file. *)
Definition coherent (s : t) : Prop :=
  match pdfDocument s with
  | Some pdf =>
      totalPdfPages s = Z.of_N (PDFDocumentProxy.numPages pdf)
      /\ modalShown s = true
  | None => totalPdfPages s = 0 /\ currentPdfPage s = 1
  end
  /\ (currentPdfPage s = 1 \/ 1 <= currentPdfPage s <= totalPdfPages s)
  /\ (pdfUrl s <> None -> selectedFile s <> None).

(** Every page asked of a document is page 1 or a page it has. *)
Definition pagesWithinDocuments (tr : list Event) : Prop :=
  forall pdf n,
    In (GetPage pdf n) tr ->
    n = 1 \/ 1 <= n <= Z.of_N (PDFDocumentProxy.numPages pdf).

(** What the file behind a record holds. *)
Definition dataOf (file : FileInfo.t) : option ArrayBuffer :=
  match FileSystemFileHandle.getFile (FileInfo.fileHandle file) with
  | Some fileData => File.arrayBuffer fileData
  | None => None
  end.
End Viewer.

(* ================================================================== *)
(** ** Sample inputs *)

Module Sample.
(** A document of [numPages] pages that can be released. *)
Definition document (numPages : N) : PDFDocumentProxy.t :=
  PDFDocumentProxy.Build numPages (Some tt).

(** A readable PDF of [numPages] pages. *)
Definition pdf (name : string) (numPages : N) : FileSystemFileHandle.t :=
  FileSystemFileHandle.Build HandleKind.file name
    (Some (File.Build 0 (Some (PdfData (document numPages))))).

(** A readable PDF of [numPages] pages whose document, once parsed,
    cannot be released: [pdf.destroy()] rejects. *)
Definition stuck (name : string) (numPages : N) : FileSystemFileHandle.t :=
  FileSystemFileHandle.Build HandleKind.file name
    (Some (File.Build 0
             (Some (PdfData (PDFDocumentProxy.Build numPages None))))).

(** A file that has gone since the directory was listed. *)
Definition gone (name : string) : FileSystemFileHandle.t :=
  FileSystemFileHandle.Build HandleKind.file name None.

(** A file whose bytes cannot be read. *)
Definition unreadable (name : string) : FileSystemFileHandle.t :=
  FileSystemFileHandle.Build HandleKind.file name (Some (File.Build 0 None)).

(** A file that is not a PDF inside. *)
Definition corrupt (name : string) : FileSystemFileHandle.t :=
  FileSystemFileHandle.Build HandleKind.file name
    (Some (File.Build 0 (Some OtherData))).

(** A fresh page in which both directory pickers answer [dir]. *)
Definition world (dir : list FileSystemFileHandle.t) : World.t :=
  World.Build PageCounts.zero [] AppState.initial [] [Some dir; Some dir].

Definition endToEnd : list FileSystemFileHandle.t :=
  [pdf "A-WIDE.pdf" 3; pdf "B-A3.PDF" 5; pdf "C-unknown.pdf" 2;
   pdf "D-A4.pdf" 1].

Definition endToEndLowerCase : list FileSystemFileHandle.t :=
  [pdf "A-WIDE.pdf" 3; pdf "B-A3.pdf" 5; pdf "C-unknown.pdf" 2;
   pdf "D-A4.pdf" 1].

Definition withGoneFile : list FileSystemFileHandle.t :=
  [pdf "A-WIDE.pdf" 3; gone "B-A4.pdf"; pdf "C-A3.pdf" 5].

(** A directory whose first document cannot be released, and the same
    directory with a document that can. *)
Definition withStuckFile : list FileSystemFileHandle.t :=
  [stuck "A-WIDE.pdf" 3; pdf "B-A4.pdf" 1].

Definition withoutStuckFile : list FileSystemFileHandle.t :=
  [pdf "A-WIDE.pdf" 3; pdf "B-A4.pdf" 1].

Definition withBadFiles : list FileSystemFileHandle.t :=
  [pdf "A-WIDE.pdf" 3; unreadable "B-A4.pdf"; corrupt "B2-A4.pdf";
   pdf "C-A3.pdf" 5].

(** A date printer and a comparison of strings (shorter first, then by
    code unit), to run the table on. *)
Definition printDate (ms : Z) : string := "01/02/2024".

Fixpoint shortlexKey (acc : Z) (s : string) : Z :=
  match s with
  | EmptyString => acc
  | String c s' => shortlexKey (acc * 257 + Z.of_N (N_of_ascii c) + 1) s'
  end.

Definition compareCodeUnits (a b : string) : Z :=
  shortlexKey 0 a - shortlexKey 0 b.

Definition record (name : string) (pages : N) (type : FileType.t)
    (createdAt : string) : FileInfo.t :=
  FileInfo.Build name pages type createdAt (pdf name pages).

(** The page as it stands after an analysis that found [files]. *)
Definition analysed (files : list FileInfo.t) : AppState.t :=
  AppState.setFileList files AppState.initial.

Definition elevenFiles : list FileInfo.t :=
  [record "plan-01-A4.pdf" 1 FileType.A4 "01-02-2024";
   record "plan-02-A4.pdf" 2 FileType.A4 "01-02-2024";
   record "plan-03-A4.pdf" 3 FileType.A4 "01-02-2024";
   record "plan-04-A4.pdf" 4 FileType.A4 "01-02-2024";
   record "plan-05-A4.pdf" 5 FileType.A4 "01-02-2024";
   record "plan-06-A4.pdf" 6 FileType.A4 "01-02-2024";
   record "plan-07-A4.pdf" 7 FileType.A4 "01-02-2024";
   record "plan-08-A4.pdf" 8 FileType.A4 "01-02-2024";
   record "plan-09-A4.pdf" 9 FileType.A4 "01-02-2024";
   record "plan-10-A4.pdf" 10 FileType.A4 "01-02-2024";
   record "map-11-WIDE.pdf" 20 FileType.WIDE "03-02-2024"].

(** Twenty-five records: the eleven above, the eleven again as A3 and
    three more. *)
Definition twentyFiveFiles : list FileInfo.t :=
  elevenFiles
  ++ map (fun f =>
            record (String "b" (FileInfo.name f)) (FileInfo.pages f + 30)
              FileType.A3 "05-02-2024") elevenFiles
  ++ [record "x-A3.pdf" 61 FileType.A3 "06-02-2024";
      record "y-A3.pdf" 62 FileType.A3 "06-02-2024";
      record "z-A3.pdf" 63 FileType.A3 "06-02-2024"].



(** A record of three pages, and a record whose file has been
    overwritten with something else since the analysis. *)
Definition drawing : FileInfo.t :=
  record "plan-A4.pdf" 3 FileType.A4 "01-02-2024".

Definition overwritten : FileInfo.t :=
  FileInfo.Build "old-A4.pdf" 3 FileType.A4 "01-02-2024"
    (corrupt "old-A4.pdf").

(** A string given by its code units. *)
Fixpoint ofCodeUnits (units : list N) : string :=
  match units with
  | [] => EmptyString
  | u :: rest => String (ascii_of_N u) (ofCodeUnits rest)
  end.

(** The dotless i (U+0131); the Greek capitals alpha sigma and alpha
    sigma alpha; the small letters alpha and final sigma, and alpha
    sigma alpha (in UTF-8). *)
Definition dotlessI : string := ofCodeUnits [196; 177]%N.
Definition capitalAlphaSigma : string := ofCodeUnits [206; 145; 206; 163]%N.
Definition capitalAlphaSigmaAlpha : string :=
  ofCodeUnits [206; 145; 206; 163; 206; 145]%N.
Definition smallAlphaFinalSigma : string := ofCodeUnits [206; 177; 207; 130]%N.
Definition smallAlphaSigmaAlpha : string :=
  ofCodeUnits [206; 177; 207; 131; 206; 177]%N.

(** Case mappings of the characters outside ASCII to run the component
    on: they do to the strings above what JavaScript's do (the dotless
    i becomes I; a capital sigma at the end of a word becomes the final
    small sigma, inside a word the other one) and leave any other run
    as it is. *)
Definition otherToUpper (before run after : string) : string :=
  if String.eqb run dotlessI then "I"%string else run.

Definition otherToLower (before run after : string) : string :=
  if String.eqb run capitalAlphaSigma then smallAlphaFinalSigma
  else if String.eqb run capitalAlphaSigmaAlpha then smallAlphaSigmaAlpha
  else run.

(** A record whose name begins with the Greek capitals alpha sigma
    alpha. *)
Definition greekRecord : FileInfo.t :=
  record (capitalAlphaSigmaAlpha ++ "-A4.pdf") 1 FileType.A4 "01-02-2024".

(** A file whose name has a dotless i where -WIDE has its I. *)
Definition dotlessName : string := ("x-w" ++ dotlessI ++ "de.pdf")%string.

(** A page on which the pickers have all been used. *)
Definition noPicker : World.t :=
  World.Build PageCounts.zero [] AppState.initial [] [].
End Sample.

(* ================================================================== *)
(** ** The component *)

Section App.

(** [new Date(ms).toLocaleDateString('en-GB', { day: '2-digit',
    month: '2-digit', year: 'numeric' })], in the browser's time zone. *)
Variable toLocaleDateString : Z -> string.

(** [String.prototype.localeCompare] in the browser's locale. *)
Variable localeCompare : string -> string -> Z.

(** [Number(import.meta.env.VITE_BATCH_SIZE) || 3] *)
Variable BATCH_SIZE : Z.

(** What [String.prototype.toUpperCase] and [String.prototype.toLowerCase]
    make of the characters outside ASCII. *)
Variable otherToUpper : string -> string -> string -> string.
Variable otherToLower : string -> string -> string -> string.

(** [String.prototype.toUpperCase] *)
Definition toUpperCase (s : string) : string :=
  mapCase upperChar otherToUpper EmptyString EmptyString s.

(** [String.prototype.toLowerCase] *)
Definition toLowerCase (s : string) : string :=
  mapCase lowerChar otherToLower EmptyString EmptyString s.

Definition filesPerPage : Z := 10.

Definition formatDate (date : Z) : string :=
  replaceSlashes (toLocaleDateString date).

(** *** Analysis *)

Definition processPDFFile (fileHandle : FileSystemFileHandle.t)
  : M (option FileInfo.t) :=
  let fname := FileSystemFileHandle.name fileHandle in
  if HandleKind.eqb (FileSystemFileHandle.kind fileHandle) HandleKind.file
     && endsWith fname ".pdf"
  then
    let fileName := toUpperCase fname in
    emit (CallGetFile fname);;
    file <- await (FileSystemFileHandle.getFile fileHandle) NotFoundError;;
    tryCatch
      (emit (CallArrayBuffer fname);;
       arrayBuffer <- await (File.arrayBuffer file) NotReadableError;;
       emit (CallGetDocument fname);;
       pdf <- await (getDocument arrayBuffer) InvalidPDFException;;
       let numPages := PDFDocumentProxy.numPages pdf in
       let bump ty :=
         modify (fun w =>
           World.setCounts (PageCounts.add ty numPages (World.counts w)) w) in
       (* await pdf.destroy() *)
       let destroy :=
         emit (CallDestroy fname);;
         await (PDFDocumentProxy.destroy pdf) DestroyFailed in
       type <- (if includes fileName "-WIDE" then
                  bump FileType.WIDE;; ret (Some FileType.WIDE)
                else if includes fileName "-A3" then
                  bump FileType.A3;; ret (Some FileType.A3)
                else if includes fileName "-A4" then
                  bump FileType.A4;; ret (Some FileType.A4)
                else
                  destroy;; ret None);;
       match type with
       | None => ret None
       | Some type =>
           let result :=
             FileInfo.Build fname numPages type
               (formatDate (File.lastModified file)) fileHandle in
           destroy;;
           ret (Some result)
       end)
      (fun error => emit (ConsoleError error);; ret None)
  else ret None.

(** The body of [for (const fileHandle of pdfFiles)]. *)
Definition processOne (fileHandle : FileSystemFileHandle.t) : M unit :=
  result <- processPDFFile fileHandle;;
  match result with
  | Some result =>
      (* processedFiles.push(result) *)
      modify (fun w =>
        World.setProcessedFiles (World.processedFiles w ++ [result]) w);;
      (* setFileList([...processedFiles]) *)
      w <- get;;
      setState (AppState.setFileList (World.processedFiles w));;
      (* setPageCounts({ ...counts }) *)
      setState (AppState.setPageCounts (World.counts w))
  | None => ret tt
  end;;
  delay 100.

Fixpoint forEachFile (pdfFiles : list FileSystemFileHandle.t) : M unit :=
  match pdfFiles with
  | [] => ret tt
  | fileHandle :: rest => processOne fileHandle;; forEachFile rest
  end.

(** The hint to the garbage collector at the end ([window.gc]) has no
    effect on the state and is left out. *)
Definition processPDFBatch (pdfFiles : list FileSystemFileHandle.t)
    (currentBatch totalBatches : Z) : M unit :=
  forEachFile pdfFiles;;
  w <- get;;
  setState (AppState.setProgress (Some
    (ProgressInfo.Build
       (Z.of_nat (List.length (World.processedFiles w)))
       (totalBatches * BATCH_SIZE)
       currentBatch
       totalBatches))).

(** [for (let i = 0; i < pdfFiles.length; i += BATCH_SIZE)], cut off
    after [fuel] rounds. *)
Fixpoint batchLoop (fuel : nat) (pdfFiles : list FileSystemFileHandle.t)
    (totalBatches i : Z) : M unit :=
  if i <? Z.of_nat (List.length pdfFiles) then
    match fuel with
    | O => outOfFuel
    | S fuel' =>
        let batch := JsArray.slice pdfFiles i (i + BATCH_SIZE) in
        let currentBatch := Math_floor_div i BATCH_SIZE + 1 in
        processPDFBatch batch currentBatch totalBatches;;
        delay 200;;
        batchLoop fuel' pdfFiles totalBatches (i + BATCH_SIZE)
    end
  else ret tt.

(** The entries [analysePDFs] keeps of a directory. *)
Definition isPdfEntry (handle : FileSystemFileHandle.t) : bool :=
  HandleKind.eqb (FileSystemFileHandle.kind handle) HandleKind.file
  && endsWith (toLowerCase (FileSystemFileHandle.name handle)) ".pdf".

Definition analysePDFs (fuel : nat) : M unit :=
  tryFinally
    (tryCatch
       (setState (AppState.setLoading true);;
        setState (AppState.setProgress None);;
        dirHandle <-
          (if negb (AppConfig.useDocsPath config) then showDirectoryPicker
           else
             dirHandle <- showDirectoryPicker;;
             pathAccessible <-
               checkPathExists
                 (if AppConfig.useBackupRepo config
                  then AppConfig.backupPath config
                  else AppConfig.docsPath config);;
             if negb pathAccessible then throw PathNotAccessible
             else ret dirHandle);;
        modify (World.setCounts PageCounts.zero);;
        modify (World.setProcessedFiles []);;
        let pdfFiles := filter isPdfEntry dirHandle in
        let totalBatches :=
          Math_ceil_div (Z.of_nat (List.length pdfFiles)) BATCH_SIZE in
        batchLoop fuel pdfFiles totalBatches 0;;
        setState (AppState.setCurrentPage 1))
       (fun error => emit (ConsoleError error);; emit (Alert error)))
    (setState (AppState.setLoading false);;
     setState (AppState.setProgress None)).

(** *** The table *)


(** The predicate of [fileList.filter]. *)
Definition matchesQuery (searchQuery : string) (f : FileInfo.t) : bool :=
  let query := toLowerCase searchQuery in
  includes (toLowerCase (FileInfo.name f)) query
  || includes (toLowerCase (FileType.label (FileInfo.type f))) query
  || includes (numberToString (FileInfo.pages f)) query
  || includes (toLowerCase (FileInfo.createdAt f)) query.

Definition filteredFiles (st : AppState.t) : list FileInfo.t :=
  filter (matchesQuery (AppState.searchQuery st)) (AppState.fileList st).

(** The comparator of [[...filteredFiles].sort]. *)
Definition compareFiles (sortField : SortField.t)
    (sortDirection : SortDirection.t) (a b : FileInfo.t) : Z :=
  let direction :=
    match sortDirection with
    | SortDirection.asc => 1
    | SortDirection.desc => -1
    end in
  match sortField with
  | SortField.name =>
      localeCompare (FileInfo.name a) (FileInfo.name b) * direction
  | SortField.type =>
      localeCompare (FileType.label (FileInfo.type a))
        (FileType.label (FileInfo.type b)) * direction
  | SortField.pages =>
      (Z.of_N (FileInfo.pages a) - Z.of_N (FileInfo.pages b)) * direction
  | SortField.createdAt =>
      localeCompare (FileInfo.createdAt a) (FileInfo.createdAt b) * direction
  end.

Definition sortedFiles (st : AppState.t) : list FileInfo.t :=
  JsArray.sort
    (compareFiles (AppState.sortField st) (AppState.sortDirection st))
    (filteredFiles st).

Definition totalPages (st : AppState.t) : Z :=
  Math_ceil_div (Z.of_nat (List.length (sortedFiles st))) filesPerPage.

Definition startIndex (st : AppState.t) : Z :=
  (AppState.currentPage st - 1) * filesPerPage.

Definition visibleFiles (st : AppState.t) : list FileInfo.t :=
  JsArray.slice (sortedFiles st) (startIndex st) (startIndex st + filesPerPage).

(** The pagination bar is rendered when there are files and more than
    one page. *)
Definition paginationShown (st : AppState.t) : bool :=
  (0 <? Z.of_nat (List.length (AppState.fileList st))) && (1 <? totalPages st).

(** [setCurrentPage((p) => Math.max(1, p - 1))], behind a button that
    is disabled on page 1. *)
Definition clickPrevious (st : AppState.t) : AppState.t :=
  if paginationShown st && negb (AppState.currentPage st =? 1) then
    AppState.setCurrentPage (Z.max 1 (AppState.currentPage st - 1)) st
  else st.

(** [setCurrentPage((p) => Math.min(totalPages, p + 1))], behind a
    button that is disabled on the last page. *)
Definition clickNext (st : AppState.t) : AppState.t :=
  if paginationShown st && negb (AppState.currentPage st =? totalPages st) then
    AppState.setCurrentPage
      (Z.min (totalPages st) (AppState.currentPage st + 1)) st
  else st.

(** [onChange] of the search box. *)
Definition changeSearch (value : string) (st : AppState.t) : AppState.t :=
  AppState.setSearchQuery value st.

(** *** Notions the properties are stated with *)

(** The letters a-z, each with its capital. *)
Definition letterPairs : list (ascii * ascii) :=
  combine (list_ascii_of_string "abcdefghijklmnopqrstuvwxyz")
          (list_ascii_of_string "ABCDEFGHIJKLMNOPQRSTUVWXYZ").

(** The same character, or a letter and its capital. *)
Definition sameCharIgnoringCase (c d : ascii) : Prop :=
  c = d \/ In (c, d) letterPairs \/ In (d, c) letterPairs.

(** Equal character by character, up to the case of the letters a-z. *)
Inductive equalIgnoringCase : string -> string -> Prop :=
| equalIgnoringCase_empty : equalIgnoringCase EmptyString EmptyString
| equalIgnoringCase_char (c d : ascii) (s t : string) :
    sameCharIgnoringCase c d -> equalIgnoringCase s t ->
    equalIgnoringCase (String c s) (String d t).

(** [m] occurs in [s], up to the case of the letters a-z. *)
Definition containsIgnoringCase (s m : string) : Prop :=
  exists pre mid post,
    s = (pre ++ mid ++ post)%string /\ equalIgnoringCase mid m.

(** The sum of [pages] over the records of type [ty]. *)
Definition pagesOfType (ty : FileType.t) (l : list FileInfo.t) : N :=
  fold_right N.add 0%N
    (map FileInfo.pages
       (filter (fun f => FileType.eqb (FileInfo.type f) ty) l)).

Definition talliesMatch (c : PageCounts.t) (l : list FileInfo.t) : Prop :=
  forall ty, PageCounts.get ty c = pagesOfType ty l.

(** Both pairs of a run agree: the objects it works on, and the
    snapshot it has published. *)
Definition Consistent (w : World.t) : Prop :=
  talliesMatch (World.counts w) (World.processedFiles w)
  /\ talliesMatch (AppState.pageCounts (World.ui w))
                  (AppState.fileList (World.ui w)).

(** The file holds a document whose [destroy()] rejects. *)
Definition destroyRejects (h : FileSystemFileHandle.t) : bool :=
  match FileSystemFileHandle.getFile h with
  | Some f =>
      match File.arrayBuffer f with
      | Some (PdfData pdf) =>
          match PDFDocumentProxy.destroy pdf with
          | Some _ => false
          | None => true
          end
      | _ => false
      end
  | None => false
  end.

(** Every document the files hold can be released. *)
Definition allReleased (files : list FileSystemFileHandle.t) : Prop :=
  forall h, In h files -> destroyRejects h = false.

(** The slices [batchLoop] takes of [pdfFiles], in order. *)
Definition batchesOf (pdfFiles : list FileSystemFileHandle.t)
  : list (list FileSystemFileHandle.t) :=
  map (fun k => JsArray.slice pdfFiles (Z.of_nat k * BATCH_SIZE)
                 (Z.of_nat k * BATCH_SIZE + BATCH_SIZE))
      (seq 0 (Z.to_nat
                (Math_ceil_div (Z.of_nat (List.length pdfFiles)) BATCH_SIZE))).

(** Groups handed to [processPDFBatch] one after another, numbered
    from [currentBatch], with the pause after each. *)
Fixpoint runBatches (groups : list (list FileSystemFileHandle.t))
    (currentBatch totalBatches : Z) : M unit :=
  match groups with
  | [] => ret tt
  | batch :: rest =>
      processPDFBatch batch currentBatch totalBatches;;
      delay 200;;
      runBatches rest (currentBatch + 1) totalBatches
  end.



(** [x] sorts strictly before [y]. *)
Definition before {A : Type} (cmp : A -> A -> Z) (x y : A) : Prop :=
  cmp x y < 0.



(** [x] does not sort after [y]. *)
Definition notAfter {A : Type} (cmp : A -> A -> Z) (x y : A) : Prop :=
  cmp x y <= 0.

(** [l1] is [l2] with some elements left out, the others in their order. *)
Inductive subsequence {A : Type} : list A -> list A -> Prop :=
| subsequence_nil : subsequence [] []
| subsequence_keep (x : A) (l1 l2 : list A) :
    subsequence l1 l2 -> subsequence (x :: l1) (x :: l2)
| subsequence_skip (x : A) (l1 l2 : list A) :
    subsequence l1 l2 -> subsequence l1 (x :: l2).

(** The file a call into the environment is made on. *)
Definition calledOn (e : Effect) : option string :=
  match e with
  | CallGetFile f | CallArrayBuffer f | CallGetDocument f | CallDestroy f =>
      Some f
  | Delay _ | ConsoleError _ | Alert _ => None
  end.

(** A run has published nothing yet and shows [st0], or it shows its own
    records. *)
Definition showsOldOrOwn (st0 : AppState.t) (w : World.t) : Prop :=
  (World.processedFiles w = []
   /\ AppState.fileList (World.ui w) = AppState.fileList st0
   /\ AppState.pageCounts (World.ui w) = AppState.pageCounts st0)
  \/ (World.processedFiles w <> []
      /\ AppState.fileList (World.ui w) = World.processedFiles w).

(** From its first record on, a run shows its own tallies. *)
Definition showsOwnTallies (w : World.t) : Prop :=
  World.processedFiles w <> [] ->
  AppState.pageCounts (World.ui w) = World.counts w.

(** The cells of the page a run has no business with. *)
Definition sameView (st0 st : AppState.t) : Prop :=
  AppState.sortField st = AppState.sortField st0
  /\ AppState.sortDirection st = AppState.sortDirection st0
  /\ AppState.searchQuery st = AppState.searchQuery st0.

(** *** What one file does, in closed form (used in the proofs) *)

Definition passesGuard (h : FileSystemFileHandle.t) : bool :=
  HandleKind.eqb (FileSystemFileHandle.kind h) HandleKind.file
  && endsWith (FileSystemFileHandle.name h) ".pdf".

Definition markerOf (fileName : string) : option FileType.t :=
  if includes fileName "-WIDE" then Some FileType.WIDE
  else if includes fileName "-A3" then Some FileType.A3
  else if includes fileName "-A4" then Some FileType.A4
  else None.

Definition getFileRejects (h : FileSystemFileHandle.t) : bool :=
  passesGuard h &&
  match FileSystemFileHandle.getFile h with
  | None => true
  | Some _ => false
  end.

(** The document a file yields: it passes the guard, is fetched, read
    and parsed. *)
Definition parsedFor (h : FileSystemFileHandle.t)
  : option (File.t * PDFDocumentProxy.t) :=
  if passesGuard h then
    match FileSystemFileHandle.getFile h with
    | Some f =>
        match File.arrayBuffer f with
        | Some (PdfData pdf) => Some (f, pdf)
        | _ => None
        end
    | None => None
    end
  else None.

(** The tally a file raises, and by how much: it is parsed and its
    name bears a marker. *)
Definition tallyFor (h : FileSystemFileHandle.t) : option (FileType.t * N) :=
  match parsedFor h with
  | Some (_, pdf) =>
      match markerOf (toUpperCase (FileSystemFileHandle.name h)) with
      | Some ty => Some (ty, PDFDocumentProxy.numPages pdf)
      | None => None
      end
  | None => None
  end.

Definition countsAfter (h : FileSystemFileHandle.t) (c : PageCounts.t)
  : PageCounts.t :=
  match tallyFor h with
  | Some (ty, n) => PageCounts.add ty n c
  | None => c
  end.

(** The record a file yields: it raises a tally, and its document is
    released. *)
Definition recordFor (h : FileSystemFileHandle.t) : option FileInfo.t :=
  match parsedFor h with
  | Some (f, pdf) =>
      match markerOf (toUpperCase (FileSystemFileHandle.name h)),
            PDFDocumentProxy.destroy pdf with
      | Some ty, Some _ =>
          Some (FileInfo.Build (FileSystemFileHandle.name h)
                  (PDFDocumentProxy.numPages pdf) ty
                  (formatDate (File.lastModified f)) h)
      | _, _ => None
      end
  | None => None
  end.

Definition callsFor (h : FileSystemFileHandle.t) : list Effect :=
  let fname := FileSystemFileHandle.name h in
  if passesGuard h then
    match FileSystemFileHandle.getFile h with
    | None => [CallGetFile fname]
    | Some f =>
        CallGetFile fname :: CallArrayBuffer fname ::
        match File.arrayBuffer f with
        | None => [ConsoleError NotReadableError]
        | Some OtherData =>
            [CallGetDocument fname; ConsoleError InvalidPDFException]
        | Some (PdfData pdf) =>
            CallGetDocument fname :: CallDestroy fname ::
            match PDFDocumentProxy.destroy pdf with
            | Some _ => []
            | None => [ConsoleError DestroyFailed]
            end
        end
    end
  else [].

(** The records of [files] up to the first one whose [getFile] rejects. *)
Fixpoint recordsOf (files : list FileSystemFileHandle.t) : list FileInfo.t :=
  match files with
  | [] => []
  | h :: rest =>
      if getFileRejects h then []
      else match recordFor h with
           | Some r => r :: recordsOf rest
           | None => recordsOf rest
           end
  end.

Definition anyRejects (files : list FileSystemFileHandle.t) : bool :=
  existsb getFileRejects files.

(** Two worlds hold the same results: the objects of the run and the
    published snapshot. *)
Definition sameData (w1 w2 : World.t) : Prop :=
  World.counts w1 = World.counts w2
  /\ World.processedFiles w1 = World.processedFiles w2
  /\ AppState.fileList (World.ui w1) = AppState.fileList (World.ui w2)
  /\ AppState.pageCounts (World.ui w1) = AppState.pageCounts (World.ui w2).

(** Two computations ended the same way, with the same results. *)
Definition sameOutcome (r1 r2 : Completion unit * World.t) : Prop :=
  completionOf r1 = completionOf r2 /\ sameData (stateOf r1) (stateOf r2).

(* ---------------------------------------------------------------- *)
(** ** Strings *)

Lemma startsWith_spec (s p : string) :
  startsWith s p = true <-> exists post, s = (p ++ post)%string.
Proof.
  unfold startsWith. revert s.
  induction p as [|c p IH]; intros s.
  - destruct s; simpl; split; eauto.
  - destruct s as [|d s]; simpl.
    + split; [discriminate | intros [post H]; discriminate].
    + destruct (ascii_dec c d) as [->|Hne].
      * rewrite IH. split; intros [post H]; exists post; congruence.
      * split; [discriminate | intros [post H]; congruence].
Qed.

Lemma includes_spec (s sub : string) :
  includes s sub = true <-> exists pre post, s = (pre ++ sub ++ post)%string.
Proof.
  induction s as [|c s IH]; cbn [includes].
  - rewrite orb_false_r, startsWith_spec. split.
    + intros [post H]. exists EmptyString, post. exact H.
    + intros [pre [post H]]. destruct pre; [eauto | discriminate].
  - rewrite orb_true_iff, startsWith_spec, IH. split.
    + intros [[post H] | [pre [post H]]].
      * exists EmptyString, post. exact H.
      * exists (String c pre), post. simpl. congruence.
    + intros [pre [post H]]. destruct pre as [|d pre]; simpl in H.
      * left. eauto.
      * right. exists pre, post. congruence.
Qed.

Lemma includes_empty (s : string) : includes s EmptyString = true.
Proof. apply includes_spec. exists EmptyString, s. reflexivity. Qed.

Lemma asciiToUpperCase_app (a b : string) :
  asciiToUpperCase (a ++ b) = (asciiToUpperCase a ++ asciiToUpperCase b)%string.
Proof. induction a; simpl; congruence. Qed.

Lemma asciiToLowerCase_app (a b : string) :
  asciiToLowerCase (a ++ b) = (asciiToLowerCase a ++ asciiToLowerCase b)%string.
Proof. induction a; simpl; congruence. Qed.

Lemma asciiToUpperCase_split (s a b : string) :
  asciiToUpperCase s = (a ++ b)%string ->
  exists s1 s2,
    s = (s1 ++ s2)%string /\ asciiToUpperCase s1 = a /\ asciiToUpperCase s2 = b.
Proof.
  revert s. induction a as [|c a IH]; intros s H.
  - exists EmptyString, s. auto.
  - destruct s as [|d s]; [discriminate|]. simpl in H.
    injection H as Hc Hs. destruct (IH _ Hs) as [s1 [s2 [-> [H1 H2]]]].
    exists (String d s1), s2. simpl. repeat split; congruence.
Qed.

Lemma lowerChar_upperChar (c : ascii) : lowerChar (upperChar c) = lowerChar c.
Proof. destruct c as [[] [] [] [] [] [] [] []]; reflexivity. Qed.

Lemma upperChar_lowerChar (c : ascii) : upperChar (lowerChar c) = upperChar c.
Proof. destruct c as [[] [] [] [] [] [] [] []]; reflexivity. Qed.

Lemma upperChar_idem (c : ascii) : upperChar (upperChar c) = upperChar c.
Proof. destruct c as [[] [] [] [] [] [] [] []]; reflexivity. Qed.

Lemma asciiToLowerCase_asciiToUpperCase (s : string) :
  asciiToLowerCase (asciiToUpperCase s) = asciiToLowerCase s.
Proof. induction s; simpl; [|rewrite lowerChar_upperChar]; congruence. Qed.

Lemma asciiToUpperCase_asciiToLowerCase (s : string) :
  asciiToUpperCase (asciiToLowerCase s) = asciiToUpperCase s.
Proof. induction s; simpl; [|rewrite upperChar_lowerChar]; congruence. Qed.

Lemma asciiToUpperCase_idem (s : string) :
  asciiToUpperCase (asciiToUpperCase s) = asciiToUpperCase s.
Proof. induction s; simpl; [|rewrite upperChar_idem]; congruence. Qed.

Lemma lower_eq_iff_upper_eq (a b : string) :
  asciiToLowerCase a = asciiToLowerCase b
  <-> asciiToUpperCase a = asciiToUpperCase b.
Proof.
  split; intros H.
  - rewrite <- (asciiToUpperCase_asciiToLowerCase a), <-
      (asciiToUpperCase_asciiToLowerCase b).
    congruence.
  - rewrite <- (asciiToLowerCase_asciiToUpperCase a), <-
      (asciiToLowerCase_asciiToUpperCase b).
    congruence.
Qed.

Lemma letterPairs_upperChar (c d : ascii) :
  In (c, d) letterPairs -> upperChar c = d /\ upperChar d = d.
Proof.
  unfold letterPairs. cbn [list_ascii_of_string combine In].
  intros H.
  repeat (destruct H as [H|H]; [injection H as <- <-; split; reflexivity|]).
  destruct H.
Qed.

Lemma upperChar_cases (c : ascii) :
  upperChar c = c \/ In (c, upperChar c) letterPairs.
Proof.
  destruct c as [[] [] [] [] [] [] [] []];
    first [left; reflexivity
          | right; unfold letterPairs; cbn;
            repeat (first [left; reflexivity | right])].
Qed.

Lemma sameCharIgnoringCase_iff (c d : ascii) :
  sameCharIgnoringCase c d <-> upperChar c = upperChar d.
Proof.
  unfold sameCharIgnoringCase. split.
  - intros [->|[H|H]]; [reflexivity | |];
      apply letterPairs_upperChar in H; destruct H; congruence.
  - intros H.
    destruct (upperChar_cases c) as [Hc|Hc], (upperChar_cases d) as [Hd|Hd].
    + left. congruence.
    + right. right. rewrite <- H, Hc in Hd. exact Hd.
    + right. left. rewrite H, Hd in Hc. exact Hc.
    + destruct (letterPairs_upperChar _ _ Hc) as [_ Hc'].
      destruct (letterPairs_upperChar _ _ Hd) as [_ Hd'].
      rewrite H in Hc.
      left. revert Hc Hd. generalize (upperChar d). intros u Hc Hd.
      unfold letterPairs in Hc, Hd.
      cbn [list_ascii_of_string combine In] in Hc, Hd.
      repeat (destruct Hc as [Hc|Hc];
              [injection Hc as <- <-;
               repeat (destruct Hd as [Hd|Hd];
                       [first [injection Hd as <-; reflexivity
                              | discriminate Hd]|]);
               destruct Hd|]).
      destruct Hc.
Qed.

Lemma equalIgnoringCase_iff (a b : string) :
  equalIgnoringCase a b <-> asciiToUpperCase a = asciiToUpperCase b.
Proof.
  split.
  - induction 1 as [|c d s t Hcd Hst IH]; cbn [asciiToUpperCase];
      [reflexivity|].
    apply sameCharIgnoringCase_iff in Hcd. congruence.
  - revert b. induction a as [|c a IH]; intros [|d b] H; cbn in H;
      try discriminate H.
    + constructor.
    + injection H as Hc Hs. constructor.
      * now apply sameCharIgnoringCase_iff.
      * now apply IH.
Qed.

(** The test the code makes on the upper-cased name is containment up
    to case. *)
Lemma includes_asciiToUpperCase (s m : string) :
  includes (asciiToUpperCase s)
      (asciiToUpperCase m) = true <-> containsIgnoringCase s m.
Proof.
  rewrite includes_spec. unfold containsIgnoringCase.
  setoid_rewrite equalIgnoringCase_iff. split.
  - intros [pre [post H]].
    apply asciiToUpperCase_split in H. destruct H as [s1 [s2 [-> [H1 H2]]]].
    apply asciiToUpperCase_split in H2. destruct H2 as [s3 [s4 [-> [H3 H4]]]].
    exists s1, s3, s4. auto.
  - intros [pre [mid [post [-> H]]]].
    exists (asciiToUpperCase pre), (asciiToUpperCase post).
    rewrite !asciiToUpperCase_app. congruence.
Qed.

Lemma includes_asciiToLowerCase (s m : string) :
  includes (asciiToLowerCase s)
      (asciiToLowerCase m) = true <-> containsIgnoringCase s m.
Proof.
  rewrite <- includes_asciiToUpperCase, !includes_spec. split.
  - intros [pre [post H]].
    exists (asciiToUpperCase pre), (asciiToUpperCase post).
    rewrite <- (asciiToUpperCase_asciiToLowerCase s), H, !asciiToUpperCase_app.
    now rewrite asciiToUpperCase_asciiToLowerCase.
  - intros [pre [post H]].
    exists (asciiToLowerCase pre), (asciiToLowerCase post).
    rewrite <- (asciiToLowerCase_asciiToUpperCase s), H, !asciiToLowerCase_app.
    now rewrite asciiToLowerCase_asciiToUpperCase.
Qed.

Lemma asciiToLowerCase_string_of_uint (d : Decimal.uint) :
  asciiToLowerCase (NilEmpty.string_of_uint d) = NilEmpty.string_of_uint d.
Proof. induction d; simpl; [reflexivity | f_equal; assumption ..]. Qed.

Lemma asciiToLowerCase_numberToString (n : N) :
  asciiToLowerCase (numberToString n) = numberToString n.
Proof. apply asciiToLowerCase_string_of_uint. Qed.

(** *** The case mappings on ASCII *)


Lemma append_assoc (a b c : string) :
  ((a ++ b) ++ c)%string = (a ++ b ++ c)%string.
Proof. induction a; cbn; congruence. Qed.

Lemma allAscii_app (a b : string) :
  allAscii (a ++ b) = allAscii a && allAscii b.
Proof.
  induction a as [|c a IH]; cbn; [reflexivity|].
  now rewrite IH, andb_assoc.
Qed.


(** On a string of ASCII the case mappings go letter by letter. *)
Lemma toUpperCase_ascii (s : string) :
  allAscii s = true -> toUpperCase s = asciiToUpperCase s.
Proof.
  unfold toUpperCase. generalize EmptyString at 1.
  induction s as [|c s IH]; intros before H; [reflexivity|].
  cbn [allAscii] in H. apply andb_prop in H as [Hc Hs].
  cbn [mapCase asciiToUpperCase]. rewrite Hc. cbn [mapRun append].
  f_equal. now apply IH.
Qed.

Lemma mapCase_lower_ascii (before s : string) :
  allAscii s = true ->
  mapCase lowerChar otherToLower before EmptyString s = asciiToLowerCase s.
Proof.
  revert before.
  induction s as [|c s IH]; intros before H; [reflexivity|].
  cbn [allAscii] in H. apply andb_prop in H as [Hc Hs].
  cbn [mapCase asciiToLowerCase]. rewrite Hc. cbn [mapRun append].
  f_equal. now apply IH.
Qed.

Lemma toLowerCase_ascii (s : string) :
  allAscii s = true -> toLowerCase s = asciiToLowerCase s.
Proof. apply mapCase_lower_ascii. Qed.



Lemma allAscii_string_of_uint (d : Decimal.uint) :
  allAscii (NilEmpty.string_of_uint d) = true.
Proof. induction d; cbn; auto. Qed.

Lemma allAscii_numberToString (n : N) : allAscii (numberToString n) = true.
Proof. apply allAscii_string_of_uint. Qed.

Lemma allAscii_label (ty : FileType.t) : allAscii (FileType.label ty) = true.
Proof. destruct ty; reflexivity. Qed.

(* ---------------------------------------------------------------- *)
(** ** One file *)

Lemma world_eta (w : World.t) :
  World.Build (World.counts w) (World.processedFiles w) (World.ui w)
    (World.trace w) (World.pickers w) = w.
Proof. destruct w; reflexivity. Qed.

Lemma processPDFFile_run (h : FileSystemFileHandle.t) (w : World.t) :
  processPDFFile h w =
  if getFileRejects h then
    (Throw NotFoundError, World.setTrace (World.trace w ++ callsFor h) w)
  else
    (Normal (recordFor h),
     World.Build (countsAfter h (World.counts w))
       (World.processedFiles w) (World.ui w)
       (World.trace w ++ callsFor h) (World.pickers w)).
Proof.
  unfold processPDFFile, getFileRejects, recordFor, countsAfter, tallyFor,
    parsedFor, callsFor, markerOf.
  fold (passesGuard h).
  destruct w as [c pf u tr pk].
  destruct (passesGuard h); cbn.
  2: { now rewrite app_nil_r. }
  destruct (FileSystemFileHandle.getFile h) as [f|]; cbn; [|reflexivity].
  destruct (File.arrayBuffer f) as [[[n [[]|]]|]|]; cbn;
    unfold World.setTrace; cbn; rewrite <- ?app_assoc; cbn; try reflexivity.
  all: destruct (includes _ "-WIDE"); cbn;
    [unfold World.setTrace; cbn; rewrite <- ?app_assoc; reflexivity|].
  all: destruct (includes _ "-A3"); cbn;
    [unfold World.setTrace; cbn; rewrite <- ?app_assoc; reflexivity|].
  all: destruct (includes _ "-A4"); cbn;
    unfold World.setTrace; cbn; rewrite <- ?app_assoc; reflexivity.
Qed.

(** A record goes with the tally its file raises. *)
Lemma recordFor_tally (h : FileSystemFileHandle.t) (r : FileInfo.t) :
  recordFor h = Some r ->
  tallyFor h = Some (FileInfo.type r, FileInfo.pages r).
Proof.
  unfold recordFor, tallyFor.
  destruct (parsedFor h) as [[f pdf]|]; [|discriminate].
  destruct (markerOf _) as [ty|]; [|discriminate].
  destruct (PDFDocumentProxy.destroy pdf); [|discriminate].
  intros E. injection E as <-. reflexivity.
Qed.

Lemma countsAfter_record (h : FileSystemFileHandle.t) (r : FileInfo.t)
    (c : PageCounts.t) :
  recordFor h = Some r ->
  countsAfter h c = PageCounts.add (FileInfo.type r) (FileInfo.pages r) c.
Proof.
  intros H. unfold countsAfter. now rewrite (recordFor_tally h r H).
Qed.

Lemma processOne_run (h : FileSystemFileHandle.t) (w : World.t) :
  processOne h w =
  if getFileRejects h then
    (Throw NotFoundError, World.setTrace (World.trace w ++ callsFor h) w)
  else
    match recordFor h with
    | Some r =>
        let c := PageCounts.add (FileInfo.type r) (FileInfo.pages r)
                   (World.counts w) in
        let pf := World.processedFiles w ++ [r] in
        (Normal tt,
         World.Build c pf
           (AppState.setPageCounts c (AppState.setFileList pf (World.ui w)))
           (World.trace w ++ callsFor h ++ [Delay 100]) (World.pickers w))
    | None =>
        (Normal tt,
         World.Build (countsAfter h (World.counts w))
           (World.processedFiles w) (World.ui w)
           (World.trace w ++ callsFor h ++ [Delay 100]) (World.pickers w))
    end.
Proof.
  unfold processOne, bind. rewrite processPDFFile_run.
  destruct (getFileRejects h); [reflexivity|].
  destruct (recordFor h) as [r|] eqn:Hr; cbn;
    rewrite ?(countsAfter_record h r _ Hr);
    unfold delay, emit, modify, World.setUi, World.setProcessedFiles,
      World.setTrace; cbn;
    rewrite <- ?app_assoc; reflexivity.
Qed.

(** A file whose [getFile] resolves never makes the loop body throw. *)
Lemma processOne_completion (h : FileSystemFileHandle.t) (w : World.t) :
  completionOf (processOne h w) =
  if getFileRejects h then Throw NotFoundError else Normal tt.
Proof.
  rewrite processOne_run.
  destruct (getFileRejects h); [reflexivity|].
  destruct (recordFor h); reflexivity.
Qed.

(* ---------------------------------------------------------------- *)
(** ** Tallies *)

Lemma pagesOfType_app (ty : FileType.t) (l1 l2 : list FileInfo.t) :
  pagesOfType ty (l1 ++ l2) = (pagesOfType ty l1 + pagesOfType ty l2)%N.
Proof.
  unfold pagesOfType. rewrite filter_app, map_app.
  induction (map FileInfo.pages (filter _ l1)) as [|x xs IH]; simpl.
  - reflexivity.
  - rewrite IH. lia.
Qed.

Lemma talliesMatch_nil : talliesMatch PageCounts.zero [].
Proof. intros []; reflexivity. Qed.

Lemma talliesMatch_push (c : PageCounts.t) (l : list FileInfo.t)
    (r : FileInfo.t) :
  talliesMatch c l ->
  talliesMatch (PageCounts.add (FileInfo.type r) (FileInfo.pages r) c)
    (l ++ [r]).
Proof.
  intros H ty. rewrite pagesOfType_app, <- H.
  unfold pagesOfType. simpl.
  destruct (FileInfo.type r), ty; simpl; lia.
Qed.

(** A file whose document can be released raises no tally without
    yielding a record. *)
Lemma countsAfter_released (h : FileSystemFileHandle.t) (c : PageCounts.t) :
  destroyRejects h = false -> recordFor h = None -> countsAfter h c = c.
Proof.
  unfold destroyRejects, recordFor, countsAfter, tallyFor, parsedFor.
  destruct (passesGuard h); [|reflexivity].
  destruct (FileSystemFileHandle.getFile h) as [f|]; [|reflexivity].
  destruct (File.arrayBuffer f) as [[pdf|]|]; try reflexivity.
  destruct (markerOf _); [|reflexivity].
  destruct (PDFDocumentProxy.destroy pdf); discriminate.
Qed.

Lemma In_slice {A : Type} (x : A) (l : list A) (a b : Z) :
  In x (JsArray.slice l a b) -> In x l.
Proof.
  unfold JsArray.slice. intros H.
  set (k := Z.to_nat (JsArray.relIndex (Z.of_nat (List.length l)) a)) in *.
  set (n := Z.to_nat _) in H.
  rewrite <- (firstn_skipn k l). apply in_or_app. right.
  rewrite <- (firstn_skipn n (skipn k l)). apply in_or_app. now left.
Qed.

Lemma processOne_Consistent (h : FileSystemFileHandle.t) (w : World.t) :
  destroyRejects h = false ->
  Consistent w -> Consistent (stateOf (processOne h w)).
Proof.
  intros Hd [Hl Hp]. rewrite processOne_run.
  destruct (getFileRejects h); [split; assumption|].
  destruct (recordFor h) as [r|] eqn:Hr.
  - split; cbn; apply talliesMatch_push; assumption.
  - cbn. rewrite (countsAfter_released h _ Hd Hr). split; assumption.
Qed.

Lemma forEachFile_Consistent (files : list FileSystemFileHandle.t)
    (w : World.t) :
  allReleased files ->
  Consistent w -> Consistent (stateOf (forEachFile files w)).
Proof.
  revert w. induction files as [|h files IH]; intros w Hd Hw; [exact Hw|].
  cbn [forEachFile]. unfold bind.
  pose proof (processOne_Consistent h w (Hd h (or_introl eq_refl)) Hw) as H1.
  destruct (processOne h w) as [[[]| e |] w1]; cbn in *; auto.
  apply IH; [|exact H1]. intros x Hx. apply Hd. now right.
Qed.

Lemma processPDFBatch_Consistent (batch : list FileSystemFileHandle.t)
    (currentBatch totalBatches : Z) (w : World.t) :
  allReleased batch ->
  Consistent w ->
  Consistent (stateOf (processPDFBatch batch currentBatch totalBatches w)).
Proof.
  intros Hd Hw. unfold processPDFBatch, bind.
  pose proof (forEachFile_Consistent batch w Hd Hw) as H1.
  destruct (forEachFile batch w) as [[[]| e |] w1]; cbn in *; auto.
Qed.

Lemma batchLoop_Consistent (fuel : nat)
    (pdfFiles : list FileSystemFileHandle.t) (totalBatches i : Z)
    (w : World.t) :
  allReleased pdfFiles ->
  Consistent w ->
  Consistent (stateOf (batchLoop fuel pdfFiles totalBatches i w)).
Proof.
  intros Hd.
  revert i w. induction fuel as [|fuel IH]; intros i w Hw; cbn [batchLoop];
    destruct (i <? _); try exact Hw.
  unfold bind.
  assert (allReleased (JsArray.slice pdfFiles i (i + BATCH_SIZE))) as Hs
    by (intros x Hx; apply Hd; exact (In_slice x _ _ _ Hx)).
  pose proof (processPDFBatch_Consistent
                (JsArray.slice pdfFiles i (i + BATCH_SIZE))
                (Math_floor_div i BATCH_SIZE + 1) totalBatches w Hs Hw) as H1.
  destruct (processPDFBatch _ _ _ w) as [[[]| e |] w1]; cbn in *; auto.
Qed.

Lemma runBatches_Consistent (groups : list (list FileSystemFileHandle.t))
    (currentBatch totalBatches : Z) (w : World.t) :
  allReleased (List.concat groups) ->
  Consistent w ->
  Consistent (stateOf (runBatches groups currentBatch totalBatches w)).
Proof.
  revert currentBatch w.
  induction groups as [|g groups IH]; intros cb w Hd Hw; [exact Hw|].
  cbn [runBatches]. unfold bind.
  assert (allReleased g) as Hg
    by (intros x Hx; apply Hd; cbn; apply in_or_app; now left).
  pose proof (processPDFBatch_Consistent g cb totalBatches w Hg Hw) as H1.
  destruct (processPDFBatch _ _ _ w) as [[[]| e |] w1]; cbn in *; auto.
  apply IH; [|exact H1].
  intros x Hx. apply Hd. cbn. apply in_or_app. now right.
Qed.

(** The published pair over a whole run, whatever the pickers answer and
    wherever the loop is cut off. *)
Lemma analysePDFs_published (fuel : nat) (w : World.t) :
  (forall dir rest, World.pickers w = Some dir :: rest -> allReleased dir) ->
  talliesMatch (AppState.pageCounts (World.ui w))
               (AppState.fileList (World.ui w)) ->
  let w' := stateOf (analysePDFs fuel w) in
  talliesMatch (AppState.pageCounts (World.ui w'))
               (AppState.fileList (World.ui w'))
  /\ (forall dir dir' rest,
        World.pickers w = Some dir :: Some dir' :: rest ->
        talliesMatch (World.counts w') (World.processedFiles w')).
Proof.
  intros Hd Hp. destruct w as [c pf u tr pk].
  unfold analysePDFs, tryFinally, tryCatch, bind, checkPathExists,
    showDirectoryPicker, tryCatch, bind.
  cbn [World.pickers World.ui] in *.
  destruct pk as [|[d|] pk]; cbn.
  1, 3: split; [exact Hp | discriminate].
  destruct pk as [|[d2|] pk]; cbn.
  1, 3: split; [exact Hp | discriminate].
  assert (allReleased (filter isPdfEntry d)) as Hf.
  { intros x Hx. apply filter_In in Hx as [Hx _].
    exact (Hd d _ eq_refl x Hx). }
  match goal with
  | |- context [batchLoop ?n ?fs ?tb ?i ?w1] =>
      assert (Consistent (stateOf (batchLoop n fs tb i w1))) as Hc
        by (apply batchLoop_Consistent;
            [exact Hf | split; [apply talliesMatch_nil | exact Hp]]);
      destruct (batchLoop n fs tb i w1) as [[[]| e |] w2]
  end; cbn in *; destruct Hc as [Hl Hq]; split; auto.
Qed.

(* ---------------------------------------------------------------- *)
(** ** Slices and batches *)

Lemma slice_nonneg {A : Type} (l : list A) (a b : Z) :
  0 <= a -> a <= b ->
  JsArray.slice l a b = firstn (Z.to_nat (b - a)) (skipn (Z.to_nat a) l).
Proof.
  intros Ha Hab. unfold JsArray.slice, JsArray.relIndex.
  destruct (Z.ltb_spec a 0); [lia|]. destruct (Z.ltb_spec b 0); [lia|].
  destruct (Z.le_gt_cases (Z.of_nat (List.length l)) a) as [Hlen|Hlen].
  - rewrite !skipn_all2 by lia. now rewrite !firstn_nil.
  - rewrite (Z.min_l a) by lia.
    destruct (Z.le_gt_cases b (Z.of_nat (List.length l))) as [Hb|Hb].
    + now rewrite (Z.min_l b) by lia.
    + rewrite (Z.min_r b) by lia.
      rewrite !firstn_all2; [reflexivity | |]; rewrite length_skipn; lia.
Qed.

Lemma firstn_add {A : Type} (a b : nat) (l : list A) :
  firstn (a + b) l = firstn a l ++ firstn b (skipn a l).
Proof.
  revert l. induction a as [|a IH]; intros l; [reflexivity|].
  destruct l as [|x l]; simpl.
  - now rewrite firstn_nil.
  - now rewrite IH.
Qed.

Lemma Math_ceil_div_bounds (a b : Z) :
  0 < b ->
  (Math_ceil_div a b - 1) * b < a <= Math_ceil_div a b * b.
Proof.
  intros Hb. unfold Math_ceil_div.
  pose proof (Z.div_mod (- a) b ltac:(lia)) as Hd.
  pose proof (Z.mod_pos_bound (- a) b Hb) as Hm.
  nia.
Qed.

Lemma Math_ceil_div_nonneg (a b : Z) :
  0 < b -> 0 <= a -> 0 <= Math_ceil_div a b.
Proof. intros Hb Ha. pose proof (Math_ceil_div_bounds a b Hb). nia. Qed.

(** [ceil(a / b)] is the least number of groups of [b] that cover [a]. *)
Lemma Math_ceil_div_least (a b k : Z) :
  0 < b -> a <= k * b -> Math_ceil_div a b <= k.
Proof. intros Hb Hk. pose proof (Math_ceil_div_bounds a b Hb). nia. Qed.

Section Batches.
Variable pdfFiles : list FileSystemFileHandle.t.
Hypothesis BATCH_SIZE_pos : 0 < BATCH_SIZE.

Let len : Z := Z.of_nat (List.length pdfFiles).
Let groups : nat := Z.to_nat (Math_ceil_div len BATCH_SIZE).
Let sliceAt (k : nat) : list FileSystemFileHandle.t :=
  JsArray.slice pdfFiles (Z.of_nat k * BATCH_SIZE)
    (Z.of_nat k * BATCH_SIZE + BATCH_SIZE).

Lemma loop_condition (k : nat) :
  (Z.of_nat k * BATCH_SIZE <? len) = (k <? groups)%nat.
Proof.
  pose proof (Math_ceil_div_bounds len BATCH_SIZE BATCH_SIZE_pos) as Hb.
  pose proof (Math_ceil_div_nonneg len BATCH_SIZE BATCH_SIZE_pos
                ltac:(subst len; lia)) as Hn.
  subst groups.
  destruct (Z.ltb_spec (Z.of_nat k * BATCH_SIZE) len);
    destruct (Nat.ltb_spec k (Z.to_nat (Math_ceil_div len BATCH_SIZE)));
    try reflexivity; nia.
Qed.

Lemma sliceAt_eq (k : nat) :
  sliceAt k =
  firstn (Z.to_nat BATCH_SIZE) (skipn (k * Z.to_nat BATCH_SIZE) pdfFiles).
Proof.
  subst sliceAt. cbv beta. rewrite slice_nonneg by nia.
  f_equal; [f_equal; lia | f_equal; nia].
Qed.

Lemma length_sliceAt (k : nat) :
  Z.of_nat (List.length (sliceAt k)) =
  Z.max 0 (Z.min BATCH_SIZE (len - Z.of_nat k * BATCH_SIZE)).
Proof.
  rewrite sliceAt_eq, length_firstn, length_skipn. subst len. nia.
Qed.

Lemma concat_slices (n : nat) :
  List.concat (map sliceAt (seq 0 n)) = firstn
      (n * Z.to_nat BATCH_SIZE) pdfFiles.
Proof.
  induction n as [|n IH]; [reflexivity|].
  rewrite seq_S, map_app, concat_app, IH. cbn [map List.concat Nat.add].
  rewrite app_nil_r, sliceAt_eq.
  replace (S n * Z.to_nat BATCH_SIZE)%nat
    with (n * Z.to_nat BATCH_SIZE + Z.to_nat BATCH_SIZE)%nat by lia.
  now rewrite firstn_add.
Qed.

Lemma batchesOf_eq : batchesOf pdfFiles = map sliceAt (seq 0 groups).
Proof. reflexivity. Qed.

Lemma length_batchesOf :
  Z.of_nat (List.length (batchesOf pdfFiles)) = Math_ceil_div len BATCH_SIZE.
Proof.
  rewrite batchesOf_eq, length_map, length_seq. subst groups.
  pose proof (Math_ceil_div_nonneg len BATCH_SIZE BATCH_SIZE_pos
                ltac:(subst len; lia)).
  lia.
Qed.

Lemma concat_batchesOf : List.concat (batchesOf pdfFiles) = pdfFiles.
Proof.
  rewrite batchesOf_eq, concat_slices. apply firstn_all2.
  pose proof (Math_ceil_div_bounds len BATCH_SIZE BATCH_SIZE_pos) as Hb.
  pose proof (Math_ceil_div_nonneg len BATCH_SIZE BATCH_SIZE_pos
                ltac:(subst len; lia)) as Hn.
  subst groups len. nia.
Qed.

(** Every group is full, except that the last may be shorter; none is
    empty. *)
Lemma batchesOf_sizes (k : nat) :
  (k < List.length (batchesOf pdfFiles))%nat ->
  let size := Z.of_nat (List.length (nth k (batchesOf pdfFiles) [])) in
  0 < size <= BATCH_SIZE
  /\ ((S k < List.length (batchesOf pdfFiles))%nat -> size = BATCH_SIZE).
Proof.
  intros Hk size. subst size.
  pose proof length_batchesOf as HL.
  rewrite batchesOf_eq in *. rewrite length_map, length_seq in Hk.
  rewrite length_map, length_seq in HL.
  rewrite (nth_indep _ [] (sliceAt 0)) by (now rewrite length_map, length_seq).
  rewrite (map_nth sliceAt), seq_nth by exact Hk. cbn [Nat.add].
  rewrite length_sliceAt, length_map, length_seq.
  pose proof (Math_ceil_div_bounds len BATCH_SIZE BATCH_SIZE_pos) as Hb.
  split; [nia|]. intros Hk'. nia.
Qed.

(** The loop, cut off after [n] rounds, has handed the first [n]
    groups to [processPDFBatch]; with [n] at least the number of
    groups it has handed over all of them and returned. *)
Lemma batchLoop_from (n k : nat) (totalBatches : Z) (w : World.t) :
  batchLoop n pdfFiles totalBatches (Z.of_nat k * BATCH_SIZE) w =
  bind (runBatches (map sliceAt (firstn n (seq k (groups - k))))
          (Z.of_nat k + 1) totalBatches)
       (fun _ => if (n <? groups - k)%nat then outOfFuel else ret tt) w.
Proof.
  revert k w. induction n as [|n IH]; intros k w.
  - cbn [batchLoop firstn map runBatches].
    fold len. rewrite loop_condition.
    destruct (Nat.ltb_spec k groups) as [Hk|Hk].
    + replace (0 <? groups - k)%nat with true
        by (symmetry; apply Nat.ltb_lt; lia).
      reflexivity.
    + replace (0 <? groups - k)%nat with false
        by (symmetry; apply Nat.ltb_ge; lia).
      reflexivity.
  - cbn [batchLoop]. fold len. rewrite loop_condition.
    destruct (Nat.ltb_spec k groups) as [Hk|Hk].
    + replace (groups - k)%nat with (S (groups - S k)) by lia.
      cbn [seq firstn map runBatches].
      unfold Math_floor_div. rewrite Z.div_mul by lia.
      replace (Z.of_nat k * BATCH_SIZE + BATCH_SIZE)
        with (Z.of_nat (S k) * BATCH_SIZE) by lia.
      unfold bind at 1 3 4. fold (sliceAt k).
      replace (JsArray.slice pdfFiles (Z.of_nat k * BATCH_SIZE)
                 (Z.of_nat (S k) * BATCH_SIZE)) with (sliceAt k)
        by (subst sliceAt; cbv beta; f_equal; lia).
      destruct (processPDFBatch (sliceAt k) (Z.of_nat k + 1) totalBatches w)
        as [[[]| e |] w1]; try reflexivity.
      replace (Z.of_nat k + 1 + 1) with (Z.of_nat (S k) + 1) by lia.
      unfold bind, delay, emit, modify. rewrite IH.
      unfold bind. reflexivity.
    + replace (groups - k)%nat with 0%nat by lia.
      cbn [seq firstn map runBatches]. reflexivity.
Qed.

Lemma batchLoop_runBatches (fuel : nat) (totalBatches : Z) (w : World.t) :
  (List.length pdfFiles <= fuel)%nat ->
  batchLoop fuel pdfFiles totalBatches 0 w =
  runBatches (batchesOf pdfFiles) 1 totalBatches w.
Proof.
  intros Hfuel.
  pose proof (batchLoop_from fuel 0 totalBatches w) as H.
  cbn [Z.of_nat Z.mul Z.add] in H. rewrite H. clear H.
  assert (groups <= fuel)%nat as Hg.
  { pose proof (Math_ceil_div_least len BATCH_SIZE len BATCH_SIZE_pos
                  ltac:(subst len; nia)).
    subst groups len. lia. }
  rewrite Nat.sub_0_r, firstn_all2 by (rewrite length_seq; lia).
  replace (fuel <? groups)%nat with false
    by (symmetry; apply Nat.ltb_ge; lia).
  rewrite batchesOf_eq. unfold bind.
  destruct (runBatches _ 1 totalBatches w) as [[[]| e |] w1]; reflexivity.
Qed.
End Batches.

(* ---------------------------------------------------------------- *)
(** ** Batching against one pass over the files *)

Lemma sameData_refl (w : World.t) : sameData w w.
Proof. repeat split. Qed.

Lemma processOne_sameData (h : FileSystemFileHandle.t) (w1 w2 : World.t) :
  sameData w1 w2 -> sameOutcome (processOne h w1) (processOne h w2).
Proof.
  intros (Hc & Hpf & Hfl & Hpc). rewrite !processOne_run.
  destruct (getFileRejects h); [repeat split; assumption|].
  destruct (recordFor h) as [r|]; repeat split; cbn; congruence.
Qed.

Lemma forEachFile_sameData (files : list FileSystemFileHandle.t)
    (w1 w2 : World.t) :
  sameData w1 w2 -> sameOutcome (forEachFile files w1) (forEachFile files w2).
Proof.
  revert w1 w2. induction files as [|h files IH]; intros w1 w2 Hs.
  - split; [reflexivity | exact Hs].
  - cbn [forEachFile]. unfold bind.
    destruct (processOne_sameData h w1 w2 Hs) as [Hc Hd].
    destruct (processOne h w1) as [[[]| e1 |] v1];
      destruct (processOne h w2) as [[[]| e2 |] v2];
      cbn in Hc; try discriminate; cbn in Hd.
    + apply IH. exact Hd.
    + split; [exact Hc | exact Hd].
    + split; [reflexivity | exact Hd].
Qed.

Lemma forEachFile_app (l1 l2 : list FileSystemFileHandle.t) (w : World.t) :
  forEachFile (l1 ++ l2) w = bind (forEachFile l1) (fun _ => forEachFile l2) w.
Proof.
  revert w. induction l1 as [|h l1 IH]; intros w; [reflexivity|].
  cbn [app forEachFile]. unfold bind.
  destruct (processOne h w) as [[[]| e |] w1]; try reflexivity.
  rewrite IH. reflexivity.
Qed.

Lemma processPDFBatch_sameData (batch : list FileSystemFileHandle.t)
    (currentBatch totalBatches : Z) (w1 w2 : World.t) :
  sameData w1 w2 ->
  sameOutcome (processPDFBatch batch currentBatch totalBatches w1)
              (forEachFile batch w2).
Proof.
  intros Hs. unfold processPDFBatch, bind.
  destruct (forEachFile_sameData batch w1 w2 Hs) as [Hc Hd].
  destruct (forEachFile batch w1) as [[[]| e1 |] v1];
    destruct (forEachFile batch w2) as [[[]| e2 |] v2];
    cbn in Hc; try discriminate; cbn in Hd;
    (split; [exact Hc | exact Hd]).
Qed.

Lemma runBatches_sameData (groups : list (list FileSystemFileHandle.t))
    (currentBatch totalBatches : Z) (w1 w2 : World.t) :
  sameData w1 w2 ->
  sameOutcome (runBatches groups currentBatch totalBatches w1)
              (forEachFile (List.concat groups) w2).
Proof.
  revert currentBatch w1 w2.
  induction groups as [|g groups IH]; intros cb w1 w2 Hs.
  - split; [reflexivity | exact Hs].
  - cbn [runBatches List.concat]. rewrite forEachFile_app. unfold bind at 1 3.
    destruct (processPDFBatch_sameData g cb totalBatches w1 w2 Hs) as [Hc Hd].
    destruct (processPDFBatch g cb totalBatches w1) as [[[]| e1 |] v1];
      destruct (forEachFile g w2) as [[[]| e2 |] v2];
      cbn in Hc; try discriminate; cbn in Hd.
    + unfold bind, delay, emit, modify. apply IH. exact Hd.
    + split; [exact Hc | exact Hd].
    + split; [reflexivity | exact Hd].
Qed.

(* ---------------------------------------------------------------- *)
(** ** The claims about the analysis *)

Lemma has_marker_iff (fname marker : string) :
  allAscii fname = true ->
  asciiToUpperCase marker = marker ->
  includes (toUpperCase fname) marker = true <->
  containsIgnoringCase fname marker.
Proof.
  intros Ha H. rewrite toUpperCase_ascii by exact Ha.
  rewrite <- H at 1. apply includes_asciiToUpperCase.
Qed.

Lemma not_true_false (b : bool) : b <> true -> b = false.
Proof. destruct b; congruence. Qed.

(** C2, as amended.  For a file that passes the test on the extension,
    is fetched, read and parsed, and whose document is then released,
    the upper-cased name is tested for -WIDE, then -A3, then -A4, and
    the first marker found is the category of the record and names the
    tally that grows by the page count.  A file whose upper-cased
    name has none of the three gives no record and changes no tally,
    whatever becomes of its reading, in the file's own processing and
    in the loop body around it.  For a name of ASCII characters the
    upper-cased name has a marker exactly when the name has it up to
    the case of its letters. *)
Theorem C2_classifier (h : FileSystemFileHandle.t) (w : World.t) :
  let fname := FileSystemFileHandle.name h in
  let fileName := toUpperCase fname in
  let r := processPDFFile h w in
  (forall f pdf,
      FileSystemFileHandle.kind h = HandleKind.file ->
      endsWith fname ".pdf" = true ->
      FileSystemFileHandle.getFile h = Some f ->
      File.arrayBuffer f = Some (PdfData pdf) ->
      PDFDocumentProxy.destroy pdf <> None ->
      let filedUnder ty :=
        completionOf r =
          Normal (Some (FileInfo.Build fname (PDFDocumentProxy.numPages pdf)
                          ty (formatDate (File.lastModified f)) h))
        /\ World.counts (stateOf r)
           = PageCounts.add ty (PDFDocumentProxy.numPages pdf)
               (World.counts w) in
      (includes fileName "-WIDE" = true -> filedUnder FileType.WIDE)
      /\ (includes fileName "-WIDE" = false ->
          includes fileName "-A3" = true -> filedUnder FileType.A3)
      /\ (includes fileName "-WIDE" = false ->
          includes fileName "-A3" = false ->
          includes fileName "-A4" = true -> filedUnder FileType.A4))
  /\ (includes fileName "-WIDE" = false ->
      includes fileName "-A3" = false ->
      includes fileName "-A4" = false ->
      (completionOf r = Normal None \/ completionOf r = Throw NotFoundError)
      /\ World.counts (stateOf r) = World.counts w
      /\ World.processedFiles (stateOf r) = World.processedFiles w
      /\ sameData (stateOf (processOne h w)) w)
  /\ (allAscii fname = true ->
      (includes fileName "-WIDE" = true <-> containsIgnoringCase fname "-WIDE")
      /\ (includes fileName "-A3" = true <-> containsIgnoringCase fname "-A3")
      /\ (includes fileName "-A4" = true <-> containsIgnoringCase fname "-A4")).
Proof.
  intros fname fileName r. subst r fileName.
  rewrite processOne_run, processPDFFile_run.
  unfold getFileRejects, recordFor, countsAfter, tallyFor, parsedFor,
    markerOf, passesGuard.
  fold fname.
  split; [|split].
  - intros f pdf Hk He Hf Hb Hd.
    rewrite Hk, He, Hf, Hb. cbn.
    destruct (PDFDocumentProxy.destroy pdf) as [[]|]; [|now elim Hd].
    split; [|split].
    + intros C. rewrite C. split; reflexivity.
    + intros NW C. rewrite NW, C. split; reflexivity.
    + intros NW N3 C. rewrite NW, N3, C. split; reflexivity.
  - intros NW N3 N4. rewrite NW, N3, N4.
    destruct (HandleKind.eqb _ _ && endsWith fname ".pdf"); cbn.
    2: { repeat split; auto. }
    destruct (FileSystemFileHandle.getFile h) as [f|]; cbn.
    2: { repeat split; auto. }
    destruct (File.arrayBuffer f) as [[pdf|]|]; cbn; repeat split; auto.
  - intros Ha. repeat split; apply has_marker_iff; auto.
Qed.

(** C9, as amended.  A candidate file is read and parsed before its name
    is looked at: every file past the extension guard whose [getFile]
    resolves has its bytes read, and once read they are handed to the
    parser, whatever the name.  A parsed file whose upper-cased name has
    no marker then has [destroy] called on its document and is left
    out, with no record and no tally; a rejection of that call is
    logged and changes nothing else.  The markers count only after a
    successful parse: a file that could not be read or parsed gives no
    record and no tally even when its name carries a marker. *)
Theorem C9_parse_precedes_classification
    (h : FileSystemFileHandle.t) (f : File.t) (w : World.t) :
  FileSystemFileHandle.kind h = HandleKind.file ->
  endsWith (FileSystemFileHandle.name h) ".pdf" = true ->
  FileSystemFileHandle.getFile h = Some f ->
  let fname := FileSystemFileHandle.name h in
  let r := processPDFFile h w in
  (exists rest,
      World.trace (stateOf r) =
      World.trace w ++ CallGetFile fname :: CallArrayBuffer fname :: rest)
  /\ (forall data,
        File.arrayBuffer f = Some data ->
        exists rest,
          World.trace (stateOf r) =
          World.trace w ++
            CallGetFile fname :: CallArrayBuffer fname ::
            CallGetDocument fname :: rest)
  /\ (forall pdf,
        File.arrayBuffer f = Some (PdfData pdf) ->
        includes (toUpperCase fname) "-WIDE" = false ->
        includes (toUpperCase fname) "-A3" = false ->
        includes (toUpperCase fname) "-A4" = false ->
        World.trace (stateOf r) =
          World.trace w ++
            [CallGetFile fname; CallArrayBuffer fname;
             CallGetDocument fname; CallDestroy fname]
            ++ match PDFDocumentProxy.destroy pdf with
               | Some _ => []
               | None => [ConsoleError DestroyFailed]
               end
        /\ completionOf r = Normal None
        /\ World.counts (stateOf r) = World.counts w)
  /\ ((forall pdf, File.arrayBuffer f <> Some (PdfData pdf)) ->
      completionOf r = Normal None
      /\ World.counts (stateOf r) = World.counts w).
Proof.
  intros Hk He Hf fname r. subst r.
  rewrite processPDFFile_run.
  unfold getFileRejects, recordFor, countsAfter, tallyFor, parsedFor,
    callsFor, markerOf, passesGuard.
  fold fname. fold fname in He. rewrite Hk, He, Hf. cbn.
  split; [eexists; reflexivity|].
  split; [|split].
  - intros data Hd. rewrite Hd. destruct data; eexists; reflexivity.
  - intros pdf Hd NW N3 N4. rewrite Hd, NW, N3, N4.
    destruct (PDFDocumentProxy.destroy pdf); repeat split.
  - intros Hn. destruct (File.arrayBuffer f) as [[pdf|]|].
    + exfalso. exact (Hn pdf eq_refl).
    + split; reflexivity.
    + split; reflexivity.
Qed.

(** After every batch, and at the end of every run, each tally is the
    sum of the pages of the records of its category, as long as every
    document of the directory can be released.  This holds of the two
    objects the run works on and of the pair it has published; a run cut
    off after [fuel] rounds of its loop is the run as it stands after
    that many batches. *)
Lemma tallies_match_when_released :
  (forall batch currentBatch totalBatches w,
      allReleased batch ->
      Consistent w ->
      Consistent (stateOf (processPDFBatch batch currentBatch totalBatches w)))
  /\ (forall fuel w,
        (forall dir rest,
            World.pickers w = Some dir :: rest -> allReleased dir) ->
        talliesMatch (AppState.pageCounts (World.ui w))
                     (AppState.fileList (World.ui w)) ->
        let w' := stateOf (analysePDFs fuel w) in
        (forall X,
            PageCounts.get X (AppState.pageCounts (World.ui w')) =
            pagesOfType X (AppState.fileList (World.ui w')))
        /\ (forall dir dir' rest X,
              World.pickers w = Some dir :: Some dir' :: rest ->
              PageCounts.get X (World.counts w') =
              pagesOfType X (World.processedFiles w'))).
Proof.
  split.
  - exact processPDFBatch_Consistent.
  - intros fuel w Hd Hp w'.
    destruct (analysePDFs_published fuel w Hd Hp) as [H1 H2].
    split; [exact H1|].
    intros dir dir' rest X Hpk. exact (H2 dir dir' rest Hpk X).
Qed.

(** C5. For a positive batch size the loop hands the files to
    [processPDFBatch] in [ceil(N / BATCH_SIZE)] consecutive slices, all
    of [BATCH_SIZE] files but possibly the last, none empty, which put
    end to end are the files in their order; and it ends as one pass
    over all the files ends, with the same records in the same order
    and the same tallies, in the run's own objects and in what it has
    published. *)
Theorem C5_batching_refines_sequential
    (pdfFiles : list FileSystemFileHandle.t) (fuel : nat)
    (totalBatches : Z) (w : World.t) :
  0 < BATCH_SIZE ->
  (List.length pdfFiles <= fuel)%nat ->
  let N := Z.of_nat (List.length pdfFiles) in
  let batched := batchLoop fuel pdfFiles totalBatches 0 w in
  let sequential := forEachFile pdfFiles w in
  batched = runBatches (batchesOf pdfFiles) 1 totalBatches w
  /\ Z.of_nat (List.length (batchesOf pdfFiles)) = Math_ceil_div N BATCH_SIZE
  /\ (Math_ceil_div N BATCH_SIZE - 1) * BATCH_SIZE < N
       <= Math_ceil_div N BATCH_SIZE * BATCH_SIZE
  /\ List.concat (batchesOf pdfFiles) = pdfFiles
  /\ (forall k,
        (k < List.length (batchesOf pdfFiles))%nat ->
        let size := Z.of_nat (List.length (nth k (batchesOf pdfFiles) [])) in
        0 < size <= BATCH_SIZE
        /\ ((S k < List.length (batchesOf pdfFiles))%nat -> size = BATCH_SIZE))
  /\ completionOf batched = completionOf sequential
  /\ World.processedFiles (stateOf batched)
     = World.processedFiles (stateOf sequential)
  /\ AppState.fileList (World.ui (stateOf batched))
     = AppState.fileList (World.ui (stateOf sequential))
  /\ World.counts (stateOf batched) = World.counts (stateOf sequential)
  /\ AppState.pageCounts (World.ui (stateOf batched))
     = AppState.pageCounts (World.ui (stateOf sequential)).
Proof.
  intros HB Hfuel N batched sequential.
  assert (batched = runBatches (batchesOf pdfFiles) 1 totalBatches w) as Hrun
    by (apply batchLoop_runBatches; assumption).
  split; [exact Hrun|].
  split; [apply length_batchesOf; exact HB|].
  split; [apply Math_ceil_div_bounds; exact HB|].
  split; [apply concat_batchesOf; exact HB|].
  split; [intros k Hk; apply batchesOf_sizes; assumption|].
  pose proof (runBatches_sameData (batchesOf pdfFiles) 1 totalBatches w w
                (sameData_refl w)) as [Hc (H1 & H2 & H3 & H4)].
  rewrite concat_batchesOf in * by exact HB.
  rewrite Hrun. subst sequential. auto.
Qed.

(* ---------------------------------------------------------------- *)
(** ** Sorting *)

Section SortFacts.
Context {A : Type}.
Variable cmp : A -> A -> Z.

Lemma insert_Permutation (x : A) (l : list A) :
  Permutation (JsArray.insert cmp x l) (x :: l).
Proof.
  induction l as [|y l IH]; cbn [JsArray.insert]; [reflexivity|].
  destruct (cmp x y <=? 0); [reflexivity|].
  rewrite IH. apply perm_swap.
Qed.

Lemma sort_Permutation (l : list A) : Permutation (JsArray.sort cmp l) l.
Proof.
  induction l as [|x l IH]; cbn [JsArray.sort]; [reflexivity|].
  rewrite insert_Permutation. now apply perm_skip.
Qed.

Lemma length_sort (l : list A) :
  List.length (JsArray.sort cmp l) = List.length l.
Proof. apply Permutation_length, sort_Permutation. Qed.





End SortFacts.

(** A comparator and its opposite, as the two directions of a column. *)
Section Reversal.
Context {A : Type}.
Variables up down : A -> A -> Z.
Hypothesis down_up : forall x y, down x y = - up x y.
Hypothesis up_trans :
  forall x y z, up x y <= 0 -> up y z <= 0 -> up x z <= 0.
Hypothesis up_antisym : forall x y, 0 < up x y -> up y x < 0.




End Reversal.

(** A comparator that is transitive and total puts the result in order. *)
Section Ordered.
Context {A : Type}.
Variable cmp : A -> A -> Z.
Hypothesis cmp_trans :
  forall x y z, cmp x y <= 0 -> cmp y z <= 0 -> cmp x z <= 0.
Hypothesis cmp_total : forall x y, 0 < cmp x y -> cmp y x <= 0.

Lemma insert_ordered (x : A) (l : list A) :
  StronglySorted (notAfter cmp) l ->
  StronglySorted (notAfter cmp) (JsArray.insert cmp x l).
Proof.
  intros Hs. induction Hs as [|y l Hs IH Hy]; cbn [JsArray.insert].
  - repeat constructor.
  - destruct (Z.leb_spec (cmp x y) 0) as [Hle|Hgt].
    + constructor; [constructor; assumption|].
      constructor; [exact Hle|].
      rewrite Forall_forall in *. intros z Hz.
      exact (cmp_trans x y z Hle (Hy z Hz)).
    + constructor; [exact IH|].
      rewrite Forall_forall in *. intros z Hz.
      apply (Permutation_in _ (insert_Permutation cmp x l)) in Hz.
      destruct Hz as [<-|Hz]; [apply cmp_total; exact Hgt | now apply Hy].
Qed.

Lemma sort_ordered (l : list A) :
  StronglySorted (notAfter cmp) (JsArray.sort cmp l).
Proof.
  induction l as [|x l IH]; cbn [JsArray.sort]; [constructor|].
  now apply insert_ordered.
Qed.
End Ordered.








Lemma compareFiles_desc (field : SortField.t) (a b : FileInfo.t) :
  compareFiles field SortDirection.desc a b
  = - compareFiles field SortDirection.asc a b.
Proof. unfold compareFiles. destruct field; lia. Qed.


(** What the ECMAScript Internationalization API asks of a collator: it
    is a consistent comparator. *)
Section Collation.
Hypothesis localeCompare_antisym :
  forall a b, Z.sgn (localeCompare b a) = - Z.sgn (localeCompare a b).
Hypothesis localeCompare_trans :
  forall a b c,
    localeCompare a b <= 0 -> localeCompare b c <= 0 -> localeCompare a c <= 0.


Lemma localeCompare_flip (a b : string) :
  0 < localeCompare a b -> localeCompare b a < 0.
Proof.
  intros H. pose proof (localeCompare_antisym a b) as E.
  rewrite (Z.sgn_pos _ H) in E. apply Z.sgn_neg_iff. exact E.
Qed.


Lemma compareFiles_trans (field : SortField.t) (x y z : FileInfo.t) :
  compareFiles field SortDirection.asc x y <= 0 ->
  compareFiles field SortDirection.asc y z <= 0 ->
  compareFiles field SortDirection.asc x z <= 0.
Proof.
  unfold compareFiles. destruct field; rewrite ?Z.mul_1_r;
    try apply localeCompare_trans; lia.
Qed.

Lemma compareFiles_antisym (field : SortField.t) (x y : FileInfo.t) :
  0 < compareFiles field SortDirection.asc x y ->
  compareFiles field SortDirection.asc y x < 0.
Proof.
  unfold compareFiles. destruct field; rewrite ?Z.mul_1_r;
    try apply localeCompare_flip; lia.
Qed.



Lemma compareFiles_sgn (field : SortField.t) (x y : FileInfo.t) :
  Z.sgn (compareFiles field SortDirection.asc y x)
  = - Z.sgn (compareFiles field SortDirection.asc x y).
Proof.
  unfold compareFiles. destruct field; rewrite ?Z.mul_1_r;
    try apply localeCompare_antisym.
  rewrite <- Z.sgn_opp. f_equal. lia.
Qed.

Lemma sgn_flip (a b : Z) :
  Z.sgn b = - Z.sgn a ->
  (0 < a <-> b < 0) /\ (a < 0 <-> 0 < b) /\ (a = 0 <-> b = 0).
Proof. destruct a, b; cbn; intros H; try discriminate H; lia. Qed.

(** Sorting by a column leaves the list in the order of that column,
    in either direction. *)
Lemma sort_compareFiles_ordered (field : SortField.t)
    (direction : SortDirection.t) (l : list FileInfo.t) :
  StronglySorted (notAfter (compareFiles field direction))
    (JsArray.sort (compareFiles field direction) l).
Proof.
  apply sort_ordered.
  - intros x y z. destruct direction.
    + apply compareFiles_trans.
    + rewrite !compareFiles_desc. intros Hxy Hyz.
      pose proof (sgn_flip _ _ (compareFiles_sgn field x y)).
      pose proof (sgn_flip _ _ (compareFiles_sgn field y z)).
      pose proof (sgn_flip _ _ (compareFiles_sgn field x z)).
      pose proof (compareFiles_trans field z y x).
      lia.
  - intros x y. destruct direction.
    + intros H. pose proof (compareFiles_antisym _ x y H). lia.
    + rewrite !compareFiles_desc. intros H.
      pose proof (sgn_flip _ _ (compareFiles_sgn field x y)).
      lia.
Qed.

(** X4.  The table is in the order of the active column and direction,
    and holds the filtered records, each as often as the filtered list. *)
Theorem sortedFiles_in_order (st : AppState.t) :
  StronglySorted
    (notAfter (compareFiles (AppState.sortField st)
        (AppState.sortDirection st)))
    (sortedFiles st)
  /\ Permutation (sortedFiles st) (filteredFiles st).
Proof.
  split; [|apply sort_Permutation].
  unfold sortedFiles. apply sort_compareFiles_ordered.
Qed.
End Collation.

(* ---------------------------------------------------------------- *)
(** ** Filtering and pages *)

(** The four tests of the filter, one by one. *)
Lemma matchesQuery_iff (q : string) (f : FileInfo.t) :
  matchesQuery q f = true <->
  includes (toLowerCase (FileInfo.name f)) (toLowerCase q) = true
  \/ includes (toLowerCase (FileType.label (FileInfo.type f)))
       (toLowerCase q) = true
  \/ includes (numberToString (FileInfo.pages f)) (toLowerCase q) = true
  \/ includes (toLowerCase (FileInfo.createdAt f)) (toLowerCase q) = true.
Proof.
  unfold matchesQuery. rewrite !orb_true_iff, !or_assoc. reflexivity.
Qed.

(** On ASCII the tests of the filter are containment up to case. *)
Lemma matchesQuery_ascii (q : string) (f : FileInfo.t) :
  allAscii q = true ->
  allAscii (FileInfo.name f) = true ->
  allAscii (FileInfo.createdAt f) = true ->
  matchesQuery q f = true <->
  containsIgnoringCase (FileInfo.name f) q
  \/ containsIgnoringCase (FileType.label (FileInfo.type f)) q
  \/ containsIgnoringCase (numberToString (FileInfo.pages f)) q
  \/ containsIgnoringCase (FileInfo.createdAt f) q.
Proof.
  intros Hq Hn Hc. unfold matchesQuery.
  rewrite (toLowerCase_ascii q Hq), (toLowerCase_ascii _ Hn),
    (toLowerCase_ascii _ Hc),
    (toLowerCase_ascii _ (allAscii_label (FileInfo.type f))).
  rewrite <- (asciiToLowerCase_numberToString (FileInfo.pages f)) at 1.
  rewrite !orb_true_iff, !includes_asciiToLowerCase, !or_assoc. reflexivity.
Qed.

Lemma filter_all {A : Type} (p : A -> bool) (l : list A) :
  (forall x, In x l -> p x = true) -> filter p l = l.
Proof.
  induction l as [|x l IH]; intros H; cbn [filter]; [reflexivity|].
  rewrite (H x (or_introl eq_refl)), IH; [reflexivity|].
  intros y Hy. apply H. now right.
Qed.

Lemma filter_none {A : Type} (p : A -> bool) (l : list A) :
  (forall x, In x l -> p x = false) -> filter p l = [].
Proof.
  induction l as [|x l IH]; intros H; cbn [filter]; [reflexivity|].
  rewrite (H x (or_introl eq_refl)). apply IH.
  intros y Hy. apply H. now right.
Qed.

(** C7, as amended.  With the empty query the filter keeps the whole
    list.  A record is kept exactly when the lower-cased query occurs in
    its lower-cased name, in the lower-cased label of its type, in its
    page count written in decimal, or in its lower-cased date; the
    records kept stay in the order of the list, and when the lower-cased
    query occurs in none of the four for any record, nothing is kept.
    When the query, the name and the date are ASCII, that is: the query
    occurs in one of the four fields up to the case of the letters. *)
Theorem C7_filter (st : AppState.t) :
  let q := AppState.searchQuery st in
  let found f :=
    includes (toLowerCase (FileInfo.name f)) (toLowerCase q) = true
    \/ includes (toLowerCase (FileType.label (FileInfo.type f)))
         (toLowerCase q) = true
    \/ includes (numberToString (FileInfo.pages f)) (toLowerCase q) = true
    \/ includes (toLowerCase (FileInfo.createdAt f)) (toLowerCase q) = true in
  let occurs f :=
    containsIgnoringCase (FileInfo.name f) q
    \/ containsIgnoringCase (FileType.label (FileInfo.type f)) q
    \/ containsIgnoringCase (numberToString (FileInfo.pages f)) q
    \/ containsIgnoringCase (FileInfo.createdAt f) q in
  (q = EmptyString -> filteredFiles st = AppState.fileList st)
  /\ (forall f, matchesQuery q f = true <-> found f)
  /\ filteredFiles st = filter (matchesQuery q) (AppState.fileList st)
  /\ (forall f,
        In f (filteredFiles st) <-> In f (AppState.fileList st) /\ found f)
  /\ ((forall f, In f (AppState.fileList st) -> ~ found f) ->
      filteredFiles st = [])
  /\ (allAscii q = true ->
      forall f,
        allAscii (FileInfo.name f) = true ->
        allAscii (FileInfo.createdAt f) = true ->
        (found f <-> occurs f)).
Proof.
  intros q found occurs. subst found occurs. unfold filteredFiles. fold q.
  split; [|split; [|split; [|split; [|split]]]].
  - intros ->. apply filter_all. intros f _. unfold matchesQuery.
    change (toLowerCase EmptyString) with EmptyString.
    now rewrite includes_empty.
  - intros f. apply matchesQuery_iff.
  - reflexivity.
  - intros f. rewrite filter_In, matchesQuery_iff. reflexivity.
  - intros H. apply filter_none. intros f Hf.
    apply not_true_false. rewrite matchesQuery_iff. now apply H.
  - intros Hq f Hn Hc. rewrite <- matchesQuery_iff.
    now apply matchesQuery_ascii.
Qed.

Lemma totalPages_setCurrentPage (p : Z) (st : AppState.t) :
  totalPages (AppState.setCurrentPage p st) = totalPages st.
Proof. reflexivity. Qed.

Lemma state_eta (st : AppState.t) :
  AppState.setCurrentPage (AppState.currentPage st) st = st.
Proof. destruct st; reflexivity. Qed.

(** C8. The table shows ten records a page.  A filtered and sorted list
    of 25 records makes 3 pages, of 10, 10 and 5 records, which together
    are the list.  On a page between 1 and the last, Previous and Next
    lead to a page between 1 and the last; Previous on page 1 and Next
    on the last page change nothing, by the button and by the clamp in
    the handler alike. *)
Theorem C8_pagination (st : AppState.t) :
  filesPerPage = 10
  /\ (List.length (sortedFiles st) = 25%nat ->
      let page p := visibleFiles (AppState.setCurrentPage p st) in
      totalPages st = 3
      /\ List.length (page 1) = 10%nat
      /\ List.length (page 2) = 10%nat
      /\ List.length (page 3) = 5%nat
      /\ page 1 ++ page 2 ++ page 3 = sortedFiles st)
  /\ (1 <= AppState.currentPage st <= totalPages st ->
      1 <= AppState.currentPage (clickPrevious st) <= totalPages st
      /\ 1 <= AppState.currentPage (clickNext st) <= totalPages st
      /\ totalPages (clickPrevious st) = totalPages st
      /\ totalPages (clickNext st) = totalPages st
      /\ (AppState.currentPage st = 1 ->
          clickPrevious st = st
          /\ Z.max 1 (AppState.currentPage st - 1) = AppState.currentPage st)
      /\ (AppState.currentPage st = totalPages st ->
          clickNext st = st
          /\ Z.min (totalPages st) (AppState.currentPage st + 1)
             = AppState.currentPage st)).
Proof.
  split; [reflexivity|]. split.
  - intros H25 page. subst page. unfold totalPages, visibleFiles, startIndex.
    change (sortedFiles (AppState.setCurrentPage _ st)) with (sortedFiles st).
    cbn [AppState.currentPage AppState.setCurrentPage].
    rewrite H25. split; [reflexivity|].
    generalize dependent (sortedFiles st). intros l H25.
    do 25 (destruct l as [|? l]; [discriminate H25|]).
    destruct l; [|discriminate H25].
    repeat split; reflexivity.
  - intros Hp. unfold clickPrevious, clickNext.
    destruct (paginationShown st).
    + cbn [andb].
      destruct (Z.eqb_spec (AppState.currentPage st) 1) as [E1|N1];
        destruct (Z.eqb_spec (AppState.currentPage st) (totalPages st))
          as [ET|NT];
        cbn [negb]; rewrite ?totalPages_setCurrentPage;
        cbn [AppState.currentPage AppState.setCurrentPage];
        repeat split; try lia; try reflexivity.
      all: try (intros _; rewrite <- state_eta; f_equal; lia).
      all: try (intros E; exfalso; lia).
    + cbn [andb]. repeat split; try lia.
      all: intros E; lia.
Qed.

(** C10. Typing in the search box sets the query and nothing else: the
    page shown, the sort column and the sort direction stay as they
    were.  So a page that was valid can lie past the last page of the
    filtered list: with eleven files on page 2, a query that one file
    matches leaves a filtered list of one record and an empty table. *)
Theorem C10_stale_page_after_search :
  (forall q st,
      AppState.currentPage (changeSearch q st) = AppState.currentPage st
      /\ AppState.sortField (changeSearch q st) = AppState.sortField st
      /\ AppState.sortDirection (changeSearch q st) = AppState.sortDirection st
      /\ AppState.fileList (changeSearch q st) = AppState.fileList st)
  /\ exists st0 q,
       let st := clickNext st0 in
       let st' := changeSearch q st in
       AppState.fileList st0 <> []
       /\ AppState.currentPage st0 = 1
       /\ AppState.currentPage st = 2
       /\ 1 <= AppState.currentPage st <= totalPages st
       /\ filteredFiles st' <> []
       /\ visibleFiles st' = []
       /\ totalPages st' < AppState.currentPage st'.
Proof.
  split; [intros q st; repeat split|].
  exists (Sample.analysed Sample.elevenFiles), "wide"%string.
  assert (totalPages (Sample.analysed Sample.elevenFiles) = 2) as HT.
  { unfold totalPages, sortedFiles. rewrite length_sort. reflexivity. }
  assert (clickNext (Sample.analysed Sample.elevenFiles)
          = AppState.setCurrentPage 2 (Sample.analysed Sample.elevenFiles))
    as Hnext.
  { unfold clickNext, paginationShown. rewrite HT. reflexivity. }
  cbv zeta. rewrite Hnext.
  rewrite totalPages_setCurrentPage, HT.
  repeat split; try discriminate; try reflexivity; try lia.
Qed.

(* ---------------------------------------------------------------- *)
(** ** Further properties of the analysis *)

Lemma forEachFile_completion (files : list FileSystemFileHandle.t)
    (w : World.t) :
  completionOf (forEachFile files w)
  = if anyRejects files then Throw NotFoundError else Normal tt.
Proof.
  revert w. induction files as [|h files IH]; intros w; [reflexivity|].
  cbn [forEachFile anyRejects existsb]. unfold bind.
  pose proof (processOne_completion h w) as Hc.
  destruct (processOne h w) as [c w1]. cbn in Hc. subst c.
  destruct (getFileRejects h); [reflexivity|]. apply IH.
Qed.

Lemma forEachFile_processedFiles (files : list FileSystemFileHandle.t)
    (w : World.t) :
  World.processedFiles (stateOf (forEachFile files w))
  = World.processedFiles w ++ recordsOf files.
Proof.
  revert w. induction files as [|h files IH]; intros w;
    cbn [forEachFile recordsOf]; [now rewrite app_nil_r|].
  unfold bind. rewrite processOne_run.
  destruct (getFileRejects h); [now rewrite app_nil_r|].
  destruct (recordFor h) as [r|]; cbv zeta; cbv iota beta; rewrite IH;
    cbn [World.processedFiles World.setTrace].
  - now rewrite <- app_assoc.
  - reflexivity.
Qed.

Lemma recordFor_handle (h : FileSystemFileHandle.t) (r : FileInfo.t) :
  recordFor h = Some r ->
  FileInfo.fileHandle r = h
  /\ FileInfo.name r = FileSystemFileHandle.name h.
Proof.
  unfold recordFor. destruct (parsedFor h) as [[f pdf]|]; [|discriminate].
  destruct (markerOf _); [|discriminate].
  destruct (PDFDocumentProxy.destroy pdf); [|discriminate].
  intros E. injection E as <-. split; reflexivity.
Qed.

Lemma subsequence_nil_l {A : Type} (l : list A) : subsequence [] l.
Proof. induction l; constructor; assumption. Qed.

Lemma recordsOf_subsequence (files : list FileSystemFileHandle.t) :
  subsequence (map FileInfo.fileHandle (recordsOf files)) files.
Proof.
  induction files as [|h files IH]; cbn [recordsOf]; [constructor|].
  destruct (getFileRejects h); [apply subsequence_nil_l|].
  destruct (recordFor h) as [r|] eqn:E.
  - cbn [map]. destruct (recordFor_handle h r E) as [-> _].
    now constructor.
  - now constructor.
Qed.

Lemma processPDFBatch_completion (batch : list FileSystemFileHandle.t)
    (currentBatch totalBatches : Z) (w : World.t) :
  completionOf (processPDFBatch batch currentBatch totalBatches w) <> OutOfFuel.
Proof.
  unfold processPDFBatch, bind.
  pose proof (forEachFile_completion batch w) as Hc.
  destruct (forEachFile batch w) as [[[]| e |] w1]; cbn in *; try discriminate.
  destruct (anyRejects batch); discriminate.
Qed.

Lemma runBatches_completion (groups : list (list FileSystemFileHandle.t))
    (currentBatch totalBatches : Z) (w : World.t) :
  completionOf (runBatches groups currentBatch totalBatches w) <> OutOfFuel.
Proof.
  revert currentBatch w.
  induction groups as [|g groups IH]; intros cb w; [discriminate|].
  cbn [runBatches]. unfold bind.
  pose proof (processPDFBatch_completion g cb totalBatches w) as Hc.
  destruct (processPDFBatch g cb totalBatches w) as [[[]| e |] w1]; cbn in *;
    try discriminate; [|congruence].
  apply IH.
Qed.

(** X1.  A file whose bytes cannot be read, or are not a PDF, is logged
    and skipped: the loop body returns normally, raises no alert and leaves
    the results and the page as they were. *)
Theorem read_and_parse_failures_are_skipped
    (h : FileSystemFileHandle.t) (f : File.t) (w : World.t) :
  FileSystemFileHandle.getFile h = Some f ->
  (forall pdf, File.arrayBuffer f <> Some (PdfData pdf)) ->
  completionOf (processOne h w) = Normal tt
  /\ World.counts (stateOf (processOne h w)) = World.counts w
  /\ World.processedFiles (stateOf (processOne h w)) = World.processedFiles w
  /\ World.ui (stateOf (processOne h w)) = World.ui w
  /\ (forall e, In (Alert e) (World.trace (stateOf (processOne h w))) ->
                In (Alert e) (World.trace w)).
Proof.
  intros Hf Hn. rewrite processOne_run.
  unfold getFileRejects, recordFor, countsAfter, tallyFor, parsedFor, callsFor.
  rewrite Hf, andb_false_r.
  assert (match File.arrayBuffer f with
          | Some (PdfData _) => False
          | _ => True
          end) as Hb.
  { destruct (File.arrayBuffer f) as [[n|]|];
      [exact (Hn n eq_refl) | exact I ..]. }
  destruct (passesGuard h);
    destruct (File.arrayBuffer f) as [[n|]|]; try contradiction;
    cbn; repeat split; intros e; rewrite in_app_iff; cbn; intros [H|H];
    try exact H;
    repeat (destruct H as [H|H]; [discriminate H|]); contradiction.
Qed.

Lemma batchLoop_completion (fuel : nat)
    (pdfFiles : list FileSystemFileHandle.t) (totalBatches : Z) (w : World.t) :
  0 < BATCH_SIZE -> (List.length pdfFiles <= fuel)%nat ->
  completionOf (batchLoop fuel pdfFiles totalBatches 0 w) <> OutOfFuel.
Proof.
  intros HB Hfuel. rewrite batchLoop_runBatches by assumption.
  apply runBatches_completion.
Qed.

(** X2.  With a positive batch size the run always ends, whatever the
    pickers answer and whatever the files do: [analysePDFs] returns
    normally, with the loading flag down and the progress cleared. *)
Theorem analysePDFs_settles (fuel : nat) (w : World.t) :
  0 < BATCH_SIZE ->
  (forall dir rest,
      World.pickers w = Some dir :: rest -> (List.length dir <= fuel)%nat) ->
  completionOf (analysePDFs fuel w) = Normal tt
  /\ AppState.loading (World.ui (stateOf (analysePDFs fuel w))) = false
  /\ AppState.progress (World.ui (stateOf (analysePDFs fuel w))) = None.
Proof.
  intros HB Hfuel. destruct w as [c pf u tr pk].
  unfold analysePDFs, tryFinally, tryCatch, bind, checkPathExists,
    showDirectoryPicker, tryCatch, bind.
  cbn [World.pickers] in *.
  destruct pk as [|[d|] pk]; cbn; try (repeat split; reflexivity).
  specialize (Hfuel d pk eq_refl).
  destruct pk as [|[d2|] pk]; cbn; try (repeat split; reflexivity).
  match goal with
  | |- context [batchLoop ?n ?fs ?tb ?i ?w1] =>
      pose proof (batchLoop_completion n fs tb w1 HB) as Hc;
      destruct (batchLoop n fs tb i w1) as [[[]| e |] w2]
  end; cbn in *; try (repeat split; reflexivity).
  exfalso. apply Hc; [|reflexivity].
  etransitivity; [apply filter_length_le | exact Hfuel].
Qed.

(** X3.  The records of a run stand in the order in which their files
    were listed: the handles of the records added are the listed files with
    some left out, and every record bears the name of its file. *)
Theorem records_keep_enumeration_order
    (pdfFiles : list FileSystemFileHandle.t) (fuel : nat)
    (totalBatches : Z) (w : World.t) :
  0 < BATCH_SIZE ->
  (List.length pdfFiles <= fuel)%nat ->
  exists kept,
    World.processedFiles (stateOf (batchLoop fuel pdfFiles totalBatches 0 w))
    = World.processedFiles w ++ kept
    /\ subsequence (map FileInfo.fileHandle kept) pdfFiles
    /\ Forall (fun r =>
                 FileInfo.name r
                 = FileSystemFileHandle.name (FileInfo.fileHandle r)) kept.
Proof.
  intros HB Hfuel. exists (recordsOf pdfFiles).
  split; [|split].
  - rewrite batchLoop_runBatches by assumption.
    destruct (runBatches_sameData (batchesOf pdfFiles) 1 totalBatches w w
                (sameData_refl w)) as [_ (_ & H & _)].
    rewrite H, concat_batchesOf by exact HB.
    apply forEachFile_processedFiles.
  - apply recordsOf_subsequence.
  - induction pdfFiles as [|h files IH]; cbn [recordsOf]; [constructor|].
    assert (Forall (fun r => FileInfo.name r
                             = FileSystemFileHandle.name
                                 (FileInfo.fileHandle r))
              (recordsOf files)) as Hrest.
    { clear IH Hfuel. induction files as [|h' files IH]; cbn [recordsOf];
        [constructor|].
      destruct (getFileRejects h'); [constructor|].
      destruct (recordFor h') as [r|] eqn:E; [|exact IH].
      constructor; [|exact IH].
      destruct (recordFor_handle h' r E) as [-> ->]. reflexivity. }
    destruct (getFileRejects h); [constructor|].
    destruct (recordFor h) as [r|] eqn:E; [|exact Hrest].
    constructor; [|exact Hrest].
    destruct (recordFor_handle h r E) as [-> ->]. reflexivity.
Qed.

(* ---------------------------------------------------------------- *)
(** ** The run as a whole *)

(** [analysePDFs] case by case on what the two pickers answer. *)
Lemma analysePDFs_run (fuel : nat) (w : World.t) :
  analysePDFs fuel w =
  let started :=
    AppState.setProgress None (AppState.setLoading true (World.ui w)) in
  let settled st := AppState.setProgress None (AppState.setLoading false st) in
  let refused e calls rest :=
    (Normal tt,
     World.Build (World.counts w) (World.processedFiles w) (settled started)
       (World.trace w ++ calls ++ [ConsoleError e; Alert e]) rest) in
  match World.pickers w with
  | [] => refused AbortError [] []
  | None :: rest => refused AbortError [] rest
  | [Some dir] => refused PathNotAccessible [ConsoleError AbortError] []
  | Some dir :: None :: rest =>
      refused PathNotAccessible [ConsoleError AbortError] rest
  | Some dir :: Some _ :: rest =>
      let pdfFiles := filter isPdfEntry dir in
      match batchLoop fuel pdfFiles
              (Math_ceil_div (Z.of_nat (List.length pdfFiles)) BATCH_SIZE) 0
              (World.Build PageCounts.zero [] started (World.trace w) rest)
      with
      | (Normal _, w2) =>
          (Normal tt,
           World.setUi (settled (AppState.setCurrentPage 1 (World.ui w2))) w2)
      | (Throw e, w2) =>
          (Normal tt,
           World.Build (World.counts w2) (World.processedFiles w2)
             (settled (World.ui w2))
             (World.trace w2 ++ [ConsoleError e; Alert e]) (World.pickers w2))
      | (OutOfFuel, w2) => (OutOfFuel, w2)
      end
  end.
Proof.
  destruct w as [c pf u tr pk].
  unfold analysePDFs, tryFinally, tryCatch, bind, checkPathExists,
    showDirectoryPicker, tryCatch, bind.
  cbn [World.pickers World.ui World.trace World.counts World.processedFiles].
  destruct pk as [|[d|] pk]; cbn; rewrite <- ?app_assoc; try reflexivity.
  destruct pk as [|[d2|] pk]; cbn; rewrite <- ?app_assoc; try reflexivity.
  unfold World.setProcessedFiles, World.setCounts, World.setPickers,
    World.setUi. cbn.
  match goal with
  | |- context [batchLoop ?n ?fs ?tb ?i ?w1] =>
      destruct (batchLoop n fs tb i w1) as [[[]| e |] w2]
  end; destruct w2; cbn; rewrite <- ?app_assoc; reflexivity.
Qed.

Lemma forEachFile_invariant (P : World.t -> Prop)
    (files : list FileSystemFileHandle.t) :
  (forall h w, In h files -> P w -> P (stateOf (processOne h w))) ->
  forall w, P w -> P (stateOf (forEachFile files w)).
Proof.
  induction files as [|h files IH]; intros Hstep w Hw; [exact Hw|].
  cbn [forEachFile]. unfold bind.
  pose proof (Hstep h w (or_introl eq_refl) Hw) as H1.
  destruct (processOne h w) as [[[]| e |] w1]; cbn in *; try exact H1.
  apply IH; [|exact H1]. intros h' w' Hin. apply Hstep. now right.
Qed.

Lemma processPDFBatch_invariant (P : World.t -> Prop)
    (batch : list FileSystemFileHandle.t) (currentBatch totalBatches : Z) :
  (forall h w, In h batch -> P w -> P (stateOf (processOne h w))) ->
  (forall w p, P w ->
               P (World.setUi (AppState.setProgress p (World.ui w)) w)) ->
  forall w, P w ->
            P (stateOf (processPDFBatch batch currentBatch totalBatches w)).
Proof.
  intros Hstep Hprog w Hw. unfold processPDFBatch, bind.
  pose proof (forEachFile_invariant P batch Hstep w Hw) as H1.
  destruct (forEachFile batch w) as [[[]| e |] w1]; cbn in H1; try exact H1.
  cbn. apply Hprog. exact H1.
Qed.

(** What every file keeps, and the progress and the pauses do not
    disturb, holds at every cut of the loop. *)
Lemma batchLoop_invariant (P : World.t -> Prop)
    (pdfFiles : list FileSystemFileHandle.t) :
  (forall h w, In h pdfFiles -> P w -> P (stateOf (processOne h w))) ->
  (forall w p, P w ->
               P (World.setUi (AppState.setProgress p (World.ui w)) w)) ->
  (forall w ms, P w -> P (World.setTrace (World.trace w ++ [Delay ms]) w)) ->
  forall fuel totalBatches i w,
    P w -> P (stateOf (batchLoop fuel pdfFiles totalBatches i w)).
Proof.
  intros Hstep Hprog Hdelay fuel totalBatches.
  induction fuel as [|fuel IH]; intros i w Hw; cbn [batchLoop];
    destruct (i <? _); try exact Hw.
  unfold bind.
  pose proof (processPDFBatch_invariant P
                (JsArray.slice pdfFiles i (i + BATCH_SIZE))
                (Math_floor_div i BATCH_SIZE + 1) totalBatches
                (fun h w' Hin => Hstep h w' (In_slice _ _ _ _ Hin))
                Hprog w Hw) as H1.
  destruct (processPDFBatch _ _ _ w) as [[[]| e |] w1]; cbn in H1;
    try exact H1.
  cbn. apply IH. apply (Hdelay _ 200). exact H1.
Qed.

Lemma batchLoop_trace (fuel : nat) (pdfFiles : list FileSystemFileHandle.t)
    (totalBatches i : Z) (w : World.t) (e : Effect) :
  In e (World.trace (stateOf (batchLoop fuel pdfFiles totalBatches i w))) ->
  In e (World.trace w)
  \/ (exists ms, e = Delay ms)
  \/ (exists h, In h pdfFiles /\ In e (callsFor h)).
Proof.
  revert e.
  apply (batchLoop_invariant
           (fun w' => forall e,
                In e (World.trace w') ->
                In e (World.trace w)
                \/ (exists ms, e = Delay ms)
                \/ (exists h, In h pdfFiles /\ In e (callsFor h)))).
  - intros h w' Hin Hw' e. rewrite processOne_run.
    destruct (getFileRejects h); [|destruct (recordFor h)]; cbn;
      rewrite ?in_app_iff; cbn; intros He;
      repeat match goal with
             | H : _ \/ _ |- _ => destruct H as [H|H]
             end;
      try (now apply Hw'); try contradiction;
      try (right; left; eexists; symmetry; eassumption);
      right; right; exists h; split; assumption.
  - intros w' p Hw'. exact Hw'.
  - intros w' ms Hw' e. cbn. rewrite in_app_iff. cbn.
    intros [He|[He|[]]]; [now apply Hw'|].
    right. left. exists ms. now symmetry.
  - intros e He. now left.
Qed.

Lemma callsFor_calledOn (h : FileSystemFileHandle.t) (e : Effect) (n : string) :
  In e (callsFor h) -> calledOn e = Some n ->
  n = FileSystemFileHandle.name h
  /\ FileSystemFileHandle.kind h = HandleKind.file
  /\ endsWith (FileSystemFileHandle.name h) ".pdf" = true.
Proof.
  unfold callsFor, passesGuard.
  destruct (FileSystemFileHandle.kind h); cbn [HandleKind.eqb andb];
    [|intros []].
  destruct (endsWith _ ".pdf"); [|intros []].
  destruct (FileSystemFileHandle.getFile h) as [f|];
    [destruct (File.arrayBuffer f) as [[[k [[]|]]|]|]|]; cbn;
    intros He Hc;
    repeat (destruct He as [<-|He]; [cbn in Hc; try discriminate Hc;
                                     injection Hc as <-; auto|]);
    destruct He.
Qed.


(** X6.  A run makes calls on no other files than the entries of the
    directory the first picker gave that are files and whose name ends
    in [.pdf] as it is written: directories, other files, and files
    whose extension is not in lower case are never opened. *)
Theorem only_listed_pdfs_are_opened (fuel : nat) (w : World.t)
    (e : Effect) (n : string) :
  In e (World.trace (stateOf (analysePDFs fuel w))) ->
  calledOn e = Some n ->
  In e (World.trace w)
  \/ exists dir rest h,
       World.pickers w = Some dir :: rest
       /\ In h dir
       /\ FileSystemFileHandle.name h = n
       /\ FileSystemFileHandle.kind h = HandleKind.file
       /\ endsWith (FileSystemFileHandle.name h) ".pdf" = true.
Proof.
  rewrite analysePDFs_run. cbv zeta.
  destruct (World.pickers w) as [|[dir|] [|[d2|] rest]]; cbn;
    rewrite ?in_app_iff; cbn; intros He Hc;
    try (repeat (destruct He as [He|He]; try (now left);
                 try (subst e; discriminate Hc)); contradiction).
  match type of He with
  | context [batchLoop ?f ?fs ?tb ?i ?w1] =>
      pose proof (batchLoop_trace f fs tb i w1 e) as Ht;
      destruct (batchLoop f fs tb i w1) as [[[]| x |] w2]
  end; cbn in He, Ht; rewrite ?in_app_iff in He; cbn in He.
  1, 3: destruct (Ht He) as [H|[[ms ->]|[h [Hin Hcall]]]];
    [now left | discriminate Hc |].
  3: destruct He as [He|[He|[He|[]]]]; try (subst e; discriminate Hc);
     destruct (Ht He) as [H|[[ms ->]|[h [Hin Hcall]]]];
     [now left | discriminate Hc |].
  all: right; exists dir, (Some d2 :: rest), h;
    apply filter_In in Hin; destruct Hin as [Hin _];
    destruct (callsFor_calledOn h e n Hcall Hc) as (-> & Hk & Hend);
    repeat split; assumption.
Qed.

Lemma settled_started (st : AppState.t) :
  AppState.setProgress None
    (AppState.setLoading false
       (AppState.setProgress None (AppState.setLoading true st)))
  = AppState.setProgress None (AppState.setLoading false st).
Proof. reflexivity. Qed.

(** X7.  When a directory picker is dismissed the run is over before it
    has begun: no file is opened, the results, the page and the run's
    own objects stay as they were, the loading flag and the progress
    are cleared, and one alert is raised, for the dismissal of the
    first picker or for the path that the second did not confirm. *)
Theorem dismissed_picker_ends_the_run (fuel : nat) (w : World.t) :
  (forall dir dir' rest, World.pickers w <> Some dir :: Some dir' :: rest) ->
  completionOf (analysePDFs fuel w) = Normal tt
  /\ World.counts (stateOf (analysePDFs fuel w)) = World.counts w
  /\ World.processedFiles (stateOf (analysePDFs fuel w))
     = World.processedFiles w
  /\ World.ui (stateOf (analysePDFs fuel w))
     = AppState.setProgress None (AppState.setLoading false (World.ui w))
  /\ ((forall dir rest, World.pickers w <> Some dir :: rest) ->
      World.trace (stateOf (analysePDFs fuel w))
      = World.trace w ++ [ConsoleError AbortError; Alert AbortError])
  /\ ((exists dir rest, World.pickers w = Some dir :: rest) ->
      World.trace (stateOf (analysePDFs fuel w))
      = World.trace w
        ++ [ConsoleError AbortError; ConsoleError PathNotAccessible;
            Alert PathNotAccessible]).
Proof.
  intros Hp. rewrite analysePDFs_run. cbv zeta.
  destruct (World.pickers w) as [|[dir|] [|[d2|] rest]]; cbn;
    try solve [exfalso; eapply Hp; reflexivity].
  all: rewrite settled_started; repeat split; try reflexivity.
  all: try (intros [d [r H]]; discriminate H).
  all: intros H; exfalso; eapply H; reflexivity.
Qed.

(** X8.  Once both pickers have answered, the page shows what it showed
    before the run for as long as the run has recorded nothing, and
    from the first record on it shows the run's own records, with the
    run's own tallies when every document of the directory can be
    released: a run that records nothing leaves the results of the run
    before it on the page. *)
Theorem page_shows_old_results_or_own (fuel : nat) (w : World.t) :
  (exists dir dir' rest, World.pickers w = Some dir :: Some dir' :: rest) ->
  (World.processedFiles (stateOf (analysePDFs fuel w)) = [] ->
   AppState.fileList (World.ui (stateOf (analysePDFs fuel w)))
   = AppState.fileList (World.ui w)
   /\ AppState.pageCounts (World.ui (stateOf (analysePDFs fuel w)))
      = AppState.pageCounts (World.ui w))
  /\ (World.processedFiles (stateOf (analysePDFs fuel w)) <> [] ->
      AppState.fileList (World.ui (stateOf (analysePDFs fuel w)))
      = World.processedFiles (stateOf (analysePDFs fuel w))
      /\ ((forall dir rest,
              World.pickers w = Some dir :: rest -> allReleased dir) ->
          AppState.pageCounts (World.ui (stateOf (analysePDFs fuel w)))
          = World.counts (stateOf (analysePDFs fuel w)))).
Proof.
  intros (dir & d2 & rest & Hp).
  assert (showsOldOrOwn (World.ui w) (stateOf (analysePDFs fuel w))) as H.
  { rewrite analysePDFs_run, Hp. cbv zeta.
    match goal with
    | |- context [batchLoop ?f ?fs ?tb ?i ?w1] =>
        assert (showsOldOrOwn (World.ui w) (stateOf (batchLoop f fs tb i w1)))
          as Hl;
        [|destruct (batchLoop f fs tb i w1) as [[[]| x |] w2]; exact Hl]
    end.
    apply (batchLoop_invariant (showsOldOrOwn (World.ui w))).
    - intros h w' _ Hw'. rewrite processOne_run.
      destruct (getFileRejects h); [exact Hw'|].
      destruct (recordFor h) as [r|]; [|exact Hw'].
      right. cbn. repeat split.
      destruct (World.processedFiles w'); discriminate.
    - intros w' p Hw'. exact Hw'.
    - intros w' ms Hw'. exact Hw'.
    - left. repeat split. }
  assert ((forall dir rest,
              World.pickers w = Some dir :: rest -> allReleased dir) ->
          showsOwnTallies (stateOf (analysePDFs fuel w))) as HT.
  { intros Hd. rewrite analysePDFs_run, Hp. cbv zeta.
    match goal with
    | |- context [batchLoop ?f ?fs ?tb ?i ?w1] =>
        assert (showsOwnTallies (stateOf (batchLoop f fs tb i w1))) as Hl;
        [|destruct (batchLoop f fs tb i w1) as [[[]| x |] w2]; exact Hl]
    end.
    apply (batchLoop_invariant showsOwnTallies).
    - intros h w' Hin Hw'. rewrite processOne_run.
      destruct (getFileRejects h); [exact Hw'|].
      destruct (recordFor h) as [r|] eqn:Hr; [intros _; reflexivity|].
      unfold showsOwnTallies. cbn.
      rewrite countsAfter_released; [exact Hw' | | exact Hr].
      apply filter_In in Hin as [Hin _]. exact (Hd dir _ Hp h Hin).
    - intros w' p Hw'. exact Hw'.
    - intros w' ms Hw'. exact Hw'.
    - intros E. now elim E. }
  destruct H as [(H1 & H2 & H3)|(H1 & H2)]; split; intros E;
    try contradiction; try (split; assumption).
  split; [exact H2|]. intros Hd. exact (HT Hd E).
Qed.

Lemma batchLoop_frame (fuel : nat) (pdfFiles : list FileSystemFileHandle.t)
    (totalBatches i : Z) (w : World.t) :
  sameView (World.ui w)
    (World.ui (stateOf (batchLoop fuel pdfFiles totalBatches i w)))
  /\ AppState.loading
       (World.ui (stateOf (batchLoop fuel pdfFiles totalBatches i w)))
     = AppState.loading (World.ui w)
  /\ AppState.currentPage
       (World.ui (stateOf (batchLoop fuel pdfFiles totalBatches i w)))
     = AppState.currentPage (World.ui w).
Proof.
  apply (batchLoop_invariant
           (fun w' => sameView (World.ui w) (World.ui w')
                      /\ AppState.loading (World.ui w')
                         = AppState.loading (World.ui w)
                      /\ AppState.currentPage (World.ui w')
                         = AppState.currentPage (World.ui w))).
  - intros h w' _ Hw'. rewrite processOne_run.
    destruct (getFileRejects h); [exact Hw'|].
    destruct (recordFor h) as [r|]; exact Hw'.
  - intros w' p Hw'. exact Hw'.
  - intros w' ms Hw'. exact Hw'.
  - repeat split.
Qed.

(** X9.  A run leaves the sort column, the sort direction and the search
    query alone.  While it is under way (the loop cut short of its end)
    the loading flag is up, so that Select Folder and Download Excel
    are disabled, and the page shown is the one it was. *)
Theorem run_keeps_the_view (fuel : nat) (w : World.t) :
  sameView (World.ui w) (World.ui (stateOf (analysePDFs fuel w)))
  /\ (completionOf (analysePDFs fuel w) = OutOfFuel ->
      AppState.loading (World.ui (stateOf (analysePDFs fuel w))) = true
      /\ downloadDisabled (World.ui (stateOf (analysePDFs fuel w))) = true
      /\ AppState.currentPage (World.ui (stateOf (analysePDFs fuel w)))
         = AppState.currentPage (World.ui w)).
Proof.
  rewrite analysePDFs_run. cbv zeta.
  destruct (World.pickers w) as [|[dir|] [|[d2|] rest]]; cbn;
    try (split; [repeat split | discriminate]).
  match goal with
  | |- context [batchLoop ?f ?fs ?tb ?i ?w1] =>
      pose proof (batchLoop_frame f fs tb i w1) as Hl;
      destruct (batchLoop f fs tb i w1) as [[[]| x |] w2]
  end.
  all: cbn in Hl; destruct Hl as (Hv & Hload & Hpage); cbn.
  1, 2: split; [exact Hv | discriminate].
  split; [exact Hv|]. intros _.
  unfold downloadDisabled. rewrite Hload, orb_true_r. auto.
Qed.




Lemma length_recordsOf (files : list FileSystemFileHandle.t) :
  (List.length (recordsOf files) <= List.length files)%nat.
Proof.
  induction files as [|h files IH]; cbn [recordsOf List.length]; [lia|].
  destruct (getFileRejects h); [cbn; lia|].
  destruct (recordFor h); cbn [List.length]; lia.
Qed.

Lemma forEachFile_progress (files : list FileSystemFileHandle.t)
    (w : World.t) :
  AppState.progress (World.ui (stateOf (forEachFile files w)))
  = AppState.progress (World.ui w).
Proof.
  apply (forEachFile_invariant
           (fun w' => AppState.progress (World.ui w')
                      = AppState.progress (World.ui w))); [|reflexivity].
  intros h w' _ Hw'. rewrite processOne_run.
  destruct (getFileRejects h); [exact Hw'|].
  destruct (recordFor h) as [r|]; exact Hw'.
Qed.

(** What a batch does to the run's list and to the progress. *)
Lemma processPDFBatch_progress (batch : list FileSystemFileHandle.t)
    (currentBatch totalBatches : Z) (w : World.t) :
  let r := processPDFBatch batch currentBatch totalBatches w in
  (List.length (World.processedFiles (stateOf r))
   <= List.length (World.processedFiles w) + List.length batch)%nat
  /\ match completionOf r with
     | Normal _ =>
         AppState.progress (World.ui (stateOf r))
         = Some (ProgressInfo.Build
                   (Z.of_nat (List.length (World.processedFiles (stateOf r))))
                   (totalBatches * BATCH_SIZE) currentBatch totalBatches)
     | _ =>
         AppState.progress (World.ui (stateOf r))
         = AppState.progress (World.ui w)
     end.
Proof.
  cbv zeta. unfold processPDFBatch, bind.
  pose proof (forEachFile_processedFiles batch w) as Hpf.
  pose proof (forEachFile_progress batch w) as Hpr.
  pose proof (length_recordsOf batch) as Hlen.
  destruct (forEachFile batch w) as [[[]| e |] w1]; cbn in *;
    rewrite Hpf, length_app; (split; [lia|]); try exact Hpr.
  reflexivity.
Qed.

(** The progress a run shows, if it shows one, is within its bounds. *)
Lemma batchLoop_progress (N : Z) (pdfFiles : list FileSystemFileHandle.t)
    (totalBatches : Z) :
  0 < BATCH_SIZE ->
  N = Z.of_nat (List.length pdfFiles) ->
  N <= totalBatches * BATCH_SIZE ->
  let good (w : World.t) :=
    forall p, AppState.progress (World.ui w) = Some p ->
              0 <= ProgressInfo.processed p <= N
              /\ ProgressInfo.total p = totalBatches * BATCH_SIZE
              /\ ProgressInfo.totalBatches p = totalBatches
              /\ 1 <= ProgressInfo.currentBatch p <= totalBatches in
  forall fuel i w,
    0 <= i ->
    Z.of_nat (List.length (World.processedFiles w)) <= Z.min i N ->
    good w ->
    good (stateOf (batchLoop fuel pdfFiles totalBatches i w)).
Proof.
  intros HB HN HT good fuel.
  induction fuel as [|fuel IH]; intros i w Hi Hlen Hgood; cbn [batchLoop];
    rewrite <- HN; destruct (Z.ltb_spec i N) as [HiN|HiN]; try exact Hgood.
  unfold bind.
  pose proof (processPDFBatch_progress
                (JsArray.slice pdfFiles i (i + BATCH_SIZE))
                (Math_floor_div i BATCH_SIZE + 1) totalBatches w) as [Hl Hp].
  assert (Z.of_nat (List.length (JsArray.slice pdfFiles i (i + BATCH_SIZE)))
          <= Z.min BATCH_SIZE (N - i)) as Hs.
  { rewrite slice_nonneg, length_firstn, length_skipn by lia. lia. }
  destruct (processPDFBatch _ _ _ w) as [[[]| e |] w1]; cbn in Hl, Hp |- *.
  - apply IH; [lia | cbn; lia |].
    intros p Ep. cbn in Ep. rewrite Hp in Ep. injection Ep as <-. cbn.
    unfold Math_floor_div.
    pose proof (Z.div_pos i BATCH_SIZE Hi HB).
    assert (i / BATCH_SIZE < totalBatches)
      by (apply Z.div_lt_upper_bound; nia).
    repeat split; lia.
  - intros p Ep. apply Hgood. now rewrite <- Hp.
  - intros p Ep. apply Hgood. now rewrite <- Hp.
Qed.

(** X11.  For a positive batch size, whenever a run shows a progress,
    the number of files processed is at most the total it is shown
    against, the total is the number of batches times the batch size,
    and the number of the batch lies between 1 and the number of
    batches: the bar never passes its end. *)
Theorem progress_stays_within_bounds
    (fuel : nat) (w : World.t) (p : ProgressInfo.t) :
  0 < BATCH_SIZE ->
  AppState.progress (World.ui (stateOf (analysePDFs fuel w))) = Some p ->
  0 <= ProgressInfo.processed p <= ProgressInfo.total p
  /\ ProgressInfo.total p = ProgressInfo.totalBatches p * BATCH_SIZE
  /\ 1 <= ProgressInfo.currentBatch p <= ProgressInfo.totalBatches p.
Proof.
  intros HB. rewrite analysePDFs_run. cbv zeta.
  destruct (World.pickers w) as [|[dir|] [|[d2|] rest]]; cbn;
    try discriminate.
  match goal with
  | |- context [batchLoop ?f ?fs ?tb ?i ?w1] =>
      pose proof (batchLoop_progress (Z.of_nat (List.length fs)) fs tb HB
                    eq_refl (proj2 (Math_ceil_div_bounds _ _ HB))
                    f 0 w1 ltac:(lia)) as Hg;
      destruct (batchLoop f fs tb i w1) as [[[]| x |] w2]
  end; cbn; try discriminate.
  intros Ep. cbn in Hg.
  destruct (Hg ltac:(lia) ltac:(discriminate) p Ep) as (H1 & H2 & H3 & H4).
  pose proof (Math_ceil_div_bounds
                (Z.of_nat (List.length (filter isPdfEntry dir)))
                BATCH_SIZE HB).
  rewrite H2, H3. repeat split; lia.
Qed.

(* ---------------------------------------------------------------- *)
(** ** Dates, narrowing searches and pages *)

Lemma includes_slash (s : string) :
  includes s "/" = true <-> In "/"%char (list_ascii_of_string s).
Proof.
  induction s as [|c s IH]; cbn [includes list_ascii_of_string In].
  - cbn. split; [discriminate | intros []].
  - rewrite orb_true_iff, IH. unfold startsWith. cbn [String.prefix].
    destruct (ascii_dec "/" c) as [<-|Hne].
    + split; [now left|]. intros _. left. now destruct s.
    + split; [intros [H|H]; [discriminate H | now right]|].
      intros [H|H]; [now subst c | now right].
Qed.

Lemma replaceSlashes_chars (s : string) :
  ~ In "/"%char (list_ascii_of_string (replaceSlashes s)).
Proof.
  induction s as [|c s IH]; cbn [replaceSlashes list_ascii_of_string In];
    [intros []|].
  intros [H|H]; [|exact (IH H)].
  destruct (Ascii.eqb_spec c "/"); [discriminate H | congruence].
Qed.

Lemma replaceSlashes_id (s : string) :
  ~ In "/"%char (list_ascii_of_string s) -> replaceSlashes s = s.
Proof.
  induction s as [|c s IH]; cbn [replaceSlashes list_ascii_of_string In];
    [reflexivity|].
  intros H. destruct (Ascii.eqb_spec c "/") as [->|_].
  - exfalso. apply H. now left.
  - f_equal. apply IH. intros Hs. apply H. now right.
Qed.

Lemma length_replaceSlashes (s : string) :
  String.length (replaceSlashes s) = String.length s.
Proof. induction s; cbn; congruence. Qed.

(** X12.  A formatted date has no slash in it, is as long as the date
    the locale gave, and is that very date when it had no slash; so
    the date of every record a file yields is free of slashes. *)
Theorem formatDate_has_no_slash (date : Z) :
  includes (formatDate date) "/" = false
  /\ String.length (formatDate date)
     = String.length (toLocaleDateString date)
  /\ (includes (toLocaleDateString date) "/" = false ->
      formatDate date = toLocaleDateString date)
  /\ (forall h w r,
        completionOf (processPDFFile h w) = Normal (Some r) ->
        includes (FileInfo.createdAt r) "/" = false).
Proof.
  assert (forall d, includes (formatDate d) "/" = false) as Hno.
  { intros d. apply not_true_false. rewrite includes_slash.
    apply replaceSlashes_chars. }
  split; [apply Hno|]. split; [apply length_replaceSlashes|]. split.
  - intros H. apply replaceSlashes_id. rewrite <- includes_slash.
    now rewrite H.
  - intros h w r. rewrite processPDFFile_run.
    destruct (getFileRejects h); [discriminate|]. cbn.
    intros E. injection E as E. unfold recordFor in E.
    destruct (parsedFor h) as [[f pdf]|]; [|discriminate E].
    destruct (markerOf _); [|discriminate E].
    destruct (PDFDocumentProxy.destroy pdf); [|discriminate E].
    injection E as <-. apply Hno.
Qed.

Lemma includes_trans (s m n : string) :
  includes s m = true -> includes m n = true -> includes s n = true.
Proof.
  rewrite !includes_spec.
  intros (a & b & ->) (c & d & ->).
  exists (a ++ c)%string, (d ++ b)%string.
  now rewrite !append_assoc.
Qed.

Lemma filter_filter_implied {A : Type} (p p' : A -> bool) (l : list A) :
  (forall x, p' x = true -> p x = true) ->
  filter p' (filter p l) = filter p' l.
Proof.
  intros H. induction l as [|x l IH]; cbn [filter]; [reflexivity|].
  destruct (p x) eqn:Hp; cbn [filter].
  - now rewrite IH.
  - destruct (p' x) eqn:Hp'; [|exact IH].
    rewrite (H x Hp') in Hp. discriminate.
Qed.

(** X13.  A query whose lower-cased form contains the lower-cased form
    of another shows a part of what the other shows: filtering by it is
    filtering, by it, the list the other one leaves.  For two queries of
    ASCII characters that is the case when the one contains the other up
    to the case of the letters: typing on then never brings a record
    back. *)
Theorem longer_query_narrows (q q' : string) (st : AppState.t) :
  (includes (toLowerCase q') (toLowerCase q) = true ->
   filteredFiles (changeSearch q' st)
   = filter (matchesQuery q') (filteredFiles (changeSearch q st)))
  /\ (allAscii q = true -> allAscii q' = true ->
      containsIgnoringCase q' q ->
      filteredFiles (changeSearch q' st)
      = filter (matchesQuery q') (filteredFiles (changeSearch q st))).
Proof.
  assert (includes (toLowerCase q') (toLowerCase q) = true ->
          filteredFiles (changeSearch q' st)
          = filter (matchesQuery q') (filteredFiles (changeSearch q st)))
    as Hgen.
  { intros Hq. unfold filteredFiles, changeSearch. cbn.
    symmetry. apply filter_filter_implied.
    intros f. rewrite !matchesQuery_iff.
    intros [H|[H|[H|H]]];
      [left | right; left | right; right; left | right; right; right];
      exact (includes_trans _ _ _ H Hq). }
  split; [exact Hgen|].
  intros Ha Ha' Hc. apply Hgen.
  rewrite (toLowerCase_ascii q Ha), (toLowerCase_ascii q' Ha').
  now apply includes_asciiToLowerCase.
Qed.

Lemma pageAt_eq {A : Type} (l : list A) (size : Z) (k : nat) :
  0 < size ->
  JsArray.slice l (Z.of_nat k * size) (Z.of_nat k * size + size)
  = firstn (Z.to_nat size) (skipn (k * Z.to_nat size) l).
Proof.
  intros Hs. rewrite slice_nonneg by nia.
  f_equal; [f_equal; lia | f_equal; nia].
Qed.

Lemma concat_pages {A : Type} (l : list A) (size : Z) (n : nat) :
  0 < size ->
  List.concat
    (map (fun k => JsArray.slice l (Z.of_nat k * size)
                     (Z.of_nat k * size + size)) (seq 0 n))
  = firstn (n * Z.to_nat size) l.
Proof.
  intros Hs. induction n as [|n IH]; [reflexivity|].
  rewrite seq_S, map_app, concat_app, IH. cbn [map List.concat Nat.add].
  rewrite app_nil_r, pageAt_eq by exact Hs.
  replace (S n * Z.to_nat size)%nat
    with (n * Z.to_nat size + Z.to_nat size)%nat by lia.
  now rewrite firstn_add.
Qed.

Lemma visibleFiles_on_page (p : Z) (st : AppState.t) :
  visibleFiles (AppState.setCurrentPage p st)
  = JsArray.slice (sortedFiles st) ((p - 1) * filesPerPage)
      ((p - 1) * filesPerPage + filesPerPage).
Proof. reflexivity. Qed.

(** X14.  The pages of the table cut the sorted list up: there is no
    page exactly when the list is empty, the pages 1 to [totalPages]
    put one after the other are the sorted list, each of them shows
    at least one record and at most ten, each but the last shows ten,
    and a page past the last shows nothing. *)
Theorem pages_partition_the_table (st : AppState.t) :
  0 <= totalPages st
  /\ (totalPages st = 0 <-> sortedFiles st = [])
  /\ List.concat
       (map (fun k =>
               visibleFiles (AppState.setCurrentPage (Z.of_nat k + 1) st))
            (seq 0 (Z.to_nat (totalPages st))))
     = sortedFiles st
  /\ (forall p, 1 <= p <= totalPages st ->
        0 < Z.of_nat (List.length
                        (visibleFiles (AppState.setCurrentPage p st)))
          <= filesPerPage
        /\ (p < totalPages st ->
            Z.of_nat (List.length
                        (visibleFiles (AppState.setCurrentPage p st)))
            = filesPerPage))
  /\ (forall p, totalPages st < p ->
        visibleFiles (AppState.setCurrentPage p st) = []).
Proof.
  assert (0 < filesPerPage) as Hs by reflexivity.
  pose proof (Math_ceil_div_bounds
                (Z.of_nat (List.length (sortedFiles st))) filesPerPage Hs)
    as Hb.
  pose proof (Math_ceil_div_nonneg
                (Z.of_nat (List.length (sortedFiles st))) filesPerPage Hs
                ltac:(lia)) as Hn.
  fold (totalPages st) in Hb, Hn.
  assert (forall p, 1 <= p ->
            Z.of_nat (List.length
                        (visibleFiles (AppState.setCurrentPage p st)))
            = Z.max 0 (Z.min filesPerPage
                         (Z.of_nat (List.length (sortedFiles st))
                          - (p - 1) * filesPerPage))) as Hlen.
  { intros p Hp. rewrite visibleFiles_on_page.
    replace (p - 1) with (Z.of_nat (Z.to_nat (p - 1))) by lia.
    rewrite pageAt_eq, length_firstn, length_skipn by exact Hs. nia. }
  split; [exact Hn|]. split; [|split; [|split]].
  - split; intros H.
    + rewrite H in Hb. destruct (sortedFiles st); [reflexivity|].
      cbn [List.length] in Hb. lia.
    + rewrite H in Hb. cbn [List.length] in Hb. nia.
  - erewrite map_ext.
    2:{ intros k. rewrite visibleFiles_on_page.
        replace (Z.of_nat k + 1 - 1) with (Z.of_nat k) by lia.
        reflexivity. }
    rewrite concat_pages by exact Hs. apply firstn_all2. nia.
  - intros p Hp. rewrite (Hlen p) by lia. split; [nia|]. intros Hlt. nia.
  - intros p Hp. apply length_zero_iff_nil.
    apply Nat2Z.inj. rewrite (Hlen p) by lia. nia.
Qed.

(* ---------------------------------------------------------------- *)
(** ** The second picker and the batch size *)

(** X21.  The check of the configured path looks neither at the path
    nor at the directory it is answered with: [checkPathExists] does
    the same for every path, and a run does the same whatever
    directory the second picker is answered with. *)
Theorem second_picker_choice_is_ignored (fuel : nat) (w : World.t)
    (dir dir1 dir2 : list FileSystemFileHandle.t)
    (rest : list (option (list FileSystemFileHandle.t))) :
  (forall path path' w', checkPathExists path w' = checkPathExists path' w')
  /\ analysePDFs fuel (World.setPickers (Some dir :: Some dir1 :: rest) w)
     = analysePDFs fuel (World.setPickers (Some dir :: Some dir2 :: rest) w).
Proof.
  split; [reflexivity|].
  rewrite !analysePDFs_run. reflexivity.
Qed.

Lemma processPDFBatch_ends (batch : list FileSystemFileHandle.t)
    (currentBatch totalBatches : Z) (w : World.t) :
  completionOf (processPDFBatch batch currentBatch totalBatches w)
  = if anyRejects batch then Throw NotFoundError else Normal tt.
Proof.
  unfold processPDFBatch, bind.
  pose proof (forEachFile_completion batch w) as Hc.
  destruct (forEachFile batch w) as [[[]| e |] w1]; cbn in *;
    destruct (anyRejects batch); congruence.
Qed.

Lemma anyRejects_slice (l : list FileSystemFileHandle.t) (a b : Z) :
  anyRejects l = false -> anyRejects (JsArray.slice l a b) = false.
Proof.
  unfold anyRejects. intros H.
  apply not_true_is_false. intros Hs.
  apply existsb_exists in Hs as (h & Hin & Hh).
  assert (existsb getFileRejects l = true) as Ht.
  { apply existsb_exists. exists h. split; [|exact Hh].
    exact (In_slice h l a b Hin). }
  congruence.
Qed.

Lemma batchLoop_backwards (fuel : nat)
    (pdfFiles : list FileSystemFileHandle.t) (totalBatches i : Z)
    (w : World.t) :
  BATCH_SIZE < 0 -> i <= 0 -> pdfFiles <> [] ->
  anyRejects pdfFiles = false ->
  completionOf (batchLoop fuel pdfFiles totalBatches i w) = OutOfFuel.
Proof.
  intros HB Hi Hne Hr. revert i w Hi.
  assert (0 < Z.of_nat (List.length pdfFiles)) as Hlen.
  { destruct pdfFiles; [now elim Hne | cbn [List.length]; lia]. }
  induction fuel as [|fuel IH]; intros i w Hi; cbn [batchLoop];
    destruct (Z.ltb_spec i (Z.of_nat (List.length pdfFiles))); try lia;
    [reflexivity|].
  cbv zeta. unfold bind.
  pose proof (processPDFBatch_ends
                (JsArray.slice pdfFiles i (i + BATCH_SIZE))
                (Math_floor_div i BATCH_SIZE + 1) totalBatches w) as Hc.
  rewrite anyRejects_slice in Hc by exact Hr.
  destruct (processPDFBatch _ _ _ w) as [c w1]. cbn in Hc. subst c.
  cbn. apply IH. lia.
Qed.

(** X22.  A negative batch size makes the loop walk backwards: over a
    directory that holds a PDF entry and whose files can all be
    fetched, a run then never ends, however many rounds it is
    given. *)
Theorem negative_batch_size_never_ends (fuel : nat) (w : World.t)
    (dir dir' : list FileSystemFileHandle.t)
    (rest : list (option (list FileSystemFileHandle.t))) :
  BATCH_SIZE < 0 ->
  World.pickers w = Some dir :: Some dir' :: rest ->
  (exists h, In h dir /\ isPdfEntry h = true) ->
  (forall h, In h dir -> FileSystemFileHandle.getFile h <> None) ->
  completionOf (analysePDFs fuel w) = OutOfFuel.
Proof.
  intros HB Hp (h & Hin & Hh) Hg. rewrite analysePDFs_run, Hp. cbv zeta.
  match goal with
  | |- context [batchLoop ?f ?fs ?tb ?i ?w1] =>
      pose proof (batchLoop_backwards f fs tb i w1 HB (Z.le_refl 0)) as Hl;
      destruct (batchLoop f fs tb i w1) as [c w2]
  end.
  cbn in Hl. rewrite Hl; [reflexivity| |].
  - intros He.
    assert (In h (filter isPdfEntry dir)) as Hf
      by (apply filter_In; now split).
    rewrite He in Hf. destruct Hf.
  - apply not_true_is_false. intros Hs. unfold anyRejects in Hs.
    apply existsb_exists in Hs as (x & Hx & Hrej).
    apply filter_In in Hx as [Hx _]. unfold getFileRejects in Hrej.
    apply andb_prop in Hrej as [_ Hrej].
    specialize (Hg x Hx).
    destruct (FileSystemFileHandle.getFile x); [discriminate | now elim Hg].
Qed.

End App.

(* ================================================================== *)
(** ** The component on sample inputs *)

(** C1 (what the code does).  On the directory of the end-to-end
    example, with batch size 2, the run ends with tallies
    WIDE 3, A3 0, A4 1 and the two records A-WIDE.pdf and D-A4.pdf:
    B-A3.PDF is listed but dropped by the case-sensitive test on the
    extension.  The export then has 3 category rows and 2 file rows.
    With the extension in lower case the run gives what the example
    expects. *)
Theorem C1_end_to_end_run (toLocaleDateString : Z -> string)
    (otherToUpper otherToLower : string -> string -> string -> string) :
  (let w' :=
     stateOf (analysePDFs toLocaleDateString 2 otherToUpper otherToLower 4
                (Sample.world Sample.endToEnd)) in
   AppState.pageCounts (World.ui w') = PageCounts.Build 3 0 1
   /\ map FileInfo.name (AppState.fileList (World.ui w'))
      = ["A-WIDE.pdf"; "D-A4.pdf"]%string
   /\ downloadDisabled (World.ui w') = false
   /\ List.length
        (sheetRows "Page Counter" (snd (downloadExcel (World.ui w')))) = 3%nat
   /\ List.length
        (sheetRows "Completed Files" (snd (downloadExcel (World.ui w'))))
      = 2%nat)
  /\ (let w' :=
        stateOf (analysePDFs toLocaleDateString 2 otherToUpper otherToLower 4
                   (Sample.world Sample.endToEndLowerCase)) in
      AppState.pageCounts (World.ui w') = PageCounts.Build 3 5 1
      /\ map FileInfo.name (AppState.fileList (World.ui w'))
         = ["A-WIDE.pdf"; "B-A3.pdf"; "D-A4.pdf"]%string
      /\ downloadDisabled (World.ui w') = false
      /\ List.length
           (sheetRows "Page Counter" (snd (downloadExcel (World.ui w'))))
         = 3%nat
      /\ List.length
           (sheetRows "Completed Files" (snd (downloadExcel (World.ui w'))))
         = 3%nat).
Proof. vm_compute. repeat split. Qed.

(** C3 (what the code does).  A file whose [getFile] rejects ends the
    run: the rejection leaves [processPDFFile] before its [try], is
    caught by [analysePDFs] and shown in an alert, and the files after
    it are never opened.  A file whose bytes cannot be read or parsed
    is skipped and the run goes on. *)
Theorem C3_getFile_rejection_aborts_run (toLocaleDateString : Z -> string)
    (otherToUpper otherToLower : string -> string -> string -> string) :
  (let r :=
     analysePDFs toLocaleDateString 2 otherToUpper otherToLower 3 (Sample.world
         Sample.withGoneFile) in
   completionOf r = Normal tt
   /\ map FileInfo.name (AppState.fileList (World.ui (stateOf r)))
      = ["A-WIDE.pdf"]%string
   /\ AppState.pageCounts (World.ui (stateOf r)) = PageCounts.Build 3 0 0
   /\ World.trace (stateOf r)
      = [CallGetFile "A-WIDE.pdf"; CallArrayBuffer "A-WIDE.pdf";
         CallGetDocument "A-WIDE.pdf"; CallDestroy "A-WIDE.pdf"; Delay 100;
         CallGetFile "B-A4.pdf";
         ConsoleError NotFoundError; Alert NotFoundError])
  /\ (let r :=
        analysePDFs toLocaleDateString 2 otherToUpper otherToLower 4
            (Sample.world Sample.withBadFiles) in
      completionOf r = Normal tt
      /\ map FileInfo.name (AppState.fileList (World.ui (stateOf r)))
         = ["A-WIDE.pdf"; "C-A3.pdf"]%string
      /\ AppState.pageCounts (World.ui (stateOf r)) = PageCounts.Build 3 5 0
      /\ ~ In (Alert NotReadableError) (World.trace (stateOf r))
      /\ ~ In (Alert InvalidPDFException) (World.trace (stateOf r))).
Proof.
  vm_compute. repeat split; try reflexivity.
  all: intros H; repeat (destruct H as [H|H]; [discriminate|]); exact H.
Qed.

(** C4 (what the code does).  A tally is raised before the document is
    released, and a document that cannot be released yields no record:
    on a directory whose first file, A-WIDE.pdf of 3 pages, is such a
    document, the run ends with the tally WIDE 3 and with the one record
    B-A4.pdf, so the tally of WIDE is not the sum of the pages of the
    records of WIDE, in the run's own objects and on the page alike.
    With a document that can be released in its place the run ends with
    both records.  When every document of the directory can be
    released, each tally is the sum of the pages of the records of its
    category after every batch and at the end of every run. *)
Theorem C4_tally_raised_without_record (toLocaleDateString : Z -> string)
    (otherToUpper otherToLower : string -> string -> string -> string) :
  (let r :=
     analysePDFs toLocaleDateString 2 otherToUpper otherToLower 1
       (Sample.world Sample.withStuckFile) in
   completionOf r = Normal tt
   /\ map FileInfo.name (World.processedFiles (stateOf r))
      = ["B-A4.pdf"]%string
   /\ World.counts (stateOf r) = PageCounts.Build 3 0 1
   /\ map FileInfo.name (AppState.fileList (World.ui (stateOf r)))
      = ["B-A4.pdf"]%string
   /\ AppState.pageCounts (World.ui (stateOf r)) = PageCounts.Build 3 0 1
   /\ PageCounts.get FileType.WIDE (AppState.pageCounts (World.ui (stateOf r)))
      = 3%N
   /\ pagesOfType FileType.WIDE (AppState.fileList (World.ui (stateOf r)))
      = 0%N
   /\ World.trace (stateOf r)
      = [CallGetFile "A-WIDE.pdf"; CallArrayBuffer "A-WIDE.pdf";
         CallGetDocument "A-WIDE.pdf"; CallDestroy "A-WIDE.pdf";
         ConsoleError DestroyFailed; Delay 100;
         CallGetFile "B-A4.pdf"; CallArrayBuffer "B-A4.pdf";
         CallGetDocument "B-A4.pdf"; CallDestroy "B-A4.pdf"; Delay 100;
         Delay 200])
  /\ (let r :=
        analysePDFs toLocaleDateString 2 otherToUpper otherToLower 1
          (Sample.world Sample.withoutStuckFile) in
      map FileInfo.name (AppState.fileList (World.ui (stateOf r)))
      = ["A-WIDE.pdf"; "B-A4.pdf"]%string
      /\ AppState.pageCounts (World.ui (stateOf r)) = PageCounts.Build 3 0 1
      /\ pagesOfType FileType.WIDE (AppState.fileList (World.ui (stateOf r)))
         = 3%N)
  /\ (forall BATCH_SIZE batch currentBatch totalBatches w,
        allReleased batch ->
        Consistent w ->
        Consistent
          (stateOf
             (processPDFBatch toLocaleDateString BATCH_SIZE otherToUpper
                batch currentBatch totalBatches w)))
  /\ (forall BATCH_SIZE fuel w,
        (forall dir rest,
            World.pickers w = Some dir :: rest -> allReleased dir) ->
        talliesMatch (AppState.pageCounts (World.ui w))
                     (AppState.fileList (World.ui w)) ->
        let w' :=
          stateOf (analysePDFs toLocaleDateString BATCH_SIZE otherToUpper
                     otherToLower fuel w) in
        (forall X,
            PageCounts.get X (AppState.pageCounts (World.ui w')) =
            pagesOfType X (AppState.fileList (World.ui w')))
        /\ (forall dir dir' rest X,
              World.pickers w = Some dir :: Some dir' :: rest ->
              PageCounts.get X (World.counts w') =
              pagesOfType X (World.processedFiles w'))).
Proof.
  split; [vm_compute; repeat split|].
  split; [vm_compute; repeat split|].
  split; intros B;
    destruct (tallies_match_when_released toLocaleDateString B otherToUpper
                otherToLower) as [H1 H2].
  - exact H1.
  - exact H2.
Qed.

(* ================================================================== *)
(** ** The theorems at work on the sample inputs *)

Lemma compareCodeUnits_trans (a b c : string) :
  Sample.compareCodeUnits a b <= 0 -> Sample.compareCodeUnits b c <= 0 ->
  Sample.compareCodeUnits a c <= 0.
Proof. unfold Sample.compareCodeUnits. lia. Qed.

Lemma compareCodeUnits_antisym (a b : string) :
  Z.sgn (Sample.compareCodeUnits b a) = - Z.sgn (Sample.compareCodeUnits a b).
Proof.
  unfold Sample.compareCodeUnits. rewrite <- Z.sgn_opp. f_equal. lia.
Qed.

Lemma no_marker (fname marker : string) :
  asciiToUpperCase marker = marker ->
  includes (asciiToUpperCase fname) marker = false ->
  ~ containsIgnoringCase fname marker.
Proof.
  intros Hm Hf C. apply includes_asciiToUpperCase in C.
  rewrite Hm in C. congruence.
Qed.

Lemma has_marker (fname marker : string) :
  asciiToUpperCase marker = marker ->
  includes (asciiToUpperCase fname) marker = true ->
  containsIgnoringCase fname marker.
Proof.
  intros Hm Hf. apply includes_asciiToUpperCase. now rewrite Hm.
Qed.

(** C2 on a name with two markers in mixed case, where -WIDE wins over
    -A3, and on a name with none. *)
Lemma C2_classifier_witness :
  (completionOf
     (processPDFFile Sample.printDate Sample.otherToUpper
         (Sample.pdf "site-a3-Wide.pdf" 3)
        (Sample.world []))
   = Normal (Some (FileInfo.Build "site-a3-Wide.pdf" 3 FileType.WIDE
                     "01-02-2024" (Sample.pdf "site-a3-Wide.pdf" 3)))
   /\ World.counts
        (stateOf
           (processPDFFile Sample.printDate Sample.otherToUpper
               (Sample.pdf "site-a3-Wide.pdf" 3)
              (Sample.world [])))
      = PageCounts.Build 3 0 0)
  /\ sameData
       (stateOf
          (processOne Sample.printDate Sample.otherToUpper
              (Sample.pdf "C-unknown.pdf" 2)
             (Sample.world [])))
       (Sample.world []).
Proof.
  split.
  - destruct (C2_classifier Sample.printDate Sample.otherToUpper
                (Sample.pdf "site-a3-Wide.pdf" 3) (Sample.world []))
      as [H _].
    destruct (H (File.Build 0 (Some (PdfData (Sample.document 3))))
                (Sample.document 3) eq_refl eq_refl eq_refl eq_refl)
      as [HW _]; [discriminate|].
    apply HW. reflexivity.
  - destruct (C2_classifier Sample.printDate Sample.otherToUpper
                (Sample.pdf "C-unknown.pdf" 2) (Sample.world []))
      as (_ & H & _).
    destruct H as (_ & _ & _ & HS); try reflexivity.
    exact HS.
Defined.

(** C2 as the specification has it fails on a file that is not a PDF
    inside, and on one with its extension in capitals: each name
    carries -A3, and neither file is given a category, a record or a
    tally. *)
Lemma C2_counterexample :
  (containsIgnoringCase "E-A3.pdf" "-A3"
   /\ completionOf
        (processPDFFile Sample.printDate Sample.otherToUpper
           (Sample.corrupt "E-A3.pdf") (Sample.world []))
      = Normal None
   /\ World.counts
        (stateOf
           (processPDFFile Sample.printDate Sample.otherToUpper
              (Sample.corrupt "E-A3.pdf") (Sample.world [])))
      = PageCounts.zero)
  /\ (containsIgnoringCase "B-A3.PDF" "-A3"
      /\ completionOf
           (processPDFFile Sample.printDate Sample.otherToUpper
              (Sample.pdf "B-A3.PDF" 5) (Sample.world []))
         = Normal None
      /\ World.counts
           (stateOf
              (processPDFFile Sample.printDate Sample.otherToUpper
                 (Sample.pdf "B-A3.PDF" 5) (Sample.world [])))
         = PageCounts.zero)
  /\ (~ containsIgnoringCase Sample.dotlessName "-WIDE"
      /\ ~ containsIgnoringCase Sample.dotlessName "-A3"
      /\ ~ containsIgnoringCase Sample.dotlessName "-A4"
      /\ completionOf
           (processPDFFile Sample.printDate Sample.otherToUpper
              (Sample.pdf Sample.dotlessName 2) (Sample.world []))
         = Normal (Some (FileInfo.Build Sample.dotlessName 2 FileType.WIDE
                           "01-02-2024" (Sample.pdf Sample.dotlessName 2)))
      /\ World.counts
           (stateOf
              (processPDFFile Sample.printDate Sample.otherToUpper
                 (Sample.pdf Sample.dotlessName 2) (Sample.world [])))
         = PageCounts.Build 2 0 0).
Proof.
  repeat split; try (apply has_marker; reflexivity);
    apply no_marker; reflexivity.
Qed.

(** C5 on four files in batches of two. *)
Lemma C5_batching_refines_sequential_witness :
  0 < 2
  /\ (List.length Sample.endToEndLowerCase <= 4)%nat
  /\ Z.of_nat (List.length (batchesOf 2 Sample.endToEndLowerCase)) = 2
  /\ AppState.fileList
       (World.ui
          (stateOf (batchLoop Sample.printDate 2 Sample.otherToUpper 4
              Sample.endToEndLowerCase 2 0
                      (Sample.world []))))
     = AppState.fileList
         (World.ui
            (stateOf (forEachFile Sample.printDate Sample.otherToUpper
                Sample.endToEndLowerCase
                        (Sample.world [])))).
Proof.
  assert (0 < 2) as HB by lia.
  assert (List.length Sample.endToEndLowerCase <= 4)%nat as HF by (cbn; lia).
  destruct (C5_batching_refines_sequential Sample.printDate 2
      Sample.otherToUpper
              Sample.endToEndLowerCase 4 2 (Sample.world []) HB HF)
    as (_ & HL & _ & _ & _ & _ & _ & HR & _).
  split; [exact HB|]. split; [exact HF|]. split; [exact HL | exact HR].
Defined.



(** C7 on the empty query, and on a query that occurs nowhere. *)
Lemma C7_filter_witness :
  filteredFiles Sample.otherToLower (Sample.analysed Sample.elevenFiles)
  = Sample.elevenFiles
  /\ filteredFiles Sample.otherToLower
       (changeSearch "zebra" (Sample.analysed Sample.elevenFiles))
     = [].
Proof.
  split.
  - destruct (C7_filter Sample.otherToLower
                (Sample.analysed Sample.elevenFiles)) as [H _].
    apply H. reflexivity.
  - destruct (C7_filter Sample.otherToLower
                (changeSearch "zebra" (Sample.analysed Sample.elevenFiles)))
      as (_ & Hiff & _ & _ & Hnone & _).
    apply Hnone. intros f Hf M. apply Hiff in M.
    cbn in Hf.
    repeat (destruct Hf as [<-|Hf]; [vm_compute in M; discriminate M|]).
    destruct Hf.
Defined.

(** C7 as the specification has it fails on a query that ends in a
    capital sigma: the query alpha sigma stands at the head of the name
    of the record, letter for letter, and the record is not kept,
    because the sigma of the query is lower-cased as a final sigma and
    the sigma of the name is not.  The longer query alpha sigma alpha
    keeps the record. *)
Lemma C7_counterexample :
  (exists post,
      FileInfo.name Sample.greekRecord
      = (Sample.capitalAlphaSigma ++ post)%string)
  /\ containsIgnoringCase (FileInfo.name Sample.greekRecord)
       Sample.capitalAlphaSigma
  /\ filteredFiles Sample.otherToLower
       (changeSearch Sample.capitalAlphaSigma
          (Sample.analysed [Sample.greekRecord]))
     = []
  /\ filteredFiles Sample.otherToLower
       (changeSearch Sample.capitalAlphaSigmaAlpha
          (Sample.analysed [Sample.greekRecord]))
     = [Sample.greekRecord].
Proof.
  split; [|split; [|split; reflexivity]].
  - eexists. reflexivity.
  - exists EmptyString, Sample.capitalAlphaSigma.
    eexists. split; [reflexivity|].
    apply equalIgnoringCase_iff. reflexivity.
Qed.

(** C8 on twenty-five records, shown on page 1. *)
Lemma C8_pagination_witness :
  List.length
    (sortedFiles Sample.compareCodeUnits Sample.otherToLower (Sample.analysed
        Sample.twentyFiveFiles))
  = 25%nat
  /\ totalPages Sample.compareCodeUnits Sample.otherToLower (Sample.analysed
      Sample.twentyFiveFiles)
     = 3
  /\ List.length
       (visibleFiles Sample.compareCodeUnits Sample.otherToLower
          (AppState.setCurrentPage 3 (Sample.analysed Sample.twentyFiveFiles)))
     = 5%nat
  /\ clickPrevious Sample.compareCodeUnits Sample.otherToLower
       (Sample.analysed Sample.twentyFiveFiles)
     = Sample.analysed Sample.twentyFiveFiles
  /\ AppState.currentPage
       (clickNext Sample.compareCodeUnits Sample.otherToLower
          (Sample.analysed Sample.twentyFiveFiles))
     <= 3.
Proof.
  assert (List.length
            (sortedFiles Sample.compareCodeUnits Sample.otherToLower
               (Sample.analysed Sample.twentyFiveFiles)) = 25%nat) as H25
    by reflexivity.
  destruct (C8_pagination Sample.compareCodeUnits Sample.otherToLower
              (Sample.analysed Sample.twentyFiveFiles)) as (_ & H & HN).
  destruct (H H25) as (HT & _ & _ & H3 & _).
  assert (1 <= AppState.currentPage (Sample.analysed Sample.twentyFiveFiles)
          <= totalPages Sample.compareCodeUnits Sample.otherToLower
               (Sample.analysed Sample.twentyFiveFiles)) as Hp
    by (rewrite HT; cbn; lia).
  destruct (HN Hp) as (_ & Hnext & _ & _ & Hprev & _).
  split; [exact H25|]. split; [exact HT|]. split; [exact H3|].
  split; [apply Hprev; reflexivity|].
  rewrite <- HT. apply Hnext.
Defined.

(** C9 on the unclassified file of the end-to-end example: it is read,
    parsed and released. *)
Lemma C9_parse_precedes_classification_witness :
  World.trace
    (stateOf
       (processPDFFile Sample.printDate Sample.otherToUpper
           (Sample.pdf "C-unknown.pdf" 2)
          (Sample.world [])))
  = [CallGetFile "C-unknown.pdf"; CallArrayBuffer "C-unknown.pdf";
     CallGetDocument "C-unknown.pdf"; CallDestroy "C-unknown.pdf"].
Proof.
  destruct (C9_parse_precedes_classification Sample.printDate
              Sample.otherToUpper (Sample.pdf "C-unknown.pdf" 2)
              (File.Build 0 (Some (PdfData (Sample.document 2))))
              (Sample.world []) eq_refl eq_refl eq_refl) as (_ & _ & H & _).
  destruct (H (Sample.document 2) eq_refl eq_refl eq_refl eq_refl) as [Ht _].
  exact Ht.
Defined.

(** C9 as the specification has it fails on that file: its name carries
    no marker, it gives no record, and yet its bytes were read and
    handed to the parser. *)
Lemma C9_counterexample :
  ~ containsIgnoringCase "C-unknown.pdf" "-WIDE"
  /\ ~ containsIgnoringCase "C-unknown.pdf" "-A3"
  /\ ~ containsIgnoringCase "C-unknown.pdf" "-A4"
  /\ completionOf
       (processPDFFile Sample.printDate Sample.otherToUpper
           (Sample.pdf "C-unknown.pdf" 2)
          (Sample.world []))
     = Normal None
  /\ In (CallArrayBuffer "C-unknown.pdf")
       (World.trace
          (stateOf
             (processPDFFile Sample.printDate Sample.otherToUpper
                 (Sample.pdf "C-unknown.pdf" 2)
                (Sample.world []))))
  /\ In (CallGetDocument "C-unknown.pdf")
       (World.trace
          (stateOf
             (processPDFFile Sample.printDate Sample.otherToUpper
                 (Sample.pdf "C-unknown.pdf" 2)
                (Sample.world [])))).
Proof.
  repeat split; try (apply no_marker; reflexivity).
  - vm_compute. auto.
  - vm_compute. auto.
Qed.

(** X5.  The export is the store: one row for each of WIDE, A3, A4 in
    that order, and one row for each record in the order of the file list,
    under a fixed file name; the search, the sort and the page shown do
    not enter into it. *)
Theorem export_reflects_store (st : AppState.t) :
  fst (downloadExcel st) = "PDF_Data.xlsx"%string
  /\ map fst (snd (downloadExcel st))
     = ["Page Counter"; "Completed Files"]%string
  /\ sheetRows "Page Counter" (snd (downloadExcel st))
     = map (fun X =>
              [("Type"%string, Str (FileType.label X));
               ("Pages"%string, Num (PageCounts.get X
                   (AppState.pageCounts st)))])
           [FileType.WIDE; FileType.A3; FileType.A4]
  /\ map (fun row => map snd row)
         (sheetRows "Completed Files" (snd (downloadExcel st)))
     = map (fun f =>
              [Str (FileInfo.name f); Str (FileType.label (FileInfo.type f));
               Num (FileInfo.pages f); Str (FileInfo.createdAt f)])
           (AppState.fileList st)
  /\ (forall q, downloadExcel (AppState.setSearchQuery q st) = downloadExcel st)
  /\ (forall field direction,
        downloadExcel
          (AppState.setSortDirection direction (AppState.setSortField field st))
        = downloadExcel st)
  /\ (forall p, downloadExcel
      (AppState.setCurrentPage p st) = downloadExcel st).
Proof.
  repeat split.
  unfold downloadExcel, sheetRows. cbn [snd fst find String.eqb].
  cbn. rewrite map_map. reflexivity.
Qed.

(** X1 on a file that is not a PDF inside. *)
Lemma read_and_parse_failures_are_skipped_witness :
  completionOf
    (processOne Sample.printDate Sample.otherToUpper
        (Sample.corrupt "B2-A4.pdf") (Sample.world []))
  = Normal tt
  /\ World.processedFiles
       (stateOf
          (processOne Sample.printDate Sample.otherToUpper
              (Sample.corrupt "B2-A4.pdf")
             (Sample.world [])))
     = [].
Proof.
  destruct (read_and_parse_failures_are_skipped Sample.printDate
      Sample.otherToUpper
              (Sample.corrupt "B2-A4.pdf") (File.Build 0 (Some OtherData))
              (Sample.world []) eq_refl) as (H1 & _ & H2 & _).
  - intros n. discriminate.
  - split; [exact H1 | exact H2].
Defined.

(** X2 on the directory with a file that has gone: the run still ends. *)
Lemma analysePDFs_settles_witness :
  completionOf
    (analysePDFs Sample.printDate 2 Sample.otherToUpper Sample.otherToLower 3
        (Sample.world Sample.withGoneFile))
  = Normal tt.
Proof.
  destruct (analysePDFs_settles Sample.printDate 2 Sample.otherToUpper
              Sample.otherToLower 3
              (Sample.world Sample.withGoneFile)) as [H _].
  - lia.
  - intros dir rest E. injection E as <- _. cbn. lia.
  - exact H.
Defined.

(** X3 on four files in batches of two. *)
Lemma records_keep_enumeration_order_witness :
  0 < 2
  /\ exists kept,
       World.processedFiles
         (stateOf
            (batchLoop Sample.printDate 2 Sample.otherToUpper 4
                Sample.endToEndLowerCase 2 0
               (Sample.world [])))
       = kept
       /\ subsequence (map FileInfo.fileHandle kept) Sample.endToEndLowerCase.
Proof.
  assert (0 < 2) as HB by lia.
  split; [exact HB|].
  destruct (records_keep_enumeration_order Sample.printDate 2
      Sample.otherToUpper
              Sample.endToEndLowerCase 4 2 (Sample.world []) HB)
    as (kept & H1 & H2 & _).
  - cbn. lia.
  - exists kept. split; [exact H1 | exact H2].
Defined.

(** X4 on the table of the eleven files, sorted by name. *)
Lemma sortedFiles_in_order_witness :
  Permutation
    (sortedFiles Sample.compareCodeUnits Sample.otherToLower (Sample.analysed
        Sample.elevenFiles))
    (filteredFiles Sample.otherToLower (Sample.analysed Sample.elevenFiles)).
Proof.
  destruct (sortedFiles_in_order Sample.compareCodeUnits Sample.otherToLower
              compareCodeUnits_antisym compareCodeUnits_trans
              (Sample.analysed Sample.elevenFiles)) as [_ H].
  exact H.
Defined.

(* ================================================================== *)
(** ** The viewer *)

Section ViewerFacts.
Import Viewer.
Local Open Scope viewer_scope.

Lemma openPdfViewer_run (file : FileInfo.t) (w : World) :
  openPdfViewer file w
  = (Normal tt,
     let name := FileSystemFileHandle.name (FileInfo.fileHandle file) in
     let selected := setSelectedFile (Some file) (state w) in
     match FileSystemFileHandle.getFile (FileInfo.fileHandle file) with
     | None =>
         MkWorld selected (nextUrl w)
           (trace w ++ [GetFile name; ConsoleError NotFoundError; Alert])
     | Some fileData =>
         let url := MkUrl (nextUrl w) fileData in
         let called := [GetFile name; CreateObjectURL url; GetDocument url] in
         let failed e :=
           MkWorld (setPdfUrl (Some url) selected) (S (nextUrl w))
             (trace w ++ called ++ [ConsoleError e; Alert]) in
         match File.arrayBuffer fileData with
         | None => failed NotReadableError
         | Some OtherData => failed InvalidPDFException
         | Some (PdfData pdf) =>
             MkWorld
               (Build (Some file) (Some url) (Some pdf) 1
                  (Z.of_N (PDFDocumentProxy.numPages pdf)))
               (S (nextUrl w))
               (trace w ++ called
                ++ match pdfDocument (state w) with
                   | Some pdf => [GetPage pdf 1]
                   | None => []
                   end)
         end
     end).
Proof.
  destruct w as [[sel url doc page total] k tr].
  destruct file as [nm pg ty cr [kd hn [[lm [[pdf|]|]]|]]];
    destruct doc; cbv - [app]; rewrite <- ?app_assoc; reflexivity.
Qed.

Lemma closeModal_run (w : World) :
  closeModal w
  = (Normal tt,
     MkWorld initial (nextUrl w)
       (trace w
        ++ match pdfUrl (state w) with
           | Some url => [RevokeObjectURL url]
           | None => []
           end
        ++ match pdfDocument (state w) with
           | Some pdf => [Destroy pdf]
           | None => []
           end)).
Proof.
  destruct w as [[sel [url|] [doc|] page total] k tr];
    cbv - [app]; rewrite <- ?app_assoc, ?app_nil_r; reflexivity.
Qed.

Lemma changePage_run (newPage : Z) (w : World) :
  changePage newPage w
  = (Normal tt,
     if (1 <=? newPage) && (newPage <=? totalPdfPages (state w)) then
       MkWorld (setCurrentPdfPage newPage (state w)) (nextUrl w)
         (trace w
          ++ match pdfDocument (state w) with
             | Some pdf => [GetPage pdf newPage]
             | None => []
             end)
     else w).
Proof.
  destruct w as [[sel url [doc|] page total] k tr];
    unfold changePage, bind, getState; cbn [state totalPdfPages];
    destruct ((1 <=? newPage) && (newPage <=? total)); cbn;
    rewrite ?app_nil_r; reflexivity.
Qed.

Lemma coherent_pages (s : t) :
  coherent s ->
  (0 < totalPdfPages s -> modalShown s = true)
  /\ 1 <= currentPdfPage s
  /\ (currentPdfPage s = 1 \/ currentPdfPage s <= totalPdfPages s).
Proof.
  unfold coherent. destruct (pdfDocument s); intros ([H1 H2] & H3 & _);
    repeat split; try lia; auto.
Qed.

Lemma clickPreviousPage_run (w : World) :
  clickPreviousPage w
  = if modalShown (state w) && negb (previousDisabled (state w)) then
      changePage (currentPdfPage (state w) - 1) w
    else (Normal tt, w).
Proof.
  unfold clickPreviousPage, bind, getState.
  now destruct (modalShown (state w) && negb (previousDisabled (state w))).
Qed.

Lemma clickNextPage_run (w : World) :
  clickNextPage w
  = if modalShown (state w) && negb (nextDisabled (state w)) then
      changePage (currentPdfPage (state w) + 1) w
    else (Normal tt, w).
Proof.
  unfold clickNextPage, bind, getState.
  now destruct (modalShown (state w) && negb (nextDisabled (state w))).
Qed.

Lemma changePage_keeps (newPage : Z) (w : World) :
  coherent (state w) -> pagesWithinDocuments (trace w) ->
  coherent (state (snd (changePage newPage w)))
  /\ pagesWithinDocuments (trace (snd (changePage newPage w))).
Proof.
  intros Hc Hp. rewrite changePage_run. cbn [snd].
  destruct (Z.leb_spec 1 newPage); cbn [andb]; [|now split].
  destruct (Z.leb_spec newPage (totalPdfPages (state w))); [|now split].
  destruct w as [[sel url doc page total] k tr].
  unfold coherent, modalShown in *. cbn in *.
  destruct doc as [pdf|].
  - destruct Hc as ([Ht Hm] & Hr & Hu). split.
    + repeat split; auto.
    + intros d n Hin. apply in_app_or in Hin as [Hin|[Hin|[]]];
        [now apply Hp|]. injection Hin as <- <-. right. lia.
  - destruct Hc as ([Ht _] & _). lia.
Qed.

Lemma handle_keeps (a : Action) (w : World) :
  coherent (state w) -> pagesWithinDocuments (trace w) ->
  fst (handle a w) = Normal tt
  /\ coherent (state (snd (handle a w)))
  /\ pagesWithinDocuments (trace (snd (handle a w))).
Proof.
  intros Hc Hp. destruct a as [file| |newPage| |]; cbn [handle].
  - rewrite openPdfViewer_run. cbn [fst snd]. split; [reflexivity|].
    destruct w as [[sel url doc page total] k tr].
    unfold coherent, modalShown, pagesWithinDocuments in *. cbn in *.
    destruct (FileSystemFileHandle.getFile (FileInfo.fileHandle file))
      as [fileData|]; [destruct (File.arrayBuffer fileData) as [[n|]|]|];
      cbn.
    + split; [repeat split; try (left; reflexivity); discriminate|].
      intros d m Hin. apply in_app_or in Hin as [Hin|Hin]; [now apply Hp|].
      cbn in Hin. destruct Hin as [Hin|[Hin|[Hin|Hin]]]; try discriminate.
      destruct doc; [destruct Hin as [Hin|[]]; injection Hin as <- <-;
                     now left | destruct Hin].
    + split.
      * destruct doc; destruct Hc as ([H1 H2] & H3 & H4);
          repeat split; auto; discriminate.
      * intros d m Hin. apply in_app_or in Hin as [Hin|Hin]; [now apply Hp|].
        cbn in Hin. repeat (destruct Hin as [Hin|Hin]; [discriminate|]).
        destruct Hin.
    + split.
      * destruct doc; destruct Hc as ([H1 H2] & H3 & H4);
          repeat split; auto; discriminate.
      * intros d m Hin. apply in_app_or in Hin as [Hin|Hin]; [now apply Hp|].
        cbn in Hin. repeat (destruct Hin as [Hin|Hin]; [discriminate|]).
        destruct Hin.
    + split.
      * destruct doc; destruct Hc as ([H1 H2] & H3 & H4);
          repeat split; auto; try discriminate.
        destruct sel, url; try discriminate H2; reflexivity.
      * intros d m Hin. apply in_app_or in Hin as [Hin|Hin]; [now apply Hp|].
        cbn in Hin. repeat (destruct Hin as [Hin|Hin]; [discriminate|]).
        destruct Hin.
  - rewrite closeModal_run. cbn [fst snd state trace]. split; [reflexivity|].
    split.
    + unfold coherent. cbn. repeat split; auto; try (intros H; now elim H).
    + intros d m Hin. apply in_app_or in Hin as [Hin|Hin]; [now apply Hp|].
      apply in_app_or in Hin as [Hin|Hin].
      * destruct (pdfUrl (state w)); [destruct Hin as [Hin|[]]|destruct Hin].
        discriminate.
      * destruct (pdfDocument (state w));
          [destruct Hin as [Hin|[]]|destruct Hin]. discriminate.
  - split; [now rewrite changePage_run | now apply changePage_keeps].
  - rewrite clickPreviousPage_run.
    destruct (modalShown (state w) && negb (previousDisabled (state w)));
      [|cbn [fst snd]; split; [reflexivity | split; assumption]].
    split; [now rewrite changePage_run | now apply changePage_keeps].
  - rewrite clickNextPage_run.
    destruct (modalShown (state w) && negb (nextDisabled (state w)));
      [|cbn [fst snd]; split; [reflexivity | split; assumption]].
    split; [now rewrite changePage_run | now apply changePage_keeps].
Qed.

Lemma session_keeps (actions : list Action) (w : World) :
  coherent (state w) -> pagesWithinDocuments (trace w) ->
  fst (session actions w) = Normal tt
  /\ coherent (state (snd (session actions w)))
  /\ pagesWithinDocuments (trace (snd (session actions w))).
Proof.
  revert w. induction actions as [|a rest IH]; intros w Hc Hp;
    [cbn; split; [reflexivity | split; assumption]|].
  cbn [session]. unfold bind.
  destruct (handle_keeps a w Hc Hp) as (Hn & Hc' & Hp').
  destruct (handle a w) as [[[]| |] w1]; try discriminate Hn.
  now apply IH.
Qed.

Lemma start_coherent :
  coherent (state start) /\ pagesWithinDocuments (trace start).
Proof.
  split; [|intros d n []].
  unfold coherent. cbn. repeat split; auto; try (intros H; now elim H).
Qed.

(** X15.  Whatever is asked of the viewer, in whatever order, each
    handler returns and the cells stay coherent: a document held goes
    with its own page count and an open modal, no document goes with
    page 1 of 0, the page is 1 or lies within the document, and a URL
    held goes with a selected file. *)
Theorem viewer_cells_stay_coherent (actions : list Viewer.Action) :
  fst (Viewer.session actions Viewer.start) = Normal tt
  /\ Viewer.coherent
       (Viewer.state (snd (Viewer.session actions Viewer.start))).
Proof.
  destruct start_coherent as [Hc Hp].
  destruct (session_keeps actions start Hc Hp) as (H1 & H2 & _).
  now split.
Qed.

(** X16.  Whatever is asked of the viewer, every page the handlers
    ask of a document is page 1 or a page that document has. *)
Theorem pages_asked_lie_within_the_document
    (actions : list Viewer.Action) (pdf : PDFDocumentProxy.t) (n : Z) :
  In (Viewer.GetPage pdf n)
     (Viewer.trace (snd (Viewer.session actions Viewer.start))) ->
  n = 1 \/ 1 <= n <= Z.of_N (PDFDocumentProxy.numPages pdf).
Proof.
  destruct start_coherent as [Hc Hp].
  destruct (session_keeps actions start Hc Hp) as (_ & _ & H).
  apply H.
Qed.

(** X17.  In every state the viewer can be brought to, a page button
    that is not disabled moves the page by exactly one and changes no
    other cell: the test of the button and the test inside
    [changePage] never disagree. *)
Theorem enabled_page_buttons_move_by_one (actions : list Viewer.Action) :
  (Viewer.previousDisabled
     (Viewer.state (snd (Viewer.session actions Viewer.start))) = false ->
   Viewer.state
     (snd (Viewer.clickPreviousPage
             (snd (Viewer.session actions Viewer.start))))
   = Viewer.setCurrentPdfPage
       (Viewer.currentPdfPage
          (Viewer.state (snd (Viewer.session actions Viewer.start))) - 1)
       (Viewer.state (snd (Viewer.session actions Viewer.start))))
  /\ (Viewer.nextDisabled
        (Viewer.state (snd (Viewer.session actions Viewer.start))) = false ->
      Viewer.state
        (snd (Viewer.clickNextPage
                (snd (Viewer.session actions Viewer.start))))
      = Viewer.setCurrentPdfPage
          (Viewer.currentPdfPage
             (Viewer.state (snd (Viewer.session actions Viewer.start))) + 1)
          (Viewer.state (snd (Viewer.session actions Viewer.start)))).
Proof.
  destruct start_coherent as [Hc Hp].
  destruct (session_keeps actions start Hc Hp) as (_ & H & _).
  apply coherent_pages in H. destruct H as (Hm & H1 & Hr).
  set (w := snd (session actions start)) in *.
  unfold previousDisabled, nextDisabled. split; intros Hd.
  - apply Z.leb_gt in Hd. rewrite clickPreviousPage_run.
    unfold previousDisabled. rewrite Hm by lia.
    destruct (Z.leb_spec (currentPdfPage (state w)) 1); [lia|]. cbn [andb negb].
    rewrite changePage_run. cbn [snd].
    destruct (Z.leb_spec 1 (currentPdfPage (state w) - 1)); [|lia].
    destruct (Z.leb_spec (currentPdfPage (state w) - 1)
                (totalPdfPages (state w))); [|lia].
    reflexivity.
  - apply Z.leb_gt in Hd. rewrite clickNextPage_run.
    unfold nextDisabled. rewrite Hm by lia.
    destruct (Z.leb_spec (totalPdfPages (state w)) (currentPdfPage (state w)));
      [lia|]. cbn [andb negb].
    rewrite changePage_run. cbn [snd].
    destruct (Z.leb_spec 1 (currentPdfPage (state w) + 1)); [|lia].
    destruct (Z.leb_spec (currentPdfPage (state w) + 1)
                (totalPdfPages (state w))); [|lia].
    reflexivity.
Qed.

(** X18.  Closing after opening puts every cell back to its initial
    value, whatever the state before and however the opening went; the
    URL the opening made is revoked and the document it loaded is
    destroyed by the closing. *)
Theorem close_undoes_open (file : FileInfo.t) (w : Viewer.World) :
  fst ((Viewer.openPdfViewer file;; Viewer.closeModal) w) = Normal tt
  /\ Viewer.state (snd ((Viewer.openPdfViewer file;; Viewer.closeModal) w))
     = Viewer.initial
  /\ exists calls,
       Viewer.trace (snd ((Viewer.openPdfViewer file;; Viewer.closeModal) w))
       = Viewer.trace w ++ calls
       /\ (forall url,
             In (Viewer.CreateObjectURL url) calls ->
             In (Viewer.RevokeObjectURL url) calls)
       /\ (forall pdf,
             Viewer.dataOf file = Some (PdfData pdf) ->
             In (Viewer.Destroy pdf) calls).
Proof.
  unfold bind. rewrite openPdfViewer_run, closeModal_run. cbn [fst snd state].
  split; [reflexivity|]. split; [reflexivity|].
  unfold dataOf.
  destruct w as [[sel url doc page total] k tr]. cbn.
  destruct (FileSystemFileHandle.getFile (FileInfo.fileHandle file))
    as [fileData|]; [destruct (File.arrayBuffer fileData) as [[n|]|]|];
    destruct url, doc; cbn; rewrite <- ?app_assoc;
    eexists; (split; [reflexivity|]); split;
    try discriminate; cbn;
    try (intros m Hm; injection Hm as <-; auto 10);
    intros link Hin;
    repeat (destruct Hin as [Hin|Hin];
            [first [discriminate Hin | injection Hin as <-; auto 10]|]);
    destruct Hin.
Qed.

(** X19.  When the file of the record chosen cannot be fetched, read or
    parsed, opening it on a closed viewer raises the alert and leaves
    the record selected with no document: the modal shows exactly when
    the file could be fetched, and then it reads page 1 of 0 with both
    page buttons disabled and [changePage] doing nothing, whatever the
    page asked for. *)
Theorem failed_open_shows_page_1_of_0 (file : FileInfo.t) (w : Viewer.World) :
  Viewer.state w = Viewer.initial ->
  (forall pdf, Viewer.dataOf file <> Some (PdfData pdf)) ->
  In Viewer.Alert (Viewer.trace (snd (Viewer.openPdfViewer file w)))
  /\ Viewer.selectedFile (Viewer.state (snd (Viewer.openPdfViewer file w)))
     = Some file
  /\ Viewer.pdfDocument (Viewer.state (snd (Viewer.openPdfViewer file w)))
     = None
  /\ Viewer.modalShown (Viewer.state (snd (Viewer.openPdfViewer file w)))
     = match FileSystemFileHandle.getFile (FileInfo.fileHandle file) with
       | Some _ => true
       | None => false
       end
  /\ Viewer.currentPdfPage (Viewer.state (snd (Viewer.openPdfViewer file w)))
     = 1
  /\ Viewer.totalPdfPages (Viewer.state (snd (Viewer.openPdfViewer file w)))
     = 0
  /\ Viewer.previousDisabled
       (Viewer.state (snd (Viewer.openPdfViewer file w))) = true
  /\ Viewer.nextDisabled
       (Viewer.state (snd (Viewer.openPdfViewer file w))) = true
  /\ forall newPage,
       Viewer.changePage newPage (snd (Viewer.openPdfViewer file w))
       = (Normal tt, snd (Viewer.openPdfViewer file w)).
Proof.
  intros Hw Hd. unfold dataOf in Hd.
  assert (forall p w1,
            totalPdfPages (state w1) = 0 ->
            changePage p w1 = (Normal tt, w1)) as Hcp.
  { intros p w1 H0. rewrite changePage_run, H0.
    destruct (Z.leb_spec 1 p); destruct (Z.leb_spec p 0);
      try reflexivity; lia. }
  rewrite openPdfViewer_run. cbn [snd].
  destruct w as [s k tr]. cbn in Hw. subst s. cbn [state nextUrl trace].
  destruct (FileSystemFileHandle.getFile (FileInfo.fileHandle file))
    as [fileData|]; [destruct (File.arrayBuffer fileData) as [[n|]|]|].
  - now elim (Hd n).
  - repeat split; try reflexivity; try (intros p; apply Hcp; reflexivity).
    apply in_or_app. right. do 4 right. now left.
  - repeat split; try reflexivity; try (intros p; apply Hcp; reflexivity).
    apply in_or_app. right. do 4 right. now left.
  - repeat split; try reflexivity; try (intros p; apply Hcp; reflexivity).
    apply in_or_app. right. do 2 right. now left.
Qed.

(** X20.  [openPdfViewer] never asks the document it has just loaded
    for a page: its own call of [renderPdfPage] sees the document of
    the rendering it was called from, so on a closed viewer it asks
    for no page at all, and on an open one it asks the document that
    was open before for page 1. *)
Theorem open_does_not_draw_the_document_it_loads
    (file : FileInfo.t) (w : Viewer.World)
    (pdf : PDFDocumentProxy.t) (n : Z) :
  In (Viewer.GetPage pdf n) (Viewer.trace (snd
      (Viewer.openPdfViewer file w))) ->
  In (Viewer.GetPage pdf n) (Viewer.trace w)
  \/ (Viewer.pdfDocument (Viewer.state w) = Some pdf /\ n = 1).
Proof.
  rewrite openPdfViewer_run. cbn [snd].
  destruct (FileSystemFileHandle.getFile (FileInfo.fileHandle file))
    as [fileData|]; [destruct (File.arrayBuffer fileData) as [[m|]|]|];
    cbn; intros Hin; apply in_app_or in Hin as [Hin|Hin];
    try (now left); cbn in Hin.
  - destruct Hin as [Hin|[Hin|[Hin|Hin]]]; try discriminate.
    destruct (pdfDocument (state w)); [|destruct Hin].
    destruct Hin as [Hin|[]]. injection Hin as <- <-. now right.
  - repeat (destruct Hin as [Hin|Hin]; [discriminate|]). destruct Hin.
  - repeat (destruct Hin as [Hin|Hin]; [discriminate|]). destruct Hin.
  - repeat (destruct Hin as [Hin|Hin]; [discriminate|]). destruct Hin.
Qed.

End ViewerFacts.

(* ================================================================== *)
(** ** The further properties on sample inputs *)

(** X6 on the four sample files: the call of [getFile] on A-WIDE.pdf
    is on an entry of the directory picked. *)
Lemma only_listed_pdfs_are_opened_witness :
  exists h,
    In h Sample.endToEnd
    /\ FileSystemFileHandle.name h = "A-WIDE.pdf"%string
    /\ endsWith (FileSystemFileHandle.name h) ".pdf" = true.
Proof.
  destruct (only_listed_pdfs_are_opened Sample.printDate 2 Sample.otherToUpper
              Sample.otherToLower 3
              (Sample.world Sample.endToEnd)
              (CallGetFile "A-WIDE.pdf") "A-WIDE.pdf")
    as [H|(dir & rest & h & Hp & Hin & Hn & Hk & He)].
  - vm_compute. left. reflexivity.
  - reflexivity.
  - destruct H.
  - injection Hp as <- _. exists h. repeat split; assumption.
Defined.

(** X7 on a page whose pickers are all dismissed. *)
Lemma dismissed_picker_ends_the_run_witness :
  completionOf (analysePDFs Sample.printDate 2 Sample.otherToUpper
      Sample.otherToLower 3 Sample.noPicker) = Normal tt
  /\ World.trace (stateOf (analysePDFs Sample.printDate 2 Sample.otherToUpper
      Sample.otherToLower 3 Sample.noPicker))
     = [ConsoleError AbortError; Alert AbortError].
Proof.
  destruct (dismissed_picker_ends_the_run Sample.printDate 2 Sample.otherToUpper
              Sample.otherToLower 3
              Sample.noPicker) as (H1 & _ & _ & _ & H2 & _).
  - intros dir dir' rest. discriminate.
  - split; [exact H1|]. apply H2. intros dir rest. discriminate.
Defined.

(** X8 on the four sample files: the table shows the run's own
    records. *)
Lemma page_shows_old_results_or_own_witness :
  AppState.fileList
    (World.ui
       (stateOf (analysePDFs Sample.printDate 2 Sample.otherToUpper
           Sample.otherToLower 3
                   (Sample.world Sample.endToEndLowerCase))))
  = World.processedFiles
      (stateOf (analysePDFs Sample.printDate 2 Sample.otherToUpper
          Sample.otherToLower 3
                  (Sample.world Sample.endToEndLowerCase))).
Proof.
  destruct (page_shows_old_results_or_own Sample.printDate 2 Sample.otherToUpper
              Sample.otherToLower 3
              (Sample.world Sample.endToEndLowerCase)) as [_ H].
  - exists Sample.endToEndLowerCase, Sample.endToEndLowerCase, [].
    reflexivity.
  - apply H. vm_compute. discriminate.
Defined.


(** X11 on the four sample files, looked at after the first batch. *)
Lemma progress_stays_within_bounds_witness :
  exists p,
    AppState.progress
      (World.ui
         (stateOf (analysePDFs Sample.printDate 2 Sample.otherToUpper
             Sample.otherToLower 1
                     (Sample.world Sample.endToEndLowerCase))))
    = Some p
    /\ 0 <= ProgressInfo.processed p <= ProgressInfo.total p.
Proof.
  eexists. split; [vm_compute; reflexivity|].
  eapply (progress_stays_within_bounds Sample.printDate 2 Sample.otherToUpper
              Sample.otherToLower 1
            (Sample.world Sample.endToEndLowerCase)).
  - lia.
  - vm_compute. reflexivity.
Defined.

(** X13 on the eleven sample records: from "a4" to "10-A4.p". *)
Lemma longer_query_narrows_witness :
  filteredFiles Sample.otherToLower (changeSearch "10-A4.p" (Sample.analysed
      Sample.elevenFiles))
  = filter (matchesQuery Sample.otherToLower "10-A4.p")
      (filteredFiles Sample.otherToLower (changeSearch "a4" (Sample.analysed
          Sample.elevenFiles))).
Proof.
  destruct (longer_query_narrows Sample.otherToLower "a4" "10-A4.p"
              (Sample.analysed Sample.elevenFiles)) as [H _].
  apply H. reflexivity.
Defined.

(** X16 on a drawing of three pages, opened and turned to page 2. *)
Lemma pages_asked_lie_within_the_document_witness :
  2 = 1 \/ 1 <= 2 <= Z.of_N (PDFDocumentProxy.numPages (Sample.document 3)).
Proof.
  apply (pages_asked_lie_within_the_document
           [Viewer.OpenPdfViewer Sample.drawing; Viewer.ChangePage 2]).
  vm_compute. do 3 right. left. reflexivity.
Defined.

(** X19 on a record whose file has been overwritten. *)
Lemma failed_open_shows_page_1_of_0_witness :
  Viewer.modalShown
    (Viewer.state (snd (Viewer.openPdfViewer Sample.overwritten Viewer.start)))
  = true
  /\ Viewer.totalPdfPages
       (Viewer.state
          (snd (Viewer.openPdfViewer Sample.overwritten Viewer.start)))
     = 0.
Proof.
  destruct (failed_open_shows_page_1_of_0 Sample.overwritten Viewer.start)
    as (_ & _ & _ & Hm & _ & Ht & _).
  - reflexivity.
  - intros n. vm_compute. discriminate.
  - split; [exact Hm | exact Ht].
Defined.

(** X20 on a drawing opened while it is already open: the page asked
    for is page 1 of the document that was open. *)
Lemma open_does_not_draw_the_document_it_loads_witness :
  In (Viewer.GetPage (Sample.document 3) 1)
     (Viewer.trace (snd (Viewer.openPdfViewer Sample.drawing Viewer.start)))
  \/ (Viewer.pdfDocument
        (Viewer.state (snd (Viewer.openPdfViewer Sample.drawing Viewer.start)))
      = Some (Sample.document 3)
      /\ 1 = 1).
Proof.
  apply (open_does_not_draw_the_document_it_loads Sample.drawing
           (snd (Viewer.openPdfViewer Sample.drawing Viewer.start))).
  vm_compute. do 6 right. left. reflexivity.
Defined.

(** X22 on the four sample files with a batch size of -1. *)
Lemma negative_batch_size_never_ends_witness :
  completionOf
    (analysePDFs Sample.printDate (-1) Sample.otherToUpper
        Sample.otherToLower 100
       (Sample.world Sample.endToEndLowerCase))
  = OutOfFuel.
Proof.
  apply (negative_batch_size_never_ends Sample.printDate (-1)
      Sample.otherToUpper
              Sample.otherToLower 100
           (Sample.world Sample.endToEndLowerCase)
           Sample.endToEndLowerCase Sample.endToEndLowerCase []).
  - lia.
  - reflexivity.
  - exists (Sample.pdf "A-WIDE.pdf" 3). split; [left|]; reflexivity.
  - intros h Hin.
    repeat (destruct Hin as [<-|Hin]; [discriminate|]). destruct Hin.
Defined.
